(** * The texture runtime of the rasterizer cache (Vulkan and OpenGL backends)

    A shallow embedding of [video_core/renderer_vulkan/vk_texture_runtime.{h,cpp}],
    [video_core/renderer_opengl/gl_texture_runtime.cpp] and
    [video_core/rasterizer_cache/texture_runtime.cpp].

    Host API calls are not executed: every function threads a world that
    holds the runtime's members and the ordered list of host calls it made,
    so that what was called, with which arguments and in which order, can be
    stated.  A function that reaches [UNREACHABLE()] or a failed [ASSERT]
    ends in [Aborted]. *)

From stdpp Require Import base list numbers.
From coqutil Require Import Byte.
From coqutil Require Import Word.LittleEndianList.

Local Open Scope Z_scope.

(** ** Machine integers *)

(** [u32] arithmetic wraps modulo 2^32. *)
Definition wrap32 (z : Z) : Z := z mod 2 ^ 32.

(** [static_cast<s32>] of a [u32]. *)
Definition to_s32 (z : Z) : Z :=
  if wrap32 z <? 2 ^ 31 then wrap32 z else wrap32 z - 2 ^ 32.

(** [u64] arithmetic ([vk::DeviceSize]) wraps modulo 2^64. *)
Definition wrap64 (z : Z) : Z := z mod 2 ^ 64.

(** [std::bit_width] of a [u32]. *)
Definition bit_width (z : Z) : Z := if z <=? 0 then 0 else Z.log2 z + 1.

(** ** Outcomes and the world-passing monad *)

Inductive Outcome (A : Type) : Type :=
| Returned (a : A)
| Aborted
| OutOfFuel.
Arguments Returned {A} a.
Arguments Aborted {A}.
Arguments OutOfFuel {A}.

Definition M (W A : Type) : Type := W -> Outcome A * W.

Definition ret {W A} (a : A) : M W A := fun w => (Returned a, w).

Definition bind {W A B} (m : M W A) (k : A -> M W B) : M W B :=
  fun w =>
    match m w with
    | (Returned a, w') => k a w'
    | (Aborted, w') => (Aborted, w')
    | (OutOfFuel, w') => (OutOfFuel, w')
    end.

Definition abort {W A} : M W A := fun w => (Aborted, w).

#[global] Instance M_ret {W} : MRet (M W) := fun A a => ret a.
#[global] Instance M_bind {W} : MBind (M W) := fun A B k m => bind m k.

(** Reading and updating the world. *)
Definition get {W} : M W W := fun w => (Returned w, w).
Definition modify {W} (f : W -> W) : M W unit := fun w => (Returned tt, f w).

(** ** Backend-independent types ([namespace VideoCore]) *)

Module VideoCore.

(** Modelled from the spec: [pixel_format.h] is not among the sources.
    The closed enumeration of colour, texture and depth formats; the
    OpenGL format tables index it with RGBA8 = 0 .. RGBA4 = 4 and
    D16 = 14, D24 = 16, D24S8 = 17. *)
Inductive PixelFormat : Set :=
| RGBA8 | RGB8 | RGB5A1 | RGB565 | RGBA4
| IA8 | RG8 | I8 | A8 | IA4 | I4 | A4 | ETC1 | ETC1A4
| D16 | D24 | D24S8
| Invalid.

Definition PixelFormat_index (f : PixelFormat) : Z :=
  match f with
  | RGBA8 => 0 | RGB8 => 1 | RGB5A1 => 2 | RGB565 => 3 | RGBA4 => 4
  | IA8 => 5 | RG8 => 6 | I8 => 7 | A8 => 8 | IA4 => 9 | I4 => 10
  | A4 => 11 | ETC1 => 12 | ETC1A4 => 13
  | D16 => 14 | D24 => 16 | D24S8 => 17
  | Invalid => 255
  end.

Inductive SurfaceType : Set :=
| Color | Texture | Depth | DepthStencil | Fill | InvalidType.

Inductive TextureType : Set := Texture2D | CubeMap.

#[global] Instance PixelFormat_eq_dec : EqDecision PixelFormat.
Proof. solve_decision. Defined.
#[global] Instance SurfaceType_eq_dec : EqDecision SurfaceType.
Proof. solve_decision. Defined.
#[global] Instance TextureType_eq_dec : EqDecision TextureType.
Proof. solve_decision. Defined.

(** Modelled from the spec: [GetFormatType] of [pixel_format.h], the
    fixed classification of every format. *)
Definition GetFormatType (f : PixelFormat) : SurfaceType :=
  match f with
  | RGBA8 | RGB8 | RGB5A1 | RGB565 | RGBA4 => Color
  | IA8 | RG8 | I8 | A8 | IA4 | I4 | A4 | ETC1 | ETC1A4 => Texture
  | D16 | D24 => Depth
  | D24S8 => DepthStencil
  | Invalid => InvalidType
  end.

(** Modelled from the spec: [Common::Rectangle<u32>] of
    [common/math_util.h]; the aggregate order is left, top, right,
    bottom, and the y axis points up (bottom <= top). *)
Record Rect2D : Set := mkRect { left : Z; top : Z; right : Z; bottom : Z }.

Definition GetWidth (r : Rect2D) : Z :=
  wrap32 (Z.abs (to_s32 (right r - left r))).
Definition GetHeight (r : Rect2D) : Z :=
  wrap32 (Z.abs (to_s32 (bottom r - top r))).

(** [rect * res_scale] *)
Definition Rect_scale (r : Rect2D) (s : Z) : Rect2D :=
  mkRect (wrap32 (left r * s)) (wrap32 (top r * s))
         (wrap32 (right r * s)) (wrap32 (bottom r * s)).

(** Texel (x, y) lies inside a rectangle of the cache: left <= x < right
    and bottom <= y < top. *)
Definition in_rect (r : Rect2D) (x y : Z) : bool :=
  (left r <=? x) && (x <? right r) && (bottom r <=? y) && (y <? top r).

(** A rectangle whose corners are ordered and fit a signed 32-bit
    coordinate. *)
Definition well_formed (r : Rect2D) : Prop :=
  0 <= left r <= right r /\ right r < 2 ^ 31 /\
  0 <= bottom r <= top r /\ top r < 2 ^ 31.

#[global] Instance Rect2D_eq_dec : EqDecision Rect2D.
Proof. solve_decision. Defined.

(** Modelled from the spec: the fields of [SurfaceParams]
    ([surface_params.h]) that the texture runtime reads. *)
Record SurfaceParams : Set := mkParams {
  width : Z;
  height : Z;
  stride : Z;
  levels : Z;
  res_scale : Z;
  is_tiled : bool;
  texture_type : TextureType;
  pixel_format : PixelFormat;
  type : SurfaceType
}.

Definition GetScaledWidth (p : SurfaceParams) : Z := wrap32 (width p * res_scale p).
Definition GetScaledHeight (p : SurfaceParams) : Z := wrap32 (height p * res_scale p).
Definition GetScaledRect (p : SurfaceParams) : Rect2D :=
  mkRect 0 (GetScaledHeight p) (GetScaledWidth p) 0.

Definition set_geometry (p : SurfaceParams) (w st h sc : Z) : SurfaceParams :=
  mkParams w h st (levels p) sc (is_tiled p) (texture_type p) (pixel_format p) (type p).

Definition set_type (p : SurfaceParams) (t : SurfaceType) : SurfaceParams :=
  mkParams (width p) (height p) (stride p) (levels p) (res_scale p) (is_tiled p)
           (texture_type p) (pixel_format p) t.

Record BufferTextureCopy : Set := mkBufferTextureCopy {
  buffer_offset : Z;
  buffer_size : Z;
  texture_rect : Rect2D;
  texture_level : Z
}.

Record TextureClear : Set := mkTextureClear {
  clear_level : Z;
  clear_rect : Rect2D
}.

Record Offset : Set := mkOffset { off_x : Z; off_y : Z }.
Record Extent : Set := mkExtent { ext_width : Z; ext_height : Z }.

Record TextureCopy : Set := mkTextureCopy {
  copy_src_level : Z;
  copy_dst_level : Z;
  copy_src_layer : Z;
  copy_dst_layer : Z;
  src_offset : Offset;
  dst_offset : Offset;
  extent : Extent
}.

Record TextureBlit : Set := mkTextureBlit {
  src_level : Z;
  dst_level : Z;
  src_layer : Z;
  dst_layer : Z;
  src_rect : Rect2D;
  dst_rect : Rect2D
}.

(** The 16-byte [ClearValue] union, kept as its bit pattern. *)
Definition ClearValue : Set := Z.

End VideoCore.

(** ** The Vulkan backend ([namespace Vulkan]) *)

Module Vulkan.
Import VideoCore.

(** Host handles ([vk::Image], [vk::ImageView], [VmaAllocation], ...);
    0 is the null handle. *)
Definition Handle := N.

(** The [vk::Format] values the runtime names or that a format table can
    hold. *)
Inductive Format :=
| eUndefined
| eR8G8B8A8Unorm | eR8G8B8Unorm | eR5G5B5A1UnormPack16
| eR5G6B5UnormPack16 | eR4G4B4A4UnormPack16
| eR32Uint
| eD16Unorm | eX8D24UnormPack32 | eD32Sfloat
| eD16UnormS8Uint | eD24UnormS8Uint | eD32SfloatS8Uint.

#[global] Instance Format_eq_dec : EqDecision Format.
Proof. solve_decision. Defined.

(** [vk::ImageAspectFlagBits] *)
Definition eColor : Z := 1.
Definition eDepth : Z := 2.
Definition eStencil : Z := 4.

(** [vk::ImageCreateFlagBits] *)
Definition eMutableFormat : Z := 8.
Definition eCubeCompatible : Z := 16.

(** [vk::ImageUsageFlagBits] *)
Definition eTransferSrc : Z := 1.
Definition eTransferDst : Z := 2.
Definition eStorage : Z := 8.

Definition VK_SUCCESS : Z := 0.

Inductive ImageLayout :=
| LayoutUndefined | eGeneral | eTransferSrcOptimal | eTransferDstOptimal.

Inductive Filter := eNearest | eLinear.

Inductive ImageViewType := e2D | eCube.

Record FormatTraits := mkTraits {
  transfer_support : bool;
  blit_support : bool;
  attachment_support : bool;
  traits_usage : Z;
  native : Format;
  fallback : Format
}.

Definition default_traits : FormatTraits :=
  mkTraits false false false 0 eUndefined eUndefined.

Record StagingData := mkStaging {
  buffer : Handle;
  size : Z;
  mapped : list byte;
  staging_offset : Z
}.

Record ImageAlloc := mkAlloc {
  image : Handle;
  image_view : Handle;
  base_view : Handle;
  depth_view : Handle;
  stencil_view : Handle;
  storage_view : Handle;
  allocation : Handle;
  alloc_usage : Z;
  alloc_format : Format;
  aspect : Z;
  layout : ImageLayout
}.

(** [ImageAlloc alloc{}] *)
Definition default_alloc : ImageAlloc :=
  mkAlloc 0%N 0%N 0%N 0%N 0%N 0%N 0%N 0 eUndefined eColor LayoutUndefined.

(** [struct HostTextureTag] of [vk_texture_runtime.h]. *)
Record HostTextureTag := mkTag {
  tag_format : Format;
  tag_pixel_format : PixelFormat;
  tag_type : TextureType;
  tag_width : Z;
  tag_height : Z
}.

(** The defaulted [operator<=>] gives a member-wise [operator==]. *)
Definition tag_eqb (a b : HostTextureTag) : bool :=
  bool_decide (tag_format a = tag_format b)
  && bool_decide (tag_pixel_format a = tag_pixel_format b)
  && bool_decide (tag_type a = tag_type b)
  && (tag_width a =? tag_width b)
  && (tag_height a =? tag_height b).

(** [class Surface]: the [SurfaceParams] base and the members. *)
Record Surface := mkSurface {
  params : SurfaceParams;
  alloc : ImageAlloc;
  traits : FormatTraits
}.

Record ImageCreateInfo := mkImageCreateInfo {
  ici_flags : Z;
  ici_format : Format;
  ici_width : Z;
  ici_height : Z;
  ici_mipLevels : Z;
  ici_arrayLayers : Z;
  ici_usage : Z
}.

Record ImageViewCreateInfo := mkImageViewCreateInfo {
  ivci_image : Handle;
  ivci_viewType : ImageViewType;
  ivci_format : Format;
  ivci_aspectMask : Z;
  ivci_levelCount : Z;
  ivci_layerCount : Z
}.

(** A render pass of the cache is identified by its key. *)
Record RenderPass := mkRenderPass {
  rp_color : PixelFormat;
  rp_depth : PixelFormat;
  rp_is_clear : bool
}.

Record FramebufferCreateInfo := mkFramebufferCreateInfo {
  fci_renderPass : RenderPass;
  fci_attachment : Handle;
  fci_width : Z;
  fci_height : Z
}.

(** [vk::Rect2D]: a signed offset and an unsigned extent. *)
Record VkRect2D := mkVkRect {
  offset_x : Z;
  offset_y : Z;
  extent_width : Z;
  extent_height : Z
}.

Record RenderpassState := mkRenderpassState {
  renderpass : RenderPass;
  framebuffer : Handle;
  render_area : VkRect2D;
  clear : ClearValue
}.

(** A closure handed to [scheduler.Record], by the values it captures.
    Its body runs later, on the command buffers; see [run_closure]. *)
Inductive Closure :=
| InitBarrierClosure (image : Handle) (aspect : Z)
| ClearClosure (aspect : Z) (image : Handle) (value : ClearValue)
               (is_color : bool) (clear : TextureClear)
| CopyClosure (src_image dst_image : Handle) (aspect : Z) (copy : TextureCopy)
| BlitClosure (src_image : Handle) (aspect : Z) (filter : Filter)
              (dst_image : Handle) (blit : TextureBlit)
| UploadClosure (aspect : Z) (image : Handle) (format : Format)
                (staging : StagingData) (upload : BufferTextureCopy)
| DownloadClosure (aspect : Z) (image : Handle)
                  (staging : StagingData) (download : BufferTextureCopy).

Inductive LogLevel := LogWarning | LogError | LogCritical.

(** What the runtime asks of its collaborators, in program order. *)
Inductive Call :=
| vmaCreateImage (info : ImageCreateInfo)
| createImageView (info : ImageViewCreateInfo)
| createFramebuffer (info : FramebufferCreateInfo)
| Log (level : LogLevel)
| ExitRenderpass
| EnterRenderpass (state : RenderpassState)
| SchedulerRecord (c : Closure)
| UploadCommit (size : Z)
| DownloadCommit (size : Z)
| BlitD24S8ToR32 (source dest : ImageAlloc) (blit : TextureBlit)
| InvalidateAllWatcher.

(** The members of [TextureRuntime] that change, the host's handle
    counter, and the calls made so far (oldest first).  The
    [unordered_multimap] is a list of entries, newest first; [find]
    yields the first entry with an equal key. *)
Record World := mkWorld {
  texture_recycler : list (HostTextureTag * ImageAlloc);
  clear_framebuffers : list (Handle * Handle);
  next_handle : Handle;
  calls : list Call
}.

Definition set_recycler (r : list (HostTextureTag * ImageAlloc)) (w : World) : World :=
  mkWorld r (clear_framebuffers w) (next_handle w) (calls w).

Definition call (c : Call) : M World unit :=
  modify (fun w => mkWorld (texture_recycler w) (clear_framebuffers w)
                           (next_handle w) (calls w ++ [c])).

(** A creating call: logged, and answered with a handle not handed out
    before. *)
Definition create (c : Call) : M World Handle :=
  fun w => (Returned (next_handle w),
            mkWorld (texture_recycler w) (clear_framebuffers w)
                    (N.succ (next_handle w)) (calls w ++ [c])).

(** [texture_recycler.find(key)]: position and value of the first match. *)
Fixpoint recycler_find (key : HostTextureTag)
         (r : list (HostTextureTag * ImageAlloc)) : option (nat * ImageAlloc) :=
  match r with
  | [] => None
  | (t, a) :: r' =>
      if tag_eqb t key then Some (O, a)
      else match recycler_find key r' with
           | Some (i, a') => Some (S i, a')
           | None => None
           end
  end.

(** The collaborators whose code is not part of the runtime: the format
    table of [Instance], the two format helpers, and the answer of the
    allocator to an image request. *)
Record Instance := mkInstance {
  GetTraits : PixelFormat -> FormatTraits;
  GetImageAspect : Format -> Z;
  GetImageUsage : Z -> Z;
  blockSize : Format -> Z;
  vmaCreateImage_result : ImageCreateInfo -> Z
}.

Definition MakeAspect (type : SurfaceType) : M World Z :=
  match type with
  | Color | Texture | Fill => mret eColor
  | Depth => mret eDepth
  | DepthStencil => mret (Z.lor eDepth eStencil)
  | InvalidType => call (Log LogCritical);; abort
  end.

Definition MakeFilter (pixel_format : PixelFormat) : Filter :=
  match pixel_format with
  | D16 | D24 | D24S8 => eNearest
  | _ => eLinear
  end.

(** *** Allocation and recycling *)

Section Runtime.
Variable instance : Instance.

(** [TextureRuntime::Allocate(width, height, pixel_format, type, format, usage)] *)
Definition Allocate (width height : Z) (pixel_format : PixelFormat)
           (type : TextureType) (format : Format) (usage : Z) : M World ImageAlloc :=
  let alloc0 := mkAlloc 0%N 0%N 0%N 0%N 0%N 0%N 0%N 0 format
                        (GetImageAspect instance format) LayoutUndefined in
  (* ASSERT(pixel_format != VideoCore::PixelFormat::Invalid) *)
  if bool_decide (pixel_format = Invalid) then abort else
  let key := mkTag format pixel_format type width height in
  w ← get;
  match recycler_find key (texture_recycler w) with
  | Some (i, recycled) =>
      modify (set_recycler (delete i (texture_recycler w)));;
      mret recycled
  | None =>
      let create_storage_view := bool_decide (pixel_format = RGBA8) in
      let flags :=
        Z.lor (if bool_decide (type = CubeMap) then eCubeCompatible else 0)
              (if create_storage_view then eMutableFormat else 0) in
      let levels := bit_width (Z.max width height) in
      let layers := if bool_decide (type = CubeMap) then 6 else 1 in
      let image_info := mkImageCreateInfo flags format width height levels layers usage in
      let result := vmaCreateImage_result instance image_info in
      unsafe_image ← create (vmaCreateImage image_info);
      if negb (result =? VK_SUCCESS) then call (Log LogCritical);; abort else
      allocation ← (fun w => (Returned (next_handle w),
                      mkWorld (texture_recycler w) (clear_framebuffers w)
                              (N.succ (next_handle w)) (calls w)));
      let view_type := if bool_decide (type = CubeMap) then eCube else e2D in
      let aspect := aspect alloc0 in
      image_view ← create (createImageView
                     (mkImageViewCreateInfo unsafe_image view_type format aspect levels layers));
      base_view ←
        (if 1 <? levels
         then create (createImageView
                (mkImageViewCreateInfo unsafe_image view_type format aspect 1 layers))
         else mret 0%N);
      let has_stencil := negb (Z.land aspect eStencil =? 0) in
      '(depth_view, stencil_view) ←
        (if has_stencil
         then d ← create (createImageView
                    (mkImageViewCreateInfo unsafe_image view_type format eDepth levels layers));
              s ← create (createImageView
                    (mkImageViewCreateInfo unsafe_image view_type format eStencil levels layers));
              mret (d, s)
         else mret (0%N, 0%N));
      storage_view ←
        (if create_storage_view
         then create (createImageView
                (mkImageViewCreateInfo unsafe_image view_type eR32Uint aspect levels layers))
         else mret 0%N);
      call (SchedulerRecord (InitBarrierClosure unsafe_image aspect));;
      mret (mkAlloc unsafe_image image_view base_view depth_view stencil_view
                    storage_view allocation 0 format aspect LayoutUndefined)
  end.

(** [TextureRuntime::Allocate(width, height, format, type)] *)
Definition Allocate_format (width height : Z) (format : PixelFormat)
           (type : TextureType) : M World ImageAlloc :=
  let traits := GetTraits instance format in
  aspect ← MakeAspect (GetFormatType format);
  let is_suitable :=
    transfer_support traits && attachment_support traits
    && (blit_support traits || negb (Z.land aspect eDepth =? 0)) in
  let vk_format := if is_suitable then native traits else fallback traits in
  let vk_usage := if is_suitable then traits_usage traits
                  else GetImageUsage instance aspect in
  Allocate width height format type vk_format vk_usage.

(** [TextureRuntime::Recycle] *)
Definition Recycle (tag : HostTextureTag) (alloc : ImageAlloc) : M World unit :=
  w ← get;
  modify (set_recycler ((tag, alloc) :: texture_recycler w)).

(** [Surface::Surface(params, runtime)] *)
Definition Surface_new (params : SurfaceParams) : M World Surface :=
  let traits := GetTraits instance (pixel_format params) in
  if bool_decide (pixel_format params ≠ Invalid)
  then alloc ← Allocate_format (GetScaledWidth params) (GetScaledHeight params)
                               (pixel_format params) (texture_type params);
       mret (mkSurface params alloc traits)
  else mret (mkSurface params default_alloc traits).

(** [Surface::Surface(params, format, usage, runtime)] *)
Definition Surface_new_format (params : SurfaceParams) (format : Format)
           (usage : Z) : M World Surface :=
  if bool_decide (format ≠ eUndefined)
  then alloc ← Allocate (GetScaledWidth params) (GetScaledHeight params)
                        (pixel_format params) (texture_type params) format usage;
       mret (mkSurface params alloc default_traits)
  else mret (mkSurface params default_alloc default_traits).

(** [Surface::~Surface] *)
Definition Surface_delete (s : Surface) : M World unit :=
  if bool_decide (pixel_format (params s) ≠ Invalid)
  then let tag := mkTag (alloc_format (alloc s)) (pixel_format (params s))
                        (texture_type (params s))
                        (GetScaledWidth (params s)) (GetScaledHeight (params s)) in
       Recycle tag (alloc s)
  else mret tt.

End Runtime.


(** *** Depth/stencil unpacking inside the staging buffer *)

(** The bytes behind [StagingData::mapped] and what was logged.  An access
    outside the span is undefined behaviour in the source; here the
    function stops with [Aborted]. *)
Record Memory := mkMemory {
  mem : list byte;
  mem_log : list LogLevel
}.

(** [VideoCore::MakeInt<u32>(ptr)]: four bytes, little endian. *)
Definition MakeInt_u32 (m : list byte) (off : nat) : option Z :=
  b0 ← m !! off;
  b1 ← m !! (off + 1)%nat;
  b2 ← m !! (off + 2)%nat;
  b3 ← m !! (off + 3)%nat;
  Some (le_combine [b0; b1; b2; b3]).

(** [std::memcpy(ptr, &value, 4)] *)
Definition memcpy_u32 (m : list byte) (off : nat) (value : Z) : list byte :=
  match le_split 4 value with
  | [b0; b1; b2; b3] =>
      <[(off + 3)%nat := b3]> (<[(off + 2)%nat := b2]>
        (<[(off + 1)%nat := b1]> (<[off := b0]> m)))
  | _ => m
  end.

Definition load_u32 (off : Z) : M Memory Z :=
  fun w =>
    match MakeInt_u32 (mem w) (Z.to_nat off) with
    | Some v => (Returned v, w)
    | None => (Aborted, w)
    end.

Definition store_u32 (off : Z) (value : Z) : M Memory unit :=
  fun w =>
    if (Z.to_nat off + 4 <=? length (mem w))%nat
    then (Returned tt, mkMemory (memcpy_u32 (mem w) (Z.to_nat off) value) (mem_log w))
    else (Aborted, w).

Definition store_byte (off : Z) (b : byte) : M Memory unit :=
  fun w =>
    if (Z.to_nat off <? length (mem w))%nat
    then (Returned tt, mkMemory (<[Z.to_nat off := b]> (mem w)) (mem_log w))
    else (Aborted, w).

Definition log_memory (l : LogLevel) : M Memory unit :=
  modify (fun w => mkMemory (mem w) (mem_log w ++ [l])).

(** The [for] loop of the D24S8 case; one unit of fuel per iteration. *)
Fixpoint unpack_loop (fuel : nat) (size depth_offset stencil_offset : Z)
  : M Memory Z :=
  if stencil_offset <? size then
    match fuel with
    | O => fun w => (OutOfFuel, w)
    | S fuel' =>
        d24s8 ← load_u32 depth_offset;
        let d24 := Z.shiftr d24s8 8 in
        store_byte stencil_offset (byte.of_Z (Z.land d24s8 255));;
        store_u32 depth_offset d24;;
        unpack_loop fuel' size (wrap32 (depth_offset + 4)) (wrap32 (stencil_offset + 1))
    end
  else mret depth_offset.

(** [Surface::UnpackDepthStencil] *)
Definition UnpackDepthStencil (data : StagingData) (dest : Format) : M Memory Z :=
  let stencil_offset := wrap32 (4 * size data) / 5 in
  depth_offset ←
    match dest with
    | eD24UnormS8Uint =>
        unpack_loop (Z.to_nat (size data)) (size data) 0 stencil_offset
    | _ => log_memory LogError;; abort
    end;
  (* ASSERT(depth_offset == 4 * data.size / 5) *)
  if depth_offset =? wrap32 (4 * size data) / 5 then mret depth_offset else abort.

(** The function on the bytes the staging data maps. *)
Definition run_UnpackDepthStencil (data : StagingData) (dest : Format)
  : Outcome Z * Memory :=
  UnpackDepthStencil data dest (mkMemory (mapped data) []).


(** *** Clear, copy and blit *)

Section Operations.
Variable instance : Instance.

Definition is_color_type (t : SurfaceType) : bool :=
  bool_decide (t ≠ Depth) && bool_decide (t ≠ DepthStencil).

(** [FramebufferView()] of the header: the base mip view. *)
Definition GetFramebufferView (s : Surface) : Handle := base_view (alloc s).

Fixpoint framebuffer_find (view : Handle) (m : list (Handle * Handle)) : option Handle :=
  match m with
  | [] => None
  | (v, fb) :: m' => if (v =? view)%N then Some fb else framebuffer_find view m'
  end.

(** [TextureRuntime::ClearTextureWithRenderpass] *)
Definition ClearTextureWithRenderpass (surface : Surface) (clear : TextureClear)
           (value : ClearValue) : M World unit :=
  let p := params surface in
  let is_color := is_color_type (type p) in
  let clear_renderpass :=
    if is_color then mkRenderPass (pixel_format p) Invalid true
    else mkRenderPass Invalid (pixel_format p) true in
  let framebuffer_view := GetFramebufferView surface in
  w ← get;
  fb ← match framebuffer_find framebuffer_view (clear_framebuffers w) with
       | Some fb => mret fb
       | None =>
           fb ← create (createFramebuffer
                  (mkFramebufferCreateInfo clear_renderpass framebuffer_view
                     (GetScaledWidth p) (GetScaledHeight p)));
           modify (fun w => mkWorld (texture_recycler w)
                                    ((framebuffer_view, fb) :: clear_framebuffers w)
                                    (next_handle w) (calls w));;
           mret fb
       end;
  let rect := clear_rect clear in
  let clear_info :=
    mkRenderpassState clear_renderpass fb
      (mkVkRect (to_s32 (left rect)) (to_s32 (bottom rect))
                (GetWidth rect) (GetHeight rect))
      value in
  call (EnterRenderpass clear_info);;
  call ExitRenderpass.

(** [TextureRuntime::ClearTexture] *)
Definition ClearTexture (surface : Surface) (clear : TextureClear)
           (value : ClearValue) : M World bool :=
  call ExitRenderpass;;
  let is_color := is_color_type (type (params surface)) in
  if bool_decide (clear_rect clear = GetScaledRect (params surface)) then
    aspect ← MakeAspect (type (params surface));
    call (SchedulerRecord
            (ClearClosure aspect (image (alloc surface)) value is_color clear));;
    mret true
  else
    ClearTextureWithRenderpass surface clear value;;
    mret true.

(** [TextureRuntime::CopyTextures] *)
Definition CopyTextures (source dest : Surface) (copy : TextureCopy) : M World bool :=
  call ExitRenderpass;;
  aspect ← MakeAspect (type (params source));
  call (SchedulerRecord
          (CopyClosure (image (alloc source)) (image (alloc dest)) aspect copy));;
  mret true.

(** [TextureRuntime::BlitTextures] *)
Definition BlitTextures (source dest : Surface) (blit : TextureBlit) : M World bool :=
  call ExitRenderpass;;
  aspect ← MakeAspect (type (params source));
  call (SchedulerRecord
          (BlitClosure (image (alloc source)) aspect
                       (MakeFilter (pixel_format (params source)))
                       (image (alloc dest)) blit));;
  mret true.

(** *** Upload and download *)

Definition out_of_fuel {A} : M World A := fun w => (OutOfFuel, w).

(** [Surface::ScaledUpload]; [Upload] is the member it calls on the
    unscaled surface. *)
Definition ScaledUpload
           (Upload : Surface -> BufferTextureCopy -> StagingData -> M World unit)
           (this : Surface) (upload : BufferTextureCopy) (staging : StagingData)
  : M World unit :=
  let rect_width := GetWidth (texture_rect upload) in
  let rect_height := GetHeight (texture_rect upload) in
  let scaled_rect := Rect_scale (texture_rect upload) (res_scale (params this)) in
  let unscaled_rect := mkRect 0 rect_height rect_width 0 in
  let unscaled_params := set_geometry (params this) rect_width rect_width rect_height 1 in
  unscaled_surface ← Surface_new instance unscaled_params;
  let unscaled_upload :=
    mkBufferTextureCopy (buffer_offset upload) (buffer_size upload) unscaled_rect 0 in
  Upload unscaled_surface unscaled_upload staging;;
  let blit := mkTextureBlit 0 (texture_level upload) 0 0 unscaled_rect scaled_rect in
  BlitTextures unscaled_surface this blit;;
  Surface_delete unscaled_surface.

(** [Surface::Upload]; the fuel bounds the nesting of calls. *)
Fixpoint Upload_fuel (fuel : nat) (this : Surface) (upload : BufferTextureCopy)
         (staging : StagingData) : M World unit :=
  match fuel with
  | O => out_of_fuel
  | S fuel' =>
      if bool_decide (type (params this) = DepthStencil)
         && negb (blit_support (traits this))
      then call (Log LogError)
      else
        call ExitRenderpass;;
        (if negb (res_scale (params this) =? 1)
         then ScaledUpload (Upload_fuel fuel') this upload staging
         else
           call (SchedulerRecord
                   (UploadClosure (aspect (alloc this)) (image (alloc this))
                                  (alloc_format (alloc this)) staging upload));;
           call (UploadCommit (size staging)));;
        call InvalidateAllWatcher
  end.

Definition Upload : Surface -> BufferTextureCopy -> StagingData -> M World unit :=
  Upload_fuel 2.

(** [Surface::ScaledDownload] *)
Definition ScaledDownload
           (Download : Surface -> BufferTextureCopy -> StagingData -> M World unit)
           (this : Surface) (download : BufferTextureCopy) (staging : StagingData)
  : M World unit :=
  let rect_width := GetWidth (texture_rect download) in
  let rect_height := GetHeight (texture_rect download) in
  let scaled_rect := Rect_scale (texture_rect download) (res_scale (params this)) in
  let unscaled_rect := mkRect 0 rect_height rect_width 0 in
  let unscaled_params := set_geometry (params this) rect_width rect_width rect_height 1 in
  unscaled_surface ← Surface_new instance unscaled_params;
  let blit := mkTextureBlit (texture_level download) 0 0 0 scaled_rect unscaled_rect in
  BlitTextures this unscaled_surface blit;;
  let unscaled_download :=
    mkBufferTextureCopy (buffer_offset download) (buffer_size download) unscaled_rect 0 in
  Download unscaled_surface unscaled_download staging;;
  Surface_delete unscaled_surface.

(** [Surface::DepthStencilDownload] *)
Definition DepthStencilDownload
           (Download : Surface -> BufferTextureCopy -> StagingData -> M World unit)
           (this : Surface) (download : BufferTextureCopy) (staging : StagingData)
  : M World unit :=
  let rect_width := GetWidth (texture_rect download) in
  let rect_height := GetHeight (texture_rect download) in
  let scaled_rect := Rect_scale (texture_rect download) (res_scale (params this)) in
  let unscaled_rect := mkRect 0 rect_height rect_width 0 in
  let r32_params :=
    set_type (set_geometry (params this) (GetWidth scaled_rect) (GetWidth scaled_rect)
                           (GetHeight scaled_rect) 1) Color in
  r32_surface ← Surface_new_format instance r32_params eR32Uint
                  (Z.lor (Z.lor eTransferSrc eTransferDst) eStorage);
  let r32_scaled_rect := mkRect 0 (GetHeight scaled_rect) (GetWidth scaled_rect) 0 in
  let blit := mkTextureBlit (texture_level download) 0 0 0 scaled_rect r32_scaled_rect in
  call (BlitD24S8ToR32 (alloc this) (alloc r32_surface) blit);;
  let is_scaled := negb (res_scale (params this) =? 1) in
  (if is_scaled
   then let r32_blit := mkTextureBlit 0 1 0 0 r32_scaled_rect unscaled_rect in
        BlitTextures r32_surface r32_surface r32_blit;; mret tt
   else mret tt);;
  let r32_download :=
    mkBufferTextureCopy (buffer_offset download) (buffer_size download) unscaled_rect
                        (if is_scaled then 1 else 0) in
  Download r32_surface r32_download staging;;
  Surface_delete r32_surface.

(** [Surface::Download]; the fuel bounds the nesting of calls. *)
Fixpoint Download_fuel (fuel : nat) (this : Surface) (download : BufferTextureCopy)
         (staging : StagingData) : M World unit :=
  match fuel with
  | O => out_of_fuel
  | S fuel' =>
      call ExitRenderpass;;
      if bool_decide (type (params this) = DepthStencil)
      then DepthStencilDownload (Download_fuel fuel') this download staging
      else if negb (res_scale (params this) =? 1)
      then ScaledDownload (Download_fuel fuel') this download staging
      else
        call (SchedulerRecord
                (DownloadClosure (aspect (alloc this)) (image (alloc this))
                                 staging download));;
        call (DownloadCommit (size staging))
  end.

Definition Download : Surface -> BufferTextureCopy -> StagingData -> M World unit :=
  Download_fuel 2.

(** [Surface::GetInternalBytesPerPixel] *)
Definition GetInternalBytesPerPixel (this : Surface) : Z :=
  if bool_decide (alloc_format (alloc this) = eD24UnormS8Uint) then 5
  else blockSize instance (alloc_format (alloc this)).

End Operations.


(** *** The bodies of the recorded closures *)

(** Barriers are kept by their layout transition and subresource range;
    [None] stands for [VK_REMAINING_MIP_LEVELS]. *)
Record ImageMemoryBarrier := mkBarrier {
  oldLayout : ImageLayout;
  newLayout : ImageLayout;
  barrier_image : Handle;
  barrier_aspect : Z;
  baseMipLevel : Z;
  levelCount : option Z
}.

Record BufferImageCopy := mkBufferImageCopy {
  bufferOffset : Z;
  bufferRowLength : Z;
  bufferImageHeight : Z;
  copy_aspectMask : Z;
  copy_mipLevel : Z;
  imageOffset : Z * Z;
  imageExtent : Z * Z
}.

Record ImageBlit := mkImageBlit {
  blit_aspectMask : Z;
  srcMipLevel : Z;
  srcArrayLayer : Z;
  srcOffsets : (Z * Z) * (Z * Z);
  dstMipLevel : Z;
  dstArrayLayer : Z;
  dstOffsets : (Z * Z) * (Z * Z)
}.

Inductive CmdBuf := render_cmdbuf | upload_cmdbuf.

Inductive Command :=
| pipelineBarrier (barriers : list ImageMemoryBarrier)
| clearColorImage (image : Handle) (layout : ImageLayout) (value : ClearValue)
                  (aspect level : Z)
| clearDepthStencilImage (image : Handle) (layout : ImageLayout) (value : ClearValue)
                         (aspect level : Z)
| copyImage (src : Handle) (src_layout : ImageLayout)
            (dst : Handle) (dst_layout : ImageLayout) (aspect : Z) (copy : TextureCopy)
| blitImage (src : Handle) (src_layout : ImageLayout)
            (dst : Handle) (dst_layout : ImageLayout) (area : ImageBlit) (filter : Filter)
| copyBufferToImage (buffer image : Handle) (layout : ImageLayout)
                    (regions : list BufferImageCopy)
| copyImageToBuffer (image : Handle) (layout : ImageLayout) (buffer : Handle)
                    (region : BufferImageCopy).

Definition rect_copy (staging : StagingData) (c : BufferTextureCopy) (aspect : Z)
  : BufferImageCopy :=
  let rect := texture_rect c in
  mkBufferImageCopy (wrap64 (staging_offset staging + buffer_offset c))
                    (GetWidth rect) (GetHeight rect) aspect (texture_level c)
                    (to_s32 (left rect), to_s32 (bottom rect))
                    (GetWidth rect, GetHeight rect).

(** What a closure does once the scheduler runs it; the world is the
    staging memory, which only the upload closure touches. *)
Definition run_closure (c : Closure) : M Memory (CmdBuf * list Command) :=
  match c with
  | InitBarrierClosure image aspect =>
      mret (upload_cmdbuf,
            [pipelineBarrier [mkBarrier LayoutUndefined eGeneral image aspect 0 None]])
  | ClearClosure aspect image value is_color clear =>
      let level := clear_level clear in
      mret (render_cmdbuf,
            [pipelineBarrier
               [mkBarrier eGeneral eTransferDstOptimal image aspect level (Some 1)];
             (if is_color
              then clearColorImage image eTransferDstOptimal value aspect level
              else clearDepthStencilImage image eTransferDstOptimal value aspect level);
             pipelineBarrier
               [mkBarrier eTransferDstOptimal eGeneral image aspect level (Some 1)]])
  | CopyClosure src_image dst_image aspect copy =>
      mret (render_cmdbuf,
            [pipelineBarrier
               [mkBarrier eGeneral eTransferSrcOptimal src_image aspect
                          (copy_src_level copy) (Some 1);
                mkBarrier eGeneral eTransferDstOptimal dst_image aspect
                          (copy_dst_level copy) (Some 1)];
             copyImage src_image eTransferSrcOptimal dst_image eTransferDstOptimal
                       aspect copy;
             pipelineBarrier
               [mkBarrier eTransferSrcOptimal eGeneral src_image aspect
                          (copy_src_level copy) (Some 1);
                mkBarrier eTransferDstOptimal eGeneral dst_image aspect
                          (copy_dst_level copy) (Some 1)]])
  | BlitClosure src_image aspect filter dst_image blit =>
      let area :=
        mkImageBlit aspect (src_level blit) (src_layer blit)
          ((to_s32 (left (src_rect blit)), to_s32 (bottom (src_rect blit))),
           (to_s32 (right (src_rect blit)), to_s32 (top (src_rect blit))))
          (dst_level blit) (dst_layer blit)
          ((to_s32 (left (dst_rect blit)), to_s32 (bottom (dst_rect blit))),
           (to_s32 (right (dst_rect blit)), to_s32 (top (dst_rect blit)))) in
      mret (render_cmdbuf,
            [pipelineBarrier
               [mkBarrier eGeneral eTransferSrcOptimal src_image aspect
                          (src_level blit) (Some 1);
                mkBarrier eGeneral eTransferDstOptimal dst_image aspect
                          (dst_level blit) (Some 1)];
             blitImage src_image eTransferSrcOptimal dst_image eTransferDstOptimal
                       area filter;
             pipelineBarrier
               [mkBarrier eTransferSrcOptimal eGeneral src_image aspect
                          (src_level blit) (Some 1);
                mkBarrier eTransferDstOptimal eGeneral dst_image aspect
                          (dst_level blit) (Some 1)]])
  | UploadClosure aspect image format staging upload =>
      let first := rect_copy staging upload aspect in
      copies ←
        (if negb (Z.land aspect eStencil =? 0)
         then
           let depth_copy :=
             mkBufferImageCopy (bufferOffset first) (bufferRowLength first)
               (bufferImageHeight first) eDepth (copy_mipLevel first)
               (imageOffset first) (imageExtent first) in
           stencil_start ← UnpackDepthStencil staging format;
           let stencil_copy :=
             mkBufferImageCopy (wrap64 (bufferOffset first + stencil_start))
               (bufferRowLength first) (bufferImageHeight first) eStencil
               (copy_mipLevel first) (imageOffset first) (imageExtent first) in
           mret [depth_copy; stencil_copy]
         else mret [first]);
      mret (render_cmdbuf,
            [pipelineBarrier
               [mkBarrier eGeneral eTransferDstOptimal image aspect
                          (texture_level upload) (Some 1)];
             copyBufferToImage (buffer staging) image eTransferDstOptimal copies;
             pipelineBarrier
               [mkBarrier eTransferDstOptimal eGeneral image aspect
                          (texture_level upload) (Some 1)]])
  | DownloadClosure aspect image staging download =>
      mret (render_cmdbuf,
            [pipelineBarrier
               [mkBarrier eGeneral eTransferSrcOptimal image aspect
                          (texture_level download) (Some 1)];
             copyImageToBuffer image eTransferSrcOptimal (buffer staging)
                               (rect_copy staging download aspect);
             pipelineBarrier
               [mkBarrier eTransferSrcOptimal eGeneral image aspect
                          (texture_level download) (Some 1)]])
  end.

(** The images a command reads back into a buffer. *)
Definition readback_images (c : Command) : list Handle :=
  match c with
  | copyImageToBuffer image _ _ _ => [image]
  | _ => []
  end.

(** The sampling filter of a command, when it is a blit. *)
Definition blit_filter (c : Command) : option Filter :=
  match c with
  | blitImage _ _ _ _ _ filter => Some filter
  | _ => None
  end.

(** [vkCmdBeginRenderPass] with a clearing load operation writes the clear
    value inside the render area and nothing elsewhere.  An image level
    is a map from texel coordinates to the 16-byte value of the texel. *)
Definition in_render_area (a : VkRect2D) (x y : Z) : bool :=
  (offset_x a <=? x) && (x <? offset_x a + extent_width a)
  && (offset_y a <=? y) && (y <? offset_y a + extent_height a).

Definition renderpass_clear (st : RenderpassState) (img : Z -> Z -> ClearValue)
  : Z -> Z -> ClearValue :=
  fun x y => if in_render_area (render_area st) x y then clear st else img x y.



(** A call that creates a view of the given image. *)
Definition creates_view_of (img : Handle) (c : Call) : Prop :=
  exists info, c = createImageView info /\ ivci_image info = img.

(** The image request [Allocate] sends for a shape. *)
Definition image_request (width height : Z) (pixel_format : PixelFormat)
           (type : TextureType) (format : Format) (usage : Z) : ImageCreateInfo :=
  mkImageCreateInfo
    (Z.lor (if bool_decide (type = CubeMap) then eCubeCompatible else 0)
           (if bool_decide (pixel_format = RGBA8) then eMutableFormat else 0))
    format width height (bit_width (Z.max width height))
    (if bool_decide (type = CubeMap) then 6 else 1) usage.


(** The filters of the blits recorded so far, oldest first. *)
Definition recorded_blit_filters (cs : list Call) : list Filter :=
  flat_map (fun c => match c with
                     | SchedulerRecord (BlitClosure _ _ f _ _) => [f]
                     | _ => []
                     end) cs.

(** The images whose texels recorded downloads copy into a buffer. *)
Definition recorded_readbacks (cs : list Call) : list Handle :=
  flat_map (fun c => match c with
                     | SchedulerRecord (DownloadClosure _ image _ _) => [image]
                     | _ => []
                     end) cs.

Definition is_depth_format (f : PixelFormat) : bool :=
  match f with D16 | D24 | D24S8 => true | _ => false end.

Definition is_depth_type (t : SurfaceType) : bool :=
  match t with Depth | DepthStencil => true | _ => false end.


(** The world after some more calls. *)
Definition log_calls (w : World) (cs : list Call) : World :=
  mkWorld (texture_recycler w) (clear_framebuffers w) (next_handle w) (calls w ++ cs).

(** The aspect [MakeAspect] answers for a surface type it has a case for. *)
Definition aspect_of (t : SurfaceType) : Z :=
  match t with
  | Depth => eDepth
  | DepthStencil => Z.lor eDepth eStencil
  | _ => eColor
  end.


(** *** Tearing the runtime down *)

(** What [~TextureRuntime] asks of the device and of the allocator. *)
Inductive Teardown :=
| waitIdle
| vmaDestroyImage (image allocation : Handle)
| destroyImageView (view : Handle)
| destroyFramebuffer (fb : Handle).

(** The body of the loop over the recycler.  A view handle converts to
    [true] when it is not null; the stencil view goes with the depth view. *)
Definition destroy_alloc (alloc : ImageAlloc) : list Teardown :=
  [vmaDestroyImage (image alloc) (allocation alloc);
   destroyImageView (image_view alloc)]
  ++ (if negb (base_view alloc =? 0)%N
      then [destroyImageView (base_view alloc)] else [])
  ++ (if negb (depth_view alloc =? 0)%N
      then [destroyImageView (depth_view alloc); destroyImageView (stencil_view alloc)]
      else [])
  ++ (if negb (storage_view alloc =? 0)%N
      then [destroyImageView (storage_view alloc)] else []).

(** [TextureRuntime::~TextureRuntime]: the calls it makes and the runtime
    it leaves.  The two containers are walked in the order they are kept
    here. *)
Definition TextureRuntime_delete (w : World) : list Teardown * World :=
  (waitIdle
   :: flat_map (fun e => destroy_alloc (snd e)) (texture_recycler w)
   ++ map (fun e => destroyFramebuffer (snd e)) (clear_framebuffers w),
   set_recycler [] w).

(** The handles a teardown call gives back to the host. *)
Definition released (c : Teardown) : list Handle :=
  match c with
  | waitIdle => []
  | vmaDestroyImage image allocation => [image; allocation]
  | destroyImageView view => [view]
  | destroyFramebuffer fb => [fb]
  end.

(** Every pooled allocation is filed under the host format it has. *)
Definition recycler_consistent (w : World) : Prop :=
  Forall (fun e => tag_format (fst e) = alloc_format (snd e)) (texture_recycler w).

(** *** Format conversion of staged pixels *)

(** The converters of [Pica::Texture] that [FormatConvert] names. *)
Inductive Converter :=
| ConvertABGRToRGBA | ConvertBGRToRGBA | ConvertRGBA8ToRGBA4 | ConvertRGBAToBGR.

Section Conversion.
Variable instance : Instance.
(** What a converter leaves in the destination span, given the source
    span and the destination as it was. *)
Variable convert : Converter -> list byte -> list byte -> list byte.

(** [TextureRuntime::NeedsConvertion] *)
Definition NeedsConvertion (format : PixelFormat) : bool :=
  let traits := GetTraits instance format in
  let type := GetFormatType format in
  bool_decide (type = Color)
  && (bool_decide (format = RGBA8) || negb (blit_support traits)
      || negb (attachment_support traits)).

(** [TextureRuntime::FormatConvert]; the world is the destination span.
    A [memcpy] that would run past its end stops with [Aborted]. *)
Definition FormatConvert (surface : Surface) (upload : bool) (source : list byte)
  : M Memory unit :=
  let pixel_format := pixel_format (params surface) in
  if negb (NeedsConvertion pixel_format) then
    fun w =>
      if (length source <=? length (mem w))%nat
      then (Returned tt,
            mkMemory (source ++ drop (length source) (mem w)) (mem_log w))
      else (Aborted, w)
  else
    let converter :=
      if upload then
        match pixel_format with
        | RGBA8 => Some ConvertABGRToRGBA
        | RGB8 => Some ConvertBGRToRGBA
        | _ => None
        end
      else
        match pixel_format with
        | RGBA8 => Some ConvertABGRToRGBA
        | RGBA4 => Some ConvertRGBA8ToRGBA4
        | RGB8 => Some ConvertRGBAToBGR
        | _ => None
        end in
    match converter with
    | Some c => modify (fun w => mkMemory (convert c source (mem w)) (mem_log w))
    | None => log_memory LogWarning
    end.

End Conversion.

(** *** Image layouts under the recorded commands *)

#[global] Instance ImageLayout_eq_dec : EqDecision ImageLayout.
Proof. solve_decision. Defined.

(** The layout of every mip level of every image, as the host tracks it. *)
Definition Layouts := Handle -> Z -> ImageLayout.

(** The levels of an image a barrier names. *)
Definition in_range (b : ImageMemoryBarrier) (image : Handle) (level : Z) : bool :=
  (barrier_image b =? image)%N && (baseMipLevel b <=? level)
  && match levelCount b with
     | Some n => level <? baseMipLevel b + n
     | None => true
     end.

(** The host accepts a barrier whose old layout is undefined (the contents
    are given up) or is the layout of each level it names. *)
Definition barrier_ok (l : Layouts) (b : ImageMemoryBarrier) : bool :=
  match oldLayout b with
  | LayoutUndefined => true
  | old =>
      match levelCount b with
      | Some n =>
          forallb (fun k => bool_decide (l (barrier_image b) (baseMipLevel b + k) = old))
                  (seqZ 0 n)
      | None => false
      end
  end.

Definition apply_barrier (b : ImageMemoryBarrier) (l : Layouts) : Layouts :=
  fun image level => if in_range b image level then newLayout b else l image level.

(** The barriers of one [pipelineBarrier] call, in order. *)
Fixpoint apply_barriers (bs : list ImageMemoryBarrier) (l : Layouts) : option Layouts :=
  match bs with
  | [] => Some l
  | b :: bs' => if barrier_ok l b then apply_barriers bs' (apply_barrier b l) else None
  end.

(** A transfer command is accepted when every image level it touches is
    in the layout the command states. *)
Definition command_ok (l : Layouts) (c : Command) : option Layouts :=
  match c with
  | pipelineBarrier bs => apply_barriers bs l
  | clearColorImage image layout _ _ level
  | clearDepthStencilImage image layout _ _ level =>
      if bool_decide (l image level = layout) then Some l else None
  | copyImage src src_layout dst dst_layout _ copy =>
      if bool_decide (l src (copy_src_level copy) = src_layout)
         && bool_decide (l dst (copy_dst_level copy) = dst_layout)
      then Some l else None
  | blitImage src src_layout dst dst_layout area _ =>
      if bool_decide (l src (srcMipLevel area) = src_layout)
         && bool_decide (l dst (dstMipLevel area) = dst_layout)
      then Some l else None
  | copyBufferToImage _ image layout regions =>
      if forallb (fun r => bool_decide (l image (copy_mipLevel r) = layout)) regions
      then Some l else None
  | copyImageToBuffer image layout _ region =>
      if bool_decide (l image (copy_mipLevel region) = layout) then Some l else None
  end.

(** The layouts after a list of commands, when the host accepts them all. *)
Fixpoint track (cs : list Command) (l : Layouts) : option Layouts :=
  match cs with
  | [] => Some l
  | c :: cs' =>
      match command_ok l c with
      | Some l' => track cs' l'
      | None => None
      end
  end.

(** The image levels a closure transfers from or to. *)
Definition subresources (c : Closure) : list (Handle * Z) :=
  match c with
  | InitBarrierClosure _ _ => []
  | ClearClosure _ image _ _ clear => [(image, clear_level clear)]
  | CopyClosure src_image dst_image _ copy =>
      [(src_image, copy_src_level copy); (dst_image, copy_dst_level copy)]
  | BlitClosure src_image _ _ dst_image blit =>
      [(src_image, src_level blit); (dst_image, dst_level blit)]
  | UploadClosure _ image _ _ upload => [(image, texture_level upload)]
  | DownloadClosure _ image _ download => [(image, texture_level download)]
  end.

(** The layouts a closure is meant to leave: the initial barrier brings
    every level of a new image to the general layout, every other closure
    leaves the layouts as it found them. *)
Definition after_closure (c : Closure) (l : Layouts) : Layouts :=
  match c with
  | InitBarrierClosure image _ =>
      fun i level => if (image =? i)%N && (0 <=? level) then eGeneral else l i level
  | _ => l
  end.


(** [FindStaging] hands out the span it mapped together with the offset
    of that span in the staging buffer: byte [k] of [mapped] is byte
    [buffer_offset + k] of the buffer.  The byte of the mapped span that
    an offset into the buffer names. *)
Definition span_index (staging : StagingData) (offset : Z) : Z :=
  offset - staging_offset staging.

End Vulkan.


(** ** The later revision of the Vulkan header

    The second copy of [vk_texture_runtime.h] (the one that also declares
    [Framebuffer] and [Sampler]) adds the mip level count to the tag. *)

Module VulkanLevels.
Import VideoCore.

Record HostTextureTag := mkTag {
  format : Vulkan.Format;
  pixel_format : PixelFormat;
  type : TextureType;
  width : Z;
  height : Z;
  levels : Z
}.

(** The defaulted [operator<=>] gives a member-wise [operator==]. *)
Definition tag_eqb (a b : HostTextureTag) : bool :=
  bool_decide (format a = format b)
  && bool_decide (pixel_format a = pixel_format b)
  && bool_decide (type a = type b)
  && (width a =? width b)
  && (height a =? height b)
  && (levels a =? levels b).

End VulkanLevels.

(** ** The OpenGL backend ([gl_texture_runtime.cpp]) *)

Module OpenGL.
Import VideoCore.

Definition Handle := N.

(** The enumerants the runtime passes to the host. *)
Inductive GLenum :=
| GL_NONE
| GL_RGBA8 | GL_RGB8 | GL_RGB5_A1 | GL_RGB565 | GL_RGBA4
| GL_RGBA | GL_BGR | GL_RGB
| GL_UNSIGNED_BYTE | GL_UNSIGNED_INT_8_8_8_8 | GL_UNSIGNED_SHORT_5_5_5_1
| GL_UNSIGNED_SHORT_5_6_5 | GL_UNSIGNED_SHORT_4_4_4_4
| GL_DEPTH_COMPONENT16 | GL_DEPTH_COMPONENT24 | GL_DEPTH24_STENCIL8
| GL_DEPTH_COMPONENT | GL_DEPTH_STENCIL
| GL_UNSIGNED_SHORT | GL_UNSIGNED_INT | GL_UNSIGNED_INT_24_8
| GL_TEXTURE_2D | GL_TEXTURE_CUBE_MAP | GL_TEXTURE_CUBE_MAP_POSITIVE_X_plus (layer : Z)
| GL_TEXTURE0
| GL_TEXTURE_MIN_FILTER | GL_TEXTURE_WRAP_S | GL_TEXTURE_WRAP_T | GL_CLAMP_TO_EDGE
| GL_LINEAR | GL_NEAREST
| GL_DRAW_FRAMEBUFFER | GL_READ_FRAMEBUFFER
| GL_COLOR_ATTACHMENT0 | GL_DEPTH_ATTACHMENT | GL_STENCIL_ATTACHMENT
| GL_DEPTH_STENCIL_ATTACHMENT
| GL_COLOR | GL_DEPTH
| GL_UNPACK_ROW_LENGTH | GL_PIXEL_UNPACK_BUFFER.

#[global] Instance GLenum_eq_dec : EqDecision GLenum.
Proof. solve_decision. Defined.

(** Bits of a [GLbitfield] buffer mask. *)
Definition GL_DEPTH_BUFFER_BIT : Z := 256.
Definition GL_STENCIL_BUFFER_BIT : Z := 1024.
Definition GL_COLOR_BUFFER_BIT : Z := 16384.

Record FormatTuple := mkTuple {
  internal_format : GLenum;
  tuple_format : GLenum;
  tuple_type : GLenum
}.

Definition DEFAULT_TUPLE : FormatTuple := mkTuple GL_RGBA8 GL_RGBA GL_UNSIGNED_BYTE.

Definition DEPTH_TUPLES : list FormatTuple :=
  [ mkTuple GL_DEPTH_COMPONENT16 GL_DEPTH_COMPONENT GL_UNSIGNED_SHORT;
    mkTuple GL_NONE GL_NONE GL_NONE;
    mkTuple GL_DEPTH_COMPONENT24 GL_DEPTH_COMPONENT GL_UNSIGNED_INT;
    mkTuple GL_DEPTH24_STENCIL8 GL_DEPTH_STENCIL GL_UNSIGNED_INT_24_8 ].

Definition COLOR_TUPLES : list FormatTuple :=
  [ mkTuple GL_RGBA8 GL_RGBA GL_UNSIGNED_INT_8_8_8_8;
    mkTuple GL_RGB8 GL_BGR GL_UNSIGNED_BYTE;
    mkTuple GL_RGB5_A1 GL_RGBA GL_UNSIGNED_SHORT_5_5_5_1;
    mkTuple GL_RGB565 GL_RGB GL_UNSIGNED_SHORT_5_6_5;
    mkTuple GL_RGBA4 GL_RGBA GL_UNSIGNED_SHORT_4_4_4_4 ].

Definition COLOR_TUPLES_OES : list FormatTuple :=
  [ mkTuple GL_RGBA8 GL_RGBA GL_UNSIGNED_BYTE;
    mkTuple GL_RGBA8 GL_RGBA GL_UNSIGNED_BYTE;
    mkTuple GL_RGB5_A1 GL_RGBA GL_UNSIGNED_SHORT_5_5_5_1;
    mkTuple GL_RGB565 GL_RGB GL_UNSIGNED_SHORT_5_6_5;
    mkTuple GL_RGBA4 GL_RGBA GL_UNSIGNED_SHORT_4_4_4_4 ].

(** The part of [OpenGLState] the runtime sets. *)
Record OpenGLState := mkState {
  scissor_enabled : bool;
  scissor_x : Z;
  scissor_y : Z;
  scissor_width : Z;
  scissor_height : Z;
  read_framebuffer : Handle;
  draw_framebuffer : Handle;
  color_mask : bool * bool * bool * bool;
  depth_write_mask : bool;
  stencil_write_mask : Z;
  texture_unit0_2d : Handle
}.

(** [VideoCore::HostTextureTag] as [Allocate] and [~Surface] fill it. *)
Record HostTextureTag := mkTag {
  tag_format : PixelFormat;
  tag_type : TextureType;
  tag_width : Z;
  tag_height : Z;
  tag_levels : Z
}.

Definition tag_eqb (a b : HostTextureTag) : bool :=
  bool_decide (tag_format a = tag_format b)
  && bool_decide (tag_type a = tag_type b)
  && (tag_width a =? tag_width b)
  && (tag_height a =? tag_height b)
  && (tag_levels a =? tag_levels b).

Record OGLTexture := mkTexture { handle : Handle }.

Record Surface := mkSurface {
  params : SurfaceParams;
  texture : OGLTexture
}.

Record StagingData := mkStaging {
  buffer : Handle;
  size : Z;
  mapped : list byte;
  staging_offset : Z
}.

(** [VideoCore::TextureClear] of this backend carries the clear value. *)
Record TextureClear := mkTextureClear {
  level : Z;
  rect : Rect2D;
  value : ClearValue
}.

Inductive Call :=
| Apply (state : OpenGLState)
| glGenTextures
| glActiveTexture (unit : GLenum)
| glBindTexture (target : GLenum) (texture : Handle)
| glTexStorage2D (target : GLenum) (levels : Z) (internal_format : GLenum) (width height : Z)
| glTexParameteri (target pname param : GLenum)
| glFramebufferTexture2D (target attachment textarget : GLenum) (texture : Handle) (level : Z)
| glBindFramebuffer (target : GLenum) (framebuffer : Handle)
| glClearBufferfv (buffer : GLenum) (value : ClearValue)
| glClearBufferfi (buffer : GLenum) (value : ClearValue)
| glCopyImageSubData (src : Handle) (src_target : GLenum) (dst : Handle) (dst_target : GLenum)
                     (copy : TextureCopy)
| glBlitFramebuffer (src dst : Rect2D) (mask : Z) (filter : GLenum)
| glPixelStorei (pname : GLenum) (param : Z)
| glBindBuffer (target : GLenum) (buffer : Handle)
| Unmap (size : Z)
| glTexSubImage2D (target : GLenum) (level : Z) (rect : Rect2D) (format type : GLenum)
                  (offset : Z)
| Filter (src : Handle) (src_rect : Rect2D) (dst : Handle) (dst_rect : Rect2D)
         (type : SurfaceType).

(** The members of [TextureRuntime], the current [OpenGLState], the
    host's handle counter and the calls made so far (oldest first). *)
Record World := mkWorld {
  texture_recycler : list (HostTextureTag * OGLTexture);
  read_fbo : Handle;
  draw_fbo : Handle;
  cur_state : OpenGLState;
  next_handle : Handle;
  calls : list Call
}.

(** What lives outside the runtime: the driver query, the default
    [OpenGLState{}], [GetBytesPerPixel] and the verdict of the texture
    filterer. *)
Record Driver := mkDriver {
  IsOpenGLES : bool;
  default_state : OpenGLState;
  GetBytesPerPixel : PixelFormat -> Z;
  filterer_accepts : Handle -> Rect2D -> Handle -> Rect2D -> SurfaceType -> bool
}.

Definition call (c : Call) : M World unit :=
  modify (fun w => mkWorld (texture_recycler w) (read_fbo w) (draw_fbo w)
                           (cur_state w) (next_handle w) (calls w ++ [c])).

(** [OpenGLState::Apply] makes the state current. *)
Definition apply_state (s : OpenGLState) : M World unit :=
  modify (fun w => mkWorld (texture_recycler w) (read_fbo w) (draw_fbo w)
                           s (next_handle w) (calls w ++ [Apply s])).

Definition set_recycler (r : list (HostTextureTag * OGLTexture)) (w : World) : World :=
  mkWorld r (read_fbo w) (draw_fbo w) (cur_state w) (next_handle w) (calls w).

(** [OGLTexture::Create] *)
Definition texture_Create : M World OGLTexture :=
  fun w => (Returned (mkTexture (next_handle w)),
            mkWorld (texture_recycler w) (read_fbo w) (draw_fbo w) (cur_state w)
                    (N.succ (next_handle w)) (calls w ++ [glGenTextures])).

Fixpoint recycler_find (key : HostTextureTag)
         (r : list (HostTextureTag * OGLTexture)) : option (nat * OGLTexture) :=
  match r with
  | [] => None
  | (t, a) :: r' =>
      if tag_eqb t key then Some (O, a)
      else match recycler_find key r' with
           | Some (i, a') => Some (S i, a')
           | None => None
           end
  end.

Definition MakeBufferMask (type : SurfaceType) : M World Z :=
  match type with
  | Color | Texture | Fill => mret GL_COLOR_BUFFER_BIT
  | Depth => mret GL_DEPTH_BUFFER_BIT
  | DepthStencil => mret (Z.lor GL_DEPTH_BUFFER_BIT GL_STENCIL_BUFFER_BIT)
  | InvalidType => abort
  end.

Section Runtime.
Variable driver : Driver.

Definition with_scissor (s : OpenGLState) (x y w h : Z) (fbo : Handle) : OpenGLState :=
  mkState true x y w h (read_framebuffer s) fbo (color_mask s)
          (depth_write_mask s) (stencil_write_mask s) (texture_unit0_2d s).

Definition with_color_mask (s : OpenGLState) : OpenGLState :=
  mkState (scissor_enabled s) (scissor_x s) (scissor_y s) (scissor_width s)
          (scissor_height s) (read_framebuffer s) (draw_framebuffer s)
          (true, true, true, true)
          (depth_write_mask s) (stencil_write_mask s) (texture_unit0_2d s).

Definition with_depth_mask (s : OpenGLState) (stencil : option Z) : OpenGLState :=
  mkState (scissor_enabled s) (scissor_x s) (scissor_y s) (scissor_width s)
          (scissor_height s) (read_framebuffer s) (draw_framebuffer s)
          (color_mask s) true
          (match stencil with Some m => m | None => stencil_write_mask s end)
          (texture_unit0_2d s).

Definition with_framebuffers (s : OpenGLState) (r d : Handle) : OpenGLState :=
  mkState (scissor_enabled s) (scissor_x s) (scissor_y s) (scissor_width s)
          (scissor_height s) r d (color_mask s)
          (depth_write_mask s) (stencil_write_mask s) (texture_unit0_2d s).

(** [TextureRuntime::GetFormatTuple] *)
Definition GetFormatTuple (pixel_format : PixelFormat) : M World FormatTuple :=
  let type := GetFormatType pixel_format in
  let format_index := PixelFormat_index pixel_format in
  if bool_decide (type = Color) then
    match (if IsOpenGLES driver then COLOR_TUPLES_OES else COLOR_TUPLES)
            !! Z.to_nat format_index with
    | Some t => mret t
    | None => abort
    end
  else if bool_decide (type = Depth) || bool_decide (type = DepthStencil) then
    match DEPTH_TUPLES !! Z.to_nat (format_index - 14) with
    | Some t => mret t
    | None => abort
    end
  else mret DEFAULT_TUPLE.

(** [TextureRuntime::Allocate] *)
Definition Allocate (width height levels : Z) (format : PixelFormat)
           (type : TextureType) : M World OGLTexture :=
  let target := if bool_decide (type = CubeMap) then GL_TEXTURE_CUBE_MAP else GL_TEXTURE_2D in
  let key := mkTag format type width height levels in
  w ← get;
  match recycler_find key (texture_recycler w) with
  | Some (i, recycled) =>
      modify (set_recycler (delete i (texture_recycler w)));;
      mret recycled
  | None =>
      texture ← texture_Create;
      call (glActiveTexture GL_TEXTURE0);;
      call (glBindTexture target (handle texture));;
      tuple ← GetFormatTuple format;
      call (glTexStorage2D target levels (internal_format tuple) width height);;
      call (glTexParameteri target GL_TEXTURE_MIN_FILTER GL_LINEAR);;
      call (glTexParameteri target GL_TEXTURE_WRAP_S GL_CLAMP_TO_EDGE);;
      call (glTexParameteri target GL_TEXTURE_WRAP_T GL_CLAMP_TO_EDGE);;
      w' ← get;
      call (glBindTexture target (texture_unit0_2d (cur_state w')));;
      mret texture
  end.

(** [TextureRuntime::ClearTexture] *)
Definition ClearTexture (surface : Surface) (clear : TextureClear) : M World bool :=
  prev_state ← (w ← get; mret (cur_state w));
  w ← get;
  let state :=
    with_scissor (default_state driver)
                 (to_s32 (left (rect clear))) (to_s32 (bottom (rect clear)))
                 (to_s32 (GetWidth (rect clear))) (to_s32 (GetHeight (rect clear)))
                 (draw_fbo w) in
  apply_state state;;
  let handle := handle (texture surface) in
  match type (params surface) with
  | Color | Texture | Fill =>
      call (glFramebufferTexture2D GL_DRAW_FRAMEBUFFER GL_COLOR_ATTACHMENT0
                                   GL_TEXTURE_2D handle (level clear));;
      call (glFramebufferTexture2D GL_DRAW_FRAMEBUFFER GL_DEPTH_STENCIL_ATTACHMENT
                                   GL_TEXTURE_2D 0%N 0);;
      apply_state (with_color_mask state);;
      call (glClearBufferfv GL_COLOR (value clear))
  | Depth =>
      call (glFramebufferTexture2D GL_DRAW_FRAMEBUFFER GL_COLOR_ATTACHMENT0
                                   GL_TEXTURE_2D 0%N 0);;
      call (glFramebufferTexture2D GL_DRAW_FRAMEBUFFER GL_DEPTH_ATTACHMENT
                                   GL_TEXTURE_2D handle (level clear));;
      call (glFramebufferTexture2D GL_DRAW_FRAMEBUFFER GL_STENCIL_ATTACHMENT
                                   GL_TEXTURE_2D 0%N 0);;
      apply_state (with_depth_mask state None);;
      call (glClearBufferfv GL_DEPTH (value clear))
  | DepthStencil =>
      call (glFramebufferTexture2D GL_DRAW_FRAMEBUFFER GL_COLOR_ATTACHMENT0
                                   GL_TEXTURE_2D 0%N 0);;
      call (glFramebufferTexture2D GL_DRAW_FRAMEBUFFER GL_DEPTH_STENCIL_ATTACHMENT
                                   GL_TEXTURE_2D handle (level clear));;
      apply_state (with_depth_mask state (Some (-1)));;
      call (glClearBufferfi GL_DEPTH_STENCIL (value clear))
  | InvalidType => abort
  end;;
  (* SCOPE_EXIT *)
  apply_state prev_state;;
  mret true.

(** [TextureRuntime::CopyTextures] *)
Definition CopyTextures (source dest : Surface) (copy : TextureCopy) : M World bool :=
  let src_textarget :=
    if bool_decide (texture_type (params source) = CubeMap)
    then GL_TEXTURE_CUBE_MAP else GL_TEXTURE_2D in
  let dst_textarget :=
    if bool_decide (texture_type (params dest) = CubeMap)
    then GL_TEXTURE_CUBE_MAP else GL_TEXTURE_2D in
  call (glCopyImageSubData (handle (texture source)) src_textarget
                           (handle (texture dest)) dst_textarget copy);;
  mret true.

(** [TextureRuntime::BindFramebuffer] *)
Definition BindFramebuffer (target : GLenum) (level : Z) (textarget : GLenum)
           (type : SurfaceType) (texture : OGLTexture) : M World unit :=
  w ← get;
  let framebuffer :=
    if bool_decide (target = GL_DRAW_FRAMEBUFFER) then draw_fbo w else read_fbo w in
  call (glBindFramebuffer target framebuffer);;
  match type with
  | Color | Texture =>
      call (glFramebufferTexture2D target GL_COLOR_ATTACHMENT0 textarget
                                   (handle texture) level);;
      call (glFramebufferTexture2D target GL_DEPTH_STENCIL_ATTACHMENT textarget 0%N 0)
  | Depth =>
      call (glFramebufferTexture2D target GL_COLOR_ATTACHMENT0 textarget 0%N 0);;
      call (glFramebufferTexture2D target GL_DEPTH_ATTACHMENT textarget
                                   (handle texture) level);;
      call (glFramebufferTexture2D target GL_STENCIL_ATTACHMENT textarget 0%N 0)
  | DepthStencil =>
      call (glFramebufferTexture2D target GL_COLOR_ATTACHMENT0 textarget 0%N 0);;
      call (glFramebufferTexture2D target GL_DEPTH_STENCIL_ATTACHMENT textarget
                                   (handle texture) level)
  | Fill | InvalidType => abort
  end.

(** [TextureRuntime::BlitTextures] *)
Definition BlitTextures (source dest : Surface) (blit : TextureBlit) : M World bool :=
  prev_state ← (w ← get; mret (cur_state w));
  w ← get;
  apply_state (with_framebuffers (default_state driver) (read_fbo w) (draw_fbo w));;
  let src_textarget :=
    if bool_decide (texture_type (params source) = CubeMap)
    then GL_TEXTURE_CUBE_MAP_POSITIVE_X_plus (src_layer blit) else GL_TEXTURE_2D in
  BindFramebuffer GL_READ_FRAMEBUFFER (src_level blit) src_textarget
                  (type (params source)) (texture source);;
  let dst_textarget :=
    if bool_decide (texture_type (params dest) = CubeMap)
    then GL_TEXTURE_CUBE_MAP_POSITIVE_X_plus (dst_layer blit) else GL_TEXTURE_2D in
  BindFramebuffer GL_DRAW_FRAMEBUFFER (dst_level blit) dst_textarget
                  (type (params dest)) (texture dest);;
  buffer_mask ← MakeBufferMask (type (params source));
  let filter := if buffer_mask =? GL_COLOR_BUFFER_BIT then GL_LINEAR else GL_NEAREST in
  call (glBlitFramebuffer (src_rect blit) (dst_rect blit) buffer_mask filter);;
  (* SCOPE_EXIT *)
  apply_state prev_state;;
  mret true.

(** [Surface::Surface] *)
Definition Surface_new (params : SurfaceParams) : M World Surface :=
  if bool_decide (pixel_format params ≠ Invalid)
  then texture ← Allocate (GetScaledWidth params) (GetScaledHeight params)
                          (levels params) (pixel_format params) (texture_type params);
       mret (mkSurface params texture)
  else mret (mkSurface params (mkTexture 0%N)).

(** [Surface::~Surface] *)
Definition Surface_delete (s : Surface) : M World unit :=
  if bool_decide (pixel_format (params s) ≠ Invalid)
  then let tag := mkTag (pixel_format (params s)) (texture_type (params s))
                        (GetScaledWidth (params s)) (GetScaledHeight (params s))
                        (levels (params s)) in
       w ← get;
       modify (set_recycler ((tag, texture s) :: texture_recycler w))
  else mret tt.

Definition out_of_fuel {A} : M World A := fun w => (OutOfFuel, w).

(** [Surface::ScaledUpload]; [Upload] is the member it calls on the
    unscaled surface. *)
Definition ScaledUpload
           (Upload : Surface -> BufferTextureCopy -> StagingData -> M World unit)
           (this : Surface) (upload : BufferTextureCopy) (staging : StagingData)
  : M World unit :=
  let rect_width := GetWidth (texture_rect upload) in
  let rect_height := GetHeight (texture_rect upload) in
  let scaled_rect := Rect_scale (texture_rect upload) (res_scale (params this)) in
  let unscaled_rect := mkRect 0 rect_height rect_width 0 in
  let unscaled_params := set_geometry (params this) rect_width rect_width rect_height 1 in
  unscaled_surface ← Surface_new unscaled_params;
  let unscaled_upload :=
    mkBufferTextureCopy (buffer_offset upload) (buffer_size upload) unscaled_rect 0 in
  Upload unscaled_surface unscaled_upload staging;;
  call (Filter (handle (texture unscaled_surface)) unscaled_rect
               (handle (texture this)) scaled_rect (type (params this)));;
  (if negb (filterer_accepts driver (handle (texture unscaled_surface)) unscaled_rect
                             (handle (texture this)) scaled_rect (type (params this)))
   then let blit := mkTextureBlit 0 (texture_level upload) 0 0 unscaled_rect scaled_rect in
        BlitTextures unscaled_surface this blit;; mret tt
   else mret tt);;
  Surface_delete unscaled_surface.

(** [Surface::Upload]; the fuel bounds the nesting of calls. *)
Fixpoint Upload_fuel (fuel : nat) (this : Surface) (upload : BufferTextureCopy)
         (staging : StagingData) : M World unit :=
  match fuel with
  | O => out_of_fuel
  | S fuel' =>
      (* ASSERT(stride * GetBytesPerPixel(pixel_format) % 4 == 0) *)
      if negb (wrap32 (stride (params this)
                       * GetBytesPerPixel driver (pixel_format (params this)))
               mod 4 =? 0)
      then abort
      else if negb (res_scale (params this) =? 1)
      then ScaledUpload (Upload_fuel fuel') this upload staging
      else
        prev_state ← (w ← get; mret (cur_state w));
        let rect := texture_rect upload in
        call (glPixelStorei GL_UNPACK_ROW_LENGTH (GetWidth rect));;
        call (glBindBuffer GL_PIXEL_UNPACK_BUFFER (buffer staging));;
        call (Unmap (size staging));;
        call (glActiveTexture GL_TEXTURE0);;
        call (glBindTexture GL_TEXTURE_2D (handle (texture this)));;
        tuple ← GetFormatTuple (pixel_format (params this));
        call (glTexSubImage2D GL_TEXTURE_2D (texture_level upload) rect
                              (tuple_format tuple) (tuple_type tuple)
                              (staging_offset staging));;
        call (glPixelStorei GL_UNPACK_ROW_LENGTH 0);;
        (* SCOPE_EXIT *)
        apply_state prev_state
  end.

Definition Upload : Surface -> BufferTextureCopy -> StagingData -> M World unit :=
  Upload_fuel 2.

End Runtime.

(** [glClearBuffer*] under an enabled scissor test writes the clear value
    inside the scissor box and nothing elsewhere. *)
Definition in_scissor (s : OpenGLState) (x y : Z) : bool :=
  negb (scissor_enabled s)
  || ((scissor_x s <=? x) && (x <? scissor_x s + scissor_width s)
      && (scissor_y s <=? y) && (y <? scissor_y s + scissor_height s)).

Definition scissored_clear (s : OpenGLState) (v : ClearValue) (img : Z -> Z -> ClearValue)
  : Z -> Z -> ClearValue :=
  fun x y => if in_scissor s x y then v else img x y.



(** The filters of the framebuffer blits made so far, oldest first. *)
Definition blit_filters (cs : list Call) : list GLenum :=
  flat_map (fun c => match c with
                     | glBlitFramebuffer _ _ _ f => [f]
                     | _ => []
                     end) cs.


(** The surface types [BindFramebuffer] has a case for. *)
Definition bindable (t : SurfaceType) : bool :=
  match t with Color | Texture | Depth | DepthStencil => true | _ => false end.


(** The world after some more calls. *)
Definition log_calls (w : World) (cs : list Call) : World :=
  mkWorld (texture_recycler w) (read_fbo w) (draw_fbo w) (cur_state w)
          (next_handle w) (calls w ++ cs).


(** [TextureRuntime::FindStaging].  The world is the member
    [download_buffer]; [upload_Map] stands for [upload_buffer.Map], which
    answers the mapped bytes, their offset and whether the buffer was
    invalidated, and [upload_Handle] for [upload_buffer.Handle()].
    [resize] to a larger size appends zero bytes. *)
Definition FindStaging (upload_Map : Z -> Z -> list byte * Z * bool)
           (upload_Handle : Handle) (size : Z) (upload : bool)
  : M (list byte) StagingData :=
  if negb upload then
    download_buffer ← get;
    (if Z.of_nat (length download_buffer) <? size
     then modify (fun b : list byte =>
                    b ++ replicate (Z.to_nat size - length b) (byte.of_Z 0))
     else mret tt);;
    download_buffer ← get;
    mret (mkStaging 0%N size (take (Z.to_nat size) download_buffer) 0)
  else
    let '(data, offset, invalidate) := upload_Map size 4 in
    mret (mkStaging upload_Handle size (take (Z.to_nat size) data) offset).


(** [TextureRuntime::NeedsConvertion] *)
Definition NeedsConvertion (driver : Driver) (format : PixelFormat) : bool :=
  IsOpenGLES driver && (bool_decide (format = RGB8) || bool_decide (format = RGBA8)).

(** An operation that, when it returns, has put back the [OpenGLState]
    that was current when it began. *)
Definition keeps_state {A} (m : M World A) : Prop :=
  forall w a w', m w = (Returned a, w') -> cur_state w' = cur_state w.


End OpenGL.

(** ** The shared OpenGL runtime ([rasterizer_cache/texture_runtime.cpp]) *)

Module RasterizerCache.
Import VideoCore.
Import OpenGL.

Record Region := mkRegion { start : Offset; end_ : Offset }.

Record ClearRect := mkClearRect {
  clear_surface_type : SurfaceType;
  clear_texture_level : Z;
  rect_offset : Offset;
  rect_extent : Extent
}.

Record TextureBlit := mkTextureBlit {
  surface_type : SurfaceType;
  src_level : Z;
  dst_level : Z;
  src_region : Region;
  dst_region : Region
}.

Definition region_rect (r : Region) : Rect2D :=
  mkRect (off_x (start r)) (off_y (end_ r)) (off_x (end_ r)) (off_y (start r)).

Section Runtime.
Variable driver : Driver.

(** [TextureRuntime::ClearTexture] *)
Definition ClearTexture (texture : OGLTexture) (rect : ClearRect) (value : ClearValue)
  : M World bool :=
  prev_state ← (w ← get; mret (cur_state w));
  w ← get;
  let state :=
    with_scissor (default_state driver) (off_x (rect_offset rect)) (off_y (rect_offset rect))
                 (ext_width (rect_extent rect)) (ext_height (rect_extent rect))
                 (draw_fbo w) in
  apply_state state;;
  match clear_surface_type rect with
  | Color | Texture | Fill =>
      call (glFramebufferTexture2D GL_DRAW_FRAMEBUFFER GL_COLOR_ATTACHMENT0
                                   GL_TEXTURE_2D (handle texture) (clear_texture_level rect));;
      call (glFramebufferTexture2D GL_DRAW_FRAMEBUFFER GL_DEPTH_STENCIL_ATTACHMENT
                                   GL_TEXTURE_2D 0%N 0);;
      apply_state (with_color_mask state);;
      call (glClearBufferfv GL_COLOR value)
  | Depth =>
      call (glFramebufferTexture2D GL_DRAW_FRAMEBUFFER GL_COLOR_ATTACHMENT0
                                   GL_TEXTURE_2D 0%N 0);;
      call (glFramebufferTexture2D GL_DRAW_FRAMEBUFFER GL_DEPTH_ATTACHMENT
                                   GL_TEXTURE_2D (handle texture) (clear_texture_level rect));;
      call (glFramebufferTexture2D GL_DRAW_FRAMEBUFFER GL_STENCIL_ATTACHMENT
                                   GL_TEXTURE_2D 0%N 0);;
      apply_state (with_depth_mask state None);;
      call (glClearBufferfv GL_DEPTH value)
  | DepthStencil =>
      call (glFramebufferTexture2D GL_DRAW_FRAMEBUFFER GL_COLOR_ATTACHMENT0
                                   GL_TEXTURE_2D 0%N 0);;
      call (glFramebufferTexture2D GL_DRAW_FRAMEBUFFER GL_DEPTH_STENCIL_ATTACHMENT
                                   GL_TEXTURE_2D (handle texture) (clear_texture_level rect));;
      apply_state (with_depth_mask state (Some (-1)));;
      call (glClearBufferfi GL_DEPTH_STENCIL value)
  | InvalidType => abort
  end;;
  (* SCOPE_EXIT *)
  apply_state prev_state;;
  mret true.

(** [TextureRuntime::CopyTextures] *)
Definition CopyTextures (source dest : OGLTexture) (copy : TextureCopy) : M World bool :=
  mret true.

(** The [BindAttachment] lambda of [BlitTextures]. *)
Definition BindAttachment (blit : TextureBlit) (target : GLenum) (src_tex dst_tex : Handle)
  : M World unit :=
  call (glFramebufferTexture2D GL_READ_FRAMEBUFFER target GL_TEXTURE_2D src_tex
                               (src_level blit));;
  call (glFramebufferTexture2D GL_DRAW_FRAMEBUFFER target GL_TEXTURE_2D dst_tex
                               (dst_level blit)).

(** [TextureRuntime::BlitTextures] *)
Definition BlitTextures (source dest : OGLTexture) (blit : TextureBlit) : M World bool :=
  prev_state ← (w ← get; mret (cur_state w));
  w ← get;
  apply_state (with_framebuffers (default_state driver) (read_fbo w) (draw_fbo w));;
  match surface_type blit with
  | Color | Texture | Fill =>
      BindAttachment blit GL_COLOR_ATTACHMENT0 (handle source) (handle dest);;
      BindAttachment blit GL_DEPTH_STENCIL_ATTACHMENT 0%N 0%N
  | Depth =>
      BindAttachment blit GL_COLOR_ATTACHMENT0 0%N 0%N;;
      BindAttachment blit GL_DEPTH_ATTACHMENT (handle source) (handle dest);;
      BindAttachment blit GL_STENCIL_ATTACHMENT 0%N 0%N
  | DepthStencil =>
      BindAttachment blit GL_COLOR_ATTACHMENT0 0%N 0%N;;
      BindAttachment blit GL_DEPTH_STENCIL_ATTACHMENT (handle source) (handle dest)
  | InvalidType => abort
  end;;
  buffer_mask ← MakeBufferMask (surface_type blit);
  let filter := if buffer_mask =? GL_COLOR_BUFFER_BIT then GL_LINEAR else GL_NEAREST in
  call (glBlitFramebuffer (region_rect (src_region blit)) (region_rect (dst_region blit))
                          buffer_mask filter);;
  (* SCOPE_EXIT *)
  apply_state prev_state;;
  mret true.

End Runtime.

End RasterizerCache.

(** ** Concrete collaborators for the examples *)

Module Fixtures.
Import VideoCore.

(** [GetImageAspect] as the Vulkan format classes give it. *)
Definition GetImageAspect (f : Vulkan.Format) : Z :=
  match f with
  | Vulkan.eD16UnormS8Uint | Vulkan.eD24UnormS8Uint | Vulkan.eD32SfloatS8Uint =>
      Z.lor Vulkan.eStencil Vulkan.eDepth
  | Vulkan.eD16Unorm | Vulkan.eD32Sfloat | Vulkan.eX8D24UnormPack32 => Vulkan.eDepth
  | _ => Vulkan.eColor
  end.

Definition native_format (f : PixelFormat) : Vulkan.Format :=
  match f with
  | RGBA8 => Vulkan.eR8G8B8A8Unorm
  | RGB8 => Vulkan.eR8G8B8Unorm
  | RGB5A1 => Vulkan.eR5G5B5A1UnormPack16
  | RGB565 => Vulkan.eR5G6B5UnormPack16
  | RGBA4 => Vulkan.eR4G4B4A4UnormPack16
  | D16 => Vulkan.eD16Unorm
  | D24 => Vulkan.eX8D24UnormPack32
  | D24S8 => Vulkan.eD24UnormS8Uint
  | _ => Vulkan.eR8G8B8A8Unorm
  end.

Definition blockSize (f : Vulkan.Format) : Z :=
  match f with
  | Vulkan.eUndefined => 0
  | Vulkan.eR8G8B8Unorm => 3
  | Vulkan.eR5G5B5A1UnormPack16 | Vulkan.eR5G6B5UnormPack16
  | Vulkan.eR4G4B4A4UnormPack16 | Vulkan.eD16Unorm => 2
  | Vulkan.eD16UnormS8Uint => 3
  | Vulkan.eD32SfloatS8Uint => 5
  | _ => 4
  end.

(** A device on which every format supports every use and allocation
    succeeds. *)
Definition capable : Vulkan.Instance :=
  Vulkan.mkInstance
    (fun f => Vulkan.mkTraits true true true 0 (native_format f) Vulkan.eR8G8B8A8Unorm)
    GetImageAspect (fun _ => 0) blockSize (fun _ => Vulkan.VK_SUCCESS).

(** A device whose formats cannot be blitted. *)
Definition no_blit : Vulkan.Instance :=
  Vulkan.mkInstance
    (fun f => Vulkan.mkTraits true false true 0 (native_format f) Vulkan.eR8G8B8A8Unorm)
    GetImageAspect (fun _ => 0) blockSize (fun _ => Vulkan.VK_SUCCESS).

Definition vk_empty : Vulkan.World := Vulkan.mkWorld [] [] 1%N [].

Definition some_alloc (h : N) (f : Vulkan.Format) : Vulkan.ImageAlloc :=
  Vulkan.mkAlloc h (h + 1)%N (h + 2)%N 0%N 0%N 0%N (h + 3)%N 0 f (GetImageAspect f)
                 Vulkan.LayoutUndefined.

Definition gl_state0 : OpenGL.OpenGLState :=
  OpenGL.mkState false 0 0 0 0 0%N 0%N (true, true, true, true) true 255 0%N.

Definition desktop (accept : bool) : OpenGL.Driver :=
  OpenGL.mkDriver false gl_state0
                  (fun f => match f with
                            | RGBA8 | D24S8 | D24 => 4
                            | RGB8 => 3
                            | RGB5A1 | RGB565 | RGBA4 | D16 => 2
                            | _ => 4
                            end)
                  (fun _ _ _ _ _ => accept).

Definition gl_empty : OpenGL.World := OpenGL.mkWorld [] 1%N 2%N gl_state0 3%N [].

Definition params0 (w h scale : Z) (f : PixelFormat) : SurfaceParams :=
  mkParams w h w 1 scale true Texture2D f (GetFormatType f).

End Fixtures.


(** * Properties *)

(** Unfolding of the monad. *)
Ltac unfold_monad :=
  cbv [mbind M_bind bind mret M_ret ret get modify abort].

(** ** Tags and the recycler *)

Lemma Vulkan_tag_eqb_eq (a b : Vulkan.HostTextureTag) :
  Vulkan.tag_eqb a b = true <-> a = b.
Proof.
  unfold Vulkan.tag_eqb. destruct a, b; simpl.
  rewrite !andb_true_iff, !bool_decide_eq_true, !Z.eqb_eq.
  split; [intros [[[[-> ->] ->] ->] ->]; reflexivity | intros [= -> -> -> -> ->]; auto].
Qed.

Lemma OpenGL_tag_eqb_eq (a b : OpenGL.HostTextureTag) :
  OpenGL.tag_eqb a b = true <-> a = b.
Proof.
  unfold OpenGL.tag_eqb. destruct a, b; simpl.
  rewrite !andb_true_iff, !bool_decide_eq_true, !Z.eqb_eq.
  split; [intros [[[[-> ->] ->] ->] ->]; reflexivity | intros [= -> -> -> -> ->]; auto].
Qed.

Lemma VulkanLevels_tag_eqb_eq (a b : VulkanLevels.HostTextureTag) :
  VulkanLevels.tag_eqb a b = true <-> a = b.
Proof.
  unfold VulkanLevels.tag_eqb. destruct a, b; simpl.
  rewrite !andb_true_iff, !bool_decide_eq_true, !Z.eqb_eq.
  split; [intros [[[[[-> ->] ->] ->] ->] ->]; reflexivity
         | intros [= -> -> -> -> -> ->]; auto 6].
Qed.

Section RecyclerFind.
Context {T A : Type} (eqb : T -> T -> bool)
        (find : T -> list (T * A) -> option (nat * A)).
Hypothesis eqb_eq : forall a b, eqb a b = true <-> a = b.
Hypothesis find_nil : forall key, find key [] = None.
Hypothesis find_cons : forall key t a r,
    find key ((t, a) :: r) =
    if eqb t key then Some (O, a)
    else match find key r with Some (i, a') => Some (S i, a') | None => None end.

(** A hit is an entry stored under the key itself, and erasing it
    leaves the other entries as they were. *)
Lemma find_Some_split key r i a :
  find key r = Some (i, a) ->
  exists r1 r2, r = r1 ++ (key, a) :: r2 /\ delete i r = r1 ++ r2.
Proof.
  revert i. induction r as [|[t b] r IH]; intros i H.
  - rewrite find_nil in H. discriminate.
  - rewrite find_cons in H. destruct (eqb t key) eqn:E.
    + injection H as <- <-. apply eqb_eq in E as ->. exists [], r. auto.
    + destruct (find key r) as [[j c]|] eqn:F; [|discriminate].
      injection H as <- <-. destruct (IH j eq_refl) as (r1 & r2 & -> & Hd).
      exists ((t, b) :: r1), r2. simpl. rewrite Hd. auto.
Qed.

Lemma find_None key r :
  find key r = None <-> (forall a, (key, a) ∉ r).
Proof.
  induction r as [|[t b] r IH].
  - rewrite find_nil. split; [intros _ a Ha; inversion Ha | auto].
  - rewrite find_cons. destruct (eqb t key) eqn:E.
    + apply eqb_eq in E as ->. split; [discriminate|].
      intros H. exfalso. apply (H b). left.
    + assert (t <> key) as Hne by (intros ->; assert (eqb key key = true) by (apply eqb_eq; auto); congruence).
      destruct (find key r) as [[j c]|] eqn:F.
      * split; [discriminate|]. intros H. exfalso.
        destruct IH as [_ IH]. enough (Some (j, c) = None) by discriminate.
        apply IH. intros a Ha. apply (H a). by right.
      * split; [|auto]. intros _ a Ha. apply elem_of_cons in Ha as [[= <- _]|Ha]; [done|].
        destruct IH as [IH _]. exact (IH eq_refl a Ha).
Qed.
End RecyclerFind.

Lemma Vulkan_find_Some key r i a :
  Vulkan.recycler_find key r = Some (i, a) ->
  exists r1 r2, r = r1 ++ (key, a) :: r2 /\ delete i r = r1 ++ r2.
Proof. apply (find_Some_split Vulkan.tag_eqb); auto using Vulkan_tag_eqb_eq. Qed.

Lemma Vulkan_find_None key r :
  Vulkan.recycler_find key r = None <-> (forall a, (key, a) ∉ r).
Proof. apply (find_None Vulkan.tag_eqb); auto using Vulkan_tag_eqb_eq. Qed.

Lemma OpenGL_find_Some key r i a :
  OpenGL.recycler_find key r = Some (i, a) ->
  exists r1 r2, r = r1 ++ (key, a) :: r2 /\ delete i r = r1 ++ r2.
Proof. apply (find_Some_split OpenGL.tag_eqb); auto using OpenGL_tag_eqb_eq. Qed.

Lemma OpenGL_find_None key r :
  OpenGL.recycler_find key r = None <-> (forall a, (key, a) ∉ r).
Proof. apply (find_None OpenGL.tag_eqb); auto using OpenGL_tag_eqb_eq. Qed.

(** [GetFormatTuple] never aborts: the tables cover every format whose
    type leads into them. *)
Lemma GetFormatTuple_total driver f :
  exists t, forall w, OpenGL.GetFormatTuple driver f w = (Returned t, w).
Proof.
  unfold OpenGL.GetFormatTuple. destruct (OpenGL.IsOpenGLES driver), f; simpl; eauto.
Qed.

(** All elements of a literal list but the last. *)
Ltac init_of l :=
  lazymatch l with
  | [_] => constr:(@nil ltac:(let t := type of l in
                              lazymatch t with list ?A => exact A end))
  | ?x :: ?t => let r := init_of t in constr:(x :: r)
  end.

(** Reassociate appends to the right without touching existentials. *)
Ltac assoc_right :=
  repeat match goal with
         | |- context [(?x ++ ?y) ++ ?z] => rewrite <- (app_assoc x y z)
         end;
  cbn [app].

(** ** C1 *)

(** C1. [TextureRuntime::Allocate], on both backends, for a pixel format
    other than Invalid: when the recycler holds an entry under the tag
    computed from the request, that entry is erased from the recycler and
    its allocation is returned, with no host call and no new handle;
    when it holds none (and, on Vulkan, the allocator answers
    [VK_SUCCESS]), the recycler is left alone, a new image is requested
    from the host, its views are created, and on Vulkan the recorded
    closure moves the image from the undefined to the general layout. *)
Theorem Allocate_recycles_or_creates
        (instance : Vulkan.Instance) (driver : OpenGL.Driver)
        (width height levels : Z) (pixel_format : VideoCore.PixelFormat)
        (type : VideoCore.TextureType) (format : Vulkan.Format) (usage : Z)
        (wv : Vulkan.World) (wg : OpenGL.World) :
  pixel_format <> VideoCore.Invalid ->
  let key := Vulkan.mkTag format pixel_format type width height in
  let info := Vulkan.image_request width height pixel_format type format usage in
  let glkey := OpenGL.mkTag pixel_format type width height levels in
  let target := if bool_decide (type = VideoCore.CubeMap)
                then OpenGL.GL_TEXTURE_CUBE_MAP else OpenGL.GL_TEXTURE_2D in
  ((exists a, (key, a) ∈ Vulkan.texture_recycler wv) ->
   exists r1 a r2,
     Vulkan.texture_recycler wv = r1 ++ (key, a) :: r2 /\
     Vulkan.Allocate instance width height pixel_format type format usage wv
     = (Returned a, Vulkan.set_recycler (r1 ++ r2) wv))
  /\
  ((forall a, (key, a) ∉ Vulkan.texture_recycler wv) ->
   Vulkan.vmaCreateImage_result instance info = Vulkan.VK_SUCCESS ->
   exists alloc views wv',
     Vulkan.Allocate instance width height pixel_format type format usage wv
     = (Returned alloc, wv') /\
     Vulkan.texture_recycler wv' = Vulkan.texture_recycler wv /\
     Vulkan.image alloc = Vulkan.next_handle wv /\
     Vulkan.alloc_format alloc = format /\
     views <> [] /\ Forall (Vulkan.creates_view_of (Vulkan.image alloc)) views /\
     Vulkan.calls wv' =
       Vulkan.calls wv ++ [Vulkan.vmaCreateImage info] ++ views
       ++ [Vulkan.SchedulerRecord
             (Vulkan.InitBarrierClosure (Vulkan.image alloc) (Vulkan.aspect alloc))] /\
     forall m,
       Vulkan.run_closure
         (Vulkan.InitBarrierClosure (Vulkan.image alloc) (Vulkan.aspect alloc)) m
       = (Returned (Vulkan.upload_cmdbuf,
                    [Vulkan.pipelineBarrier
                       [Vulkan.mkBarrier Vulkan.LayoutUndefined Vulkan.eGeneral
                                         (Vulkan.image alloc) (Vulkan.aspect alloc) 0 None]]),
          m))
  /\
  ((exists t, (glkey, t) ∈ OpenGL.texture_recycler wg) ->
   exists r1 t r2,
     OpenGL.texture_recycler wg = r1 ++ (glkey, t) :: r2 /\
     OpenGL.Allocate driver width height levels pixel_format type wg
     = (Returned t, OpenGL.set_recycler (r1 ++ r2) wg))
  /\
  ((forall t, (glkey, t) ∉ OpenGL.texture_recycler wg) ->
   exists tuple wg',
     OpenGL.Allocate driver width height levels pixel_format type wg
     = (Returned (OpenGL.mkTexture (OpenGL.next_handle wg)), wg') /\
     OpenGL.texture_recycler wg' = OpenGL.texture_recycler wg /\
     OpenGL.calls wg' =
       OpenGL.calls wg ++
       [OpenGL.glGenTextures;
        OpenGL.glActiveTexture OpenGL.GL_TEXTURE0;
        OpenGL.glBindTexture target (OpenGL.next_handle wg);
        OpenGL.glTexStorage2D target levels (OpenGL.internal_format tuple) width height;
        OpenGL.glTexParameteri target OpenGL.GL_TEXTURE_MIN_FILTER OpenGL.GL_LINEAR;
        OpenGL.glTexParameteri target OpenGL.GL_TEXTURE_WRAP_S OpenGL.GL_CLAMP_TO_EDGE;
        OpenGL.glTexParameteri target OpenGL.GL_TEXTURE_WRAP_T OpenGL.GL_CLAMP_TO_EDGE;
        OpenGL.glBindTexture target (OpenGL.texture_unit0_2d (OpenGL.cur_state wg))]).
Proof.
  intros Hvalid key info glkey target. repeat split.
  - (* Vulkan, hit *)
    intros [a Ha]. unfold Vulkan.Allocate.
    rewrite bool_decide_eq_false_2 by done. unfold_monad. fold key.
    destruct (Vulkan.recycler_find key (Vulkan.texture_recycler wv)) as [[i b]|] eqn:F.
    + destruct (Vulkan_find_Some _ _ _ _ F) as (r1 & r2 & Hr & Hd).
      exists r1, b, r2. rewrite Hd. auto.
    + destruct (proj1 (Vulkan_find_None _ _) F a Ha).
  - (* Vulkan, miss *)
    intros Hmiss Hok. apply (proj2 (Vulkan_find_None _ _)) in Hmiss.
    destruct wv as [rec fbs nh cs]. simpl in Hmiss.
    unfold Vulkan.Allocate.
    rewrite bool_decide_eq_false_2 by done.
    fold (Vulkan.image_request width height pixel_format type format usage).
    fold info. fold key.
    rewrite Hok. unfold Vulkan.VK_SUCCESS. rewrite Z.eqb_refl.
    cbv [mbind M_bind bind mret M_ret ret get modify abort Vulkan.create Vulkan.call
         Vulkan.texture_recycler Vulkan.clear_framebuffers Vulkan.next_handle Vulkan.calls
         Vulkan.set_recycler Vulkan.aspect negb Vulkan.image Vulkan.alloc_format].
    rewrite Hmiss.
    destruct (1 <? bit_width (Z.max width height));
      destruct (Z.land (Vulkan.GetImageAspect instance format) Vulkan.eStencil =? 0);
      destruct (bool_decide (pixel_format = VideoCore.RGBA8)).
    all: eexists _, _, _; (split; [reflexivity|]).
    all: assoc_right.
    all: do 3 (split; [reflexivity|]).
    all: refine (conj _ (conj _ (conj _ _))); cycle 2;
      [ lazymatch goal with
        | |- _ ++ _ :: ?L = _ ++ _ :: ?V ++ _ => let v := init_of L in unify V v
        end; reflexivity
      | intros m; reflexivity | discriminate
      | repeat (constructor; [eexists; split; reflexivity|]); constructor ].
  - (* OpenGL, hit *)
    intros [a Ha]. unfold OpenGL.Allocate. unfold_monad. fold glkey.
    destruct (OpenGL.recycler_find glkey (OpenGL.texture_recycler wg)) as [[i b]|] eqn:F.
    + destruct (OpenGL_find_Some _ _ _ _ F) as (r1 & r2 & Hr & Hd).
      exists r1, b, r2. rewrite Hd. auto.
    + destruct (proj1 (OpenGL_find_None _ _) F a Ha).
  - (* OpenGL, miss *)
    intros Hmiss. apply (proj2 (OpenGL_find_None _ _)) in Hmiss.
    destruct wg as [rec rf df cur nh cs]. simpl in Hmiss.
    destruct (GetFormatTuple_total driver pixel_format) as [t Ht].
    unfold OpenGL.Allocate.
    cbv [mbind M_bind bind mret M_ret ret get modify abort OpenGL.texture_Create OpenGL.call
         OpenGL.texture_recycler OpenGL.read_fbo OpenGL.draw_fbo OpenGL.cur_state
         OpenGL.next_handle OpenGL.calls OpenGL.set_recycler OpenGL.handle].
    fold glkey. rewrite Hmiss, Ht.
    exists t. eexists. split; [reflexivity|].
    assoc_right. split; reflexivity.
Qed.

Lemma Allocate_recycles_or_creates_witness :
  VideoCore.RGBA8 <> VideoCore.Invalid /\
  let key := Vulkan.mkTag Vulkan.eR8G8B8A8Unorm VideoCore.RGBA8 VideoCore.Texture2D 256 256 in
  let a0 := Fixtures.some_alloc 7 Vulkan.eR8G8B8A8Unorm in
  let w := Vulkan.mkWorld [(key, a0)] [] 20%N [] in
  exists r1 a r2,
    Vulkan.texture_recycler w = r1 ++ (key, a) :: r2 /\
    Vulkan.Allocate Fixtures.capable 256 256 VideoCore.RGBA8 VideoCore.Texture2D
                    Vulkan.eR8G8B8A8Unorm 0 w
    = (Returned a, Vulkan.set_recycler (r1 ++ r2) w).
Proof.
  split; [discriminate|]. intros key a0 w.
  apply (Allocate_recycles_or_creates Fixtures.capable (Fixtures.desktop false)
           256 256 1 VideoCore.RGBA8 VideoCore.Texture2D Vulkan.eR8G8B8A8Unorm 0
           w Fixtures.gl_empty); [discriminate|].
  exists a0. left.
Defined.

(** ** C2 *)

(** C2. Destroying a surface whose pixel format is not Invalid puts its
    allocation into the recycler under the tag built from the surface's
    format, pixel format, texture type and scaled width and height (on
    OpenGL: pixel format, texture type, scaled size and levels); no host
    call is made, so the allocation is not destroyed; the entries already
    there stay, several under one tag included: destroying a second
    surface of the same shape leaves both allocations under that tag. *)
Theorem Surface_delete_recycles
        (s s' : Vulkan.Surface) (wv : Vulkan.World)
        (g g' : OpenGL.Surface) (wg : OpenGL.World) :
  VideoCore.pixel_format (Vulkan.params s) <> VideoCore.Invalid ->
  VideoCore.pixel_format (OpenGL.params g) <> VideoCore.Invalid ->
  let tag (s : Vulkan.Surface) :=
    Vulkan.mkTag (Vulkan.alloc_format (Vulkan.alloc s))
                 (VideoCore.pixel_format (Vulkan.params s))
                 (VideoCore.texture_type (Vulkan.params s))
                 (VideoCore.GetScaledWidth (Vulkan.params s))
                 (VideoCore.GetScaledHeight (Vulkan.params s)) in
  let gtag (g : OpenGL.Surface) :=
    OpenGL.mkTag (VideoCore.pixel_format (OpenGL.params g))
                 (VideoCore.texture_type (OpenGL.params g))
                 (VideoCore.GetScaledWidth (OpenGL.params g))
                 (VideoCore.GetScaledHeight (OpenGL.params g))
                 (VideoCore.levels (OpenGL.params g)) in
  (exists w1,
     Vulkan.Surface_delete s wv = (Returned tt, w1) /\
     Vulkan.texture_recycler w1 = (tag s, Vulkan.alloc s) :: Vulkan.texture_recycler wv /\
     Vulkan.calls w1 = Vulkan.calls wv /\
     (tag s' = tag s ->
      exists w2,
        Vulkan.Surface_delete s' w1 = (Returned tt, w2) /\
        Vulkan.calls w2 = Vulkan.calls wv /\
        Vulkan.texture_recycler w2
        = (tag s, Vulkan.alloc s') :: (tag s, Vulkan.alloc s) :: Vulkan.texture_recycler wv))
  /\
  (exists w1,
     OpenGL.Surface_delete g wg = (Returned tt, w1) /\
     OpenGL.texture_recycler w1 = (gtag g, OpenGL.texture g) :: OpenGL.texture_recycler wg /\
     OpenGL.calls w1 = OpenGL.calls wg /\
     (gtag g' = gtag g ->
      exists w2,
        OpenGL.Surface_delete g' w1 = (Returned tt, w2) /\
        OpenGL.calls w2 = OpenGL.calls wg /\
        OpenGL.texture_recycler w2
        = (gtag g, OpenGL.texture g') :: (gtag g, OpenGL.texture g)
            :: OpenGL.texture_recycler wg)).
Proof.
  intros Hs Hg tag gtag. split.
  - unfold Vulkan.Surface_delete, Vulkan.Recycle.
    rewrite (bool_decide_eq_true_2 _ Hs). unfold_monad.
    eexists. split; [reflexivity|]. do 2 (split; [reflexivity|]).
    intros Htag.
    assert (VideoCore.pixel_format (Vulkan.params s') <> VideoCore.Invalid) as Hs'.
    { injection Htag as _ -> _ _ _. exact Hs. }
    rewrite (bool_decide_eq_true_2 _ Hs'). fold (tag s'). rewrite Htag.
    eexists. split; [reflexivity|]. split; reflexivity.
  - unfold OpenGL.Surface_delete.
    rewrite (bool_decide_eq_true_2 _ Hg). unfold_monad.
    eexists. split; [reflexivity|]. do 2 (split; [reflexivity|]).
    intros Htag.
    assert (VideoCore.pixel_format (OpenGL.params g') <> VideoCore.Invalid) as Hg'.
    { injection Htag as -> _ _ _ _. exact Hg. }
    rewrite (bool_decide_eq_true_2 _ Hg'). fold (gtag g'). rewrite Htag.
    eexists. split; [reflexivity|]. split; reflexivity.
Qed.

Lemma Surface_delete_recycles_witness :
  let s := Vulkan.mkSurface (Fixtures.params0 256 256 2 VideoCore.RGBA8)
                            (Fixtures.some_alloc 7 Vulkan.eR8G8B8A8Unorm)
                            Vulkan.default_traits in
  let g := OpenGL.mkSurface (Fixtures.params0 256 256 2 VideoCore.RGBA8) (OpenGL.mkTexture 9%N) in
  VideoCore.pixel_format (Vulkan.params s) <> VideoCore.Invalid /\
  VideoCore.pixel_format (OpenGL.params g) <> VideoCore.Invalid /\
  exists w1,
    Vulkan.Surface_delete s Fixtures.vk_empty = (Returned tt, w1) /\
    Vulkan.texture_recycler w1
    = [(Vulkan.mkTag Vulkan.eR8G8B8A8Unorm VideoCore.RGBA8 VideoCore.Texture2D 512 512,
        Vulkan.alloc s)].
Proof.
  intros s g. split; [discriminate|]. split; [discriminate|].
  destruct (Surface_delete_recycles s s Fixtures.vk_empty g g Fixtures.gl_empty)
    as [(w1 & H1 & H2 & _) _]; [discriminate | discriminate |].
  exists w1. split; [exact H1 | exact H2].
Defined.

(** ** C9 *)

(** C9. For a destination format other than D24S8, [UnpackDepthStencil]
    logs an error and aborts; the staging bytes are exactly as before.  The
    upload closure that called it for a stencil-carrying image aborts with
    it, before any copy command is issued. *)
Theorem UnpackDepthStencil_unsupported_aborts
        (data : Vulkan.StagingData) (dest : Vulkan.Format) (m : Vulkan.Memory)
        (aspect : Z) (image : Vulkan.Handle) (upload : VideoCore.BufferTextureCopy) :
  dest <> Vulkan.eD24UnormS8Uint ->
  Vulkan.UnpackDepthStencil data dest m
  = (Aborted, Vulkan.mkMemory (Vulkan.mem m) (Vulkan.mem_log m ++ [Vulkan.LogError]))
  /\ (Z.land aspect Vulkan.eStencil <> 0 ->
      Vulkan.run_closure (Vulkan.UploadClosure aspect image dest data upload) m
      = (Aborted, Vulkan.mkMemory (Vulkan.mem m) (Vulkan.mem_log m ++ [Vulkan.LogError]))).
Proof.
  intros Hd.
  assert (Vulkan.UnpackDepthStencil data dest m
          = (Aborted, Vulkan.mkMemory (Vulkan.mem m) (Vulkan.mem_log m ++ [Vulkan.LogError]))) as H.
  { unfold Vulkan.UnpackDepthStencil. destruct dest; try reflexivity. congruence. }
  split; [exact H|]. intros Ha.
  unfold Vulkan.run_closure.
  apply Z.eqb_neq in Ha. rewrite Ha. cbn [negb].
  cbv [mbind M_bind bind]. rewrite H. reflexivity.
Qed.

Lemma UnpackDepthStencil_unsupported_aborts_witness :
  Vulkan.eD32SfloatS8Uint <> Vulkan.eD24UnormS8Uint /\
  Vulkan.run_UnpackDepthStencil
    (Vulkan.mkStaging 0%N 5 (map byte.of_Z [17; 34; 51; 68; 0]) 0) Vulkan.eD32SfloatS8Uint
  = (Aborted, Vulkan.mkMemory (map byte.of_Z [17; 34; 51; 68; 0]) [Vulkan.LogError]).
Proof.
  split; [discriminate|].
  exact (proj1 (UnpackDepthStencil_unsupported_aborts
                  (Vulkan.mkStaging 0%N 5 (map byte.of_Z [17; 34; 51; 68; 0]) 0)
                  Vulkan.eD32SfloatS8Uint
                  (Vulkan.mkMemory (map byte.of_Z [17; 34; 51; 68; 0]) [])
                  0 0%N (VideoCore.mkBufferTextureCopy 0 0 (VideoCore.mkRect 0 0 0 0) 0)
                  ltac:(discriminate))).
Defined.

(** ** C10 *)

Ltac run_vk :=
  cbv [mbind M_bind bind mret M_ret ret get modify abort
       Vulkan.call Vulkan.create Vulkan.MakeAspect Vulkan.set_recycler
       Vulkan.texture_recycler Vulkan.clear_framebuffers Vulkan.next_handle Vulkan.calls].

Ltac run_gl :=
  cbv [mbind M_bind bind mret M_ret ret get modify abort
       OpenGL.call OpenGL.apply_state OpenGL.MakeBufferMask OpenGL.set_recycler
       OpenGL.texture_Create OpenGL.BindFramebuffer RasterizerCache.BindAttachment
       OpenGL.texture_recycler OpenGL.read_fbo OpenGL.draw_fbo OpenGL.cur_state
       OpenGL.next_handle OpenGL.calls].

(** C10. [ClearTexture], [CopyTextures] and [BlitTextures] of the Vulkan
    runtime, of the OpenGL runtime and of the shared OpenGL runtime never
    return false: each either returns true or stops at [UNREACHABLE] on a
    surface type it has no case for, and returns true whenever the surface
    types are ones it handles.  [CopyTextures] of the shared runtime
    returns true and does nothing else. *)
Theorem texture_operations_return_true
        (instance : Vulkan.Instance) (driver : OpenGL.Driver)
        (vs vd : Vulkan.Surface) (gs gd : OpenGL.Surface) (ts td : OpenGL.OGLTexture)
        (vclear : VideoCore.TextureClear) (value : VideoCore.ClearValue)
        (gclear : OpenGL.TextureClear) (crect : RasterizerCache.ClearRect)
        (copy : VideoCore.TextureCopy) (blit : VideoCore.TextureBlit)
        (sblit : RasterizerCache.TextureBlit)
        (wv : Vulkan.World) (wg : OpenGL.World) :
  let results :=
    [ (Vulkan.ClearTexture vs vclear value wv).1;
      (Vulkan.CopyTextures vs vd copy wv).1;
      (Vulkan.BlitTextures vs vd blit wv).1;
      (OpenGL.ClearTexture driver gs gclear wg).1;
      (OpenGL.CopyTextures gs gd copy wg).1;
      (OpenGL.BlitTextures driver gs gd blit wg).1;
      (RasterizerCache.ClearTexture driver ts crect value wg).1;
      (RasterizerCache.CopyTextures ts td copy wg).1;
      (RasterizerCache.BlitTextures driver ts td sblit wg).1 ] in
  Forall (fun o => o = Returned true \/ o = Aborted) results
  /\ (VideoCore.type (Vulkan.params vs) <> VideoCore.InvalidType ->
      OpenGL.bindable (VideoCore.type (OpenGL.params gs)) = true ->
      OpenGL.bindable (VideoCore.type (OpenGL.params gd)) = true ->
      RasterizerCache.clear_surface_type crect <> VideoCore.InvalidType ->
      RasterizerCache.surface_type sblit <> VideoCore.InvalidType ->
      Forall (fun o => o = Returned true) results)
  /\ RasterizerCache.CopyTextures ts td copy wg = (Returned true, wg).
Proof.
  intros results. subst results.
  destruct wv as [rec fbs nh cs], wg as [grec rf df cur gnh gcs].
  destruct vs as [[vw vh vst vl vsc vti vtt vpf vty] va vt],
           gs as [[gw gh gst gl gsc gti gtt gpf gty] gt],
           gd as [[dw dh dst dl dsc dti dtt dpf dty] dt],
           crect as [cty clv coff cext], sblit as [sty sl dl' sr dr].
  cbn [Vulkan.params VideoCore.type OpenGL.params RasterizerCache.clear_surface_type
       RasterizerCache.surface_type].
  split; [|split; [|reflexivity]].
  - repeat first [apply Forall_nil_2 | apply Forall_cons_2].
    + unfold Vulkan.ClearTexture, Vulkan.ClearTextureWithRenderpass. run_vk.
      cbn [Vulkan.params VideoCore.type].
      destruct (bool_decide _); [destruct vty; auto|].
      destruct (Vulkan.framebuffer_find _ _); auto.
    + unfold Vulkan.CopyTextures. run_vk. cbn. destruct vty; auto.
    + unfold Vulkan.BlitTextures. run_vk. cbn. destruct vty; auto.
    + unfold OpenGL.ClearTexture. run_gl. cbn. destruct gty; auto.
    + unfold OpenGL.CopyTextures. run_gl. auto.
    + unfold OpenGL.BlitTextures. run_gl. cbn. destruct gty, dty; auto.
    + unfold RasterizerCache.ClearTexture. run_gl. cbn. destruct cty; auto.
    + auto.
    + unfold RasterizerCache.BlitTextures. run_gl. cbn. destruct sty; auto.
  - intros Hv Hgs Hgd Hc Hs. repeat first [apply Forall_nil_2 | apply Forall_cons_2].
    + unfold Vulkan.ClearTexture, Vulkan.ClearTextureWithRenderpass. run_vk.
      cbn [Vulkan.params VideoCore.type].
      destruct (bool_decide _); [destruct vty; auto; congruence|].
      destruct (Vulkan.framebuffer_find _ _); auto.
    + unfold Vulkan.CopyTextures. run_vk. cbn. destruct vty; auto; congruence.
    + unfold Vulkan.BlitTextures. run_vk. cbn. destruct vty; auto; congruence.
    + unfold OpenGL.ClearTexture. run_gl. cbn. destruct gty; auto; discriminate.
    + unfold OpenGL.CopyTextures. run_gl. auto.
    + unfold OpenGL.BlitTextures. run_gl. cbn. destruct gty, dty; auto; discriminate.
    + unfold RasterizerCache.ClearTexture. run_gl. cbn. destruct cty; auto; congruence.
    + reflexivity.
    + unfold RasterizerCache.BlitTextures. run_gl. cbn. destruct sty; auto; congruence.
Qed.

Lemma texture_operations_return_true_witness :
  let vs := Vulkan.mkSurface (Fixtures.params0 64 64 1 VideoCore.D24S8)
                             (Fixtures.some_alloc 7 Vulkan.eD24UnormS8Uint)
                             Vulkan.default_traits in
  let gs := OpenGL.mkSurface (Fixtures.params0 64 64 1 VideoCore.RGBA8) (OpenGL.mkTexture 9%N) in
  let rect := VideoCore.mkRect 0 32 32 0 in
  let blit := VideoCore.mkTextureBlit 0 0 0 0 rect rect in
  Vulkan.ClearTexture vs (VideoCore.mkTextureClear 0 rect) 0 Fixtures.vk_empty
  = (Returned true, (Vulkan.ClearTexture vs (VideoCore.mkTextureClear 0 rect) 0
                                         Fixtures.vk_empty).2)
  /\ (OpenGL.BlitTextures (Fixtures.desktop false) gs gs blit Fixtures.gl_empty).1
     = Returned true.
Proof.
  intros vs gs rect blit.
  destruct (texture_operations_return_true
              Fixtures.capable (Fixtures.desktop false) vs vs gs gs
              (OpenGL.mkTexture 9%N) (OpenGL.mkTexture 10%N)
              (VideoCore.mkTextureClear 0 rect) 0
              (OpenGL.mkTextureClear 0 rect 0)
              (RasterizerCache.mkClearRect VideoCore.Color 0
                 (VideoCore.mkOffset 0 0) (VideoCore.mkExtent 32 32))
              (VideoCore.mkTextureCopy 0 0 0 0 (VideoCore.mkOffset 0 0)
                 (VideoCore.mkOffset 0 0) (VideoCore.mkExtent 32 32))
              blit
              (RasterizerCache.mkTextureBlit VideoCore.Color 0 0
                 (RasterizerCache.mkRegion (VideoCore.mkOffset 0 0) (VideoCore.mkOffset 32 32))
                 (RasterizerCache.mkRegion (VideoCore.mkOffset 0 0) (VideoCore.mkOffset 32 32)))
              Fixtures.vk_empty Fixtures.gl_empty) as (_ & H & _).
  specialize (H ltac:(discriminate) eq_refl eq_refl ltac:(discriminate) ltac:(discriminate)).
  split.
  - apply Forall_cons_1 in H as [H _]. cbn [fst] in H.
    destruct (Vulkan.ClearTexture vs _ 0 Fixtures.vk_empty) as [o w]. cbn in *. congruence.
  - do 5 (apply Forall_cons_1 in H as [_ H]). apply Forall_cons_1 in H as [H _]. exact H.
Defined.

(** ** C7 *)

(** C7, as the code has it. A blit samples with the nearest filter exactly
    when: on Vulkan, the pixel format of the source surface is D16, D24 or
    D24S8; on OpenGL, the surface type of the source is Depth or
    DepthStencil; in the shared OpenGL runtime, the surface type named by
    the blit is Depth or DepthStencil.  In every other case the filter is
    linear.  The two tests agree on a surface whose type is the
    classification of its pixel format. *)
Theorem BlitTextures_filter
        (driver : OpenGL.Driver)
        (vs vd : Vulkan.Surface) (gs gd : OpenGL.Surface) (ts td : OpenGL.OGLTexture)
        (blit : VideoCore.TextureBlit) (sblit : RasterizerCache.TextureBlit)
        (wv : Vulkan.World) (wg : OpenGL.World) :
  VideoCore.type (Vulkan.params vs) <> VideoCore.InvalidType ->
  OpenGL.bindable (VideoCore.type (OpenGL.params gs)) = true ->
  OpenGL.bindable (VideoCore.type (OpenGL.params gd)) = true ->
  RasterizerCache.surface_type sblit <> VideoCore.InvalidType ->
  (exists w',
     Vulkan.BlitTextures vs vd blit wv = (Returned true, w') /\
     Vulkan.recorded_blit_filters (Vulkan.calls w')
     = Vulkan.recorded_blit_filters (Vulkan.calls wv)
       ++ [if Vulkan.is_depth_format (VideoCore.pixel_format (Vulkan.params vs))
           then Vulkan.eNearest else Vulkan.eLinear])
  /\ (forall src a f dst b m,
        exists pre area post,
          Vulkan.run_closure (Vulkan.BlitClosure src a f dst b) m
          = (Returned (Vulkan.render_cmdbuf,
                       [pre;
                        Vulkan.blitImage src Vulkan.eTransferSrcOptimal
                                         dst Vulkan.eTransferDstOptimal area f;
                        post]), m))
  /\ (exists w',
        OpenGL.BlitTextures driver gs gd blit wg = (Returned true, w') /\
        OpenGL.blit_filters (OpenGL.calls w')
        = OpenGL.blit_filters (OpenGL.calls wg)
          ++ [if Vulkan.is_depth_type (VideoCore.type (OpenGL.params gs))
              then OpenGL.GL_NEAREST else OpenGL.GL_LINEAR])
  /\ (exists w',
        RasterizerCache.BlitTextures driver ts td sblit wg = (Returned true, w') /\
        OpenGL.blit_filters (OpenGL.calls w')
        = OpenGL.blit_filters (OpenGL.calls wg)
          ++ [if Vulkan.is_depth_type (RasterizerCache.surface_type sblit)
              then OpenGL.GL_NEAREST else OpenGL.GL_LINEAR])
  /\ (forall f, Vulkan.is_depth_format f
                = Vulkan.is_depth_type (VideoCore.GetFormatType f)).
Proof.
  intros Hv Hgs Hgd Hs.
  destruct wv as [rec fbs nh cs], wg as [grec rf df cur gnh gcs].
  destruct vs as [[vw vh vst vl vsc vti vtt vpf vty] va vt],
           gs as [[gw gh gst gl gsc gti gtt gpf gty] gt],
           gd as [[dw dh dst dl dsc dti dtt dpf dty] dt],
           sblit as [sty sl dl' sr dr].
  cbn [Vulkan.params VideoCore.type OpenGL.params RasterizerCache.surface_type
       VideoCore.pixel_format] in *.
  split; [|split; [|split; [|split]]].
  - unfold Vulkan.BlitTextures. run_vk. cbn [Vulkan.params VideoCore.type VideoCore.pixel_format].
    destruct vty; try congruence;
      (eexists; split; [reflexivity|]);
      unfold Vulkan.recorded_blit_filters; assoc_right;
      rewrite flat_map_app; cbn [flat_map app];
      destruct vpf; reflexivity.
  - intros. do 3 eexists. reflexivity.
  - unfold OpenGL.BlitTextures. run_gl. cbn [OpenGL.params VideoCore.type VideoCore.texture_type].
    destruct gty; try discriminate; destruct dty; try discriminate;
      (eexists; split; [reflexivity|]);
      unfold OpenGL.blit_filters; assoc_right;
      rewrite flat_map_app; reflexivity.
  - unfold RasterizerCache.BlitTextures. run_gl. cbn [RasterizerCache.surface_type].
    destruct sty; try congruence;
      (eexists; split; [reflexivity|]);
      unfold OpenGL.blit_filters; assoc_right;
      rewrite flat_map_app; reflexivity.
  - intros []; reflexivity.
Qed.

Lemma BlitTextures_filter_witness :
  let vs := Vulkan.mkSurface (Fixtures.params0 64 64 2 VideoCore.D24)
                             (Fixtures.some_alloc 7 Vulkan.eX8D24UnormPack32)
                             Vulkan.default_traits in
  let rect := VideoCore.mkRect 0 32 32 0 in
  let blit := VideoCore.mkTextureBlit 0 0 0 0 rect rect in
  VideoCore.type (Vulkan.params vs) <> VideoCore.InvalidType /\
  exists w',
    Vulkan.BlitTextures vs vs blit Fixtures.vk_empty = (Returned true, w') /\
    Vulkan.recorded_blit_filters (Vulkan.calls w') = [Vulkan.eNearest].
Proof.
  intros vs rect blit. split; [discriminate|].
  exact (proj1 (BlitTextures_filter
                  (Fixtures.desktop false) vs vs
                  (OpenGL.mkSurface (Fixtures.params0 64 64 1 VideoCore.RGBA8) (OpenGL.mkTexture 9%N))
                  (OpenGL.mkSurface (Fixtures.params0 64 64 1 VideoCore.RGBA8) (OpenGL.mkTexture 9%N))
                  (OpenGL.mkTexture 9%N) (OpenGL.mkTexture 10%N) blit
                  (RasterizerCache.mkTextureBlit VideoCore.Color 0 0
                     (RasterizerCache.mkRegion (VideoCore.mkOffset 0 0) (VideoCore.mkOffset 32 32))
                     (RasterizerCache.mkRegion (VideoCore.mkOffset 0 0) (VideoCore.mkOffset 32 32)))
                  Fixtures.vk_empty Fixtures.gl_empty
                  ltac:(discriminate) eq_refl eq_refl ltac:(discriminate))).
Defined.

(** The surface that [DepthStencilDownload] builds has surface type Color
    and pixel format D24S8; a Vulkan blit from it is filtered nearest
    although its surface type is neither Depth nor DepthStencil. *)
Lemma BlitTextures_filter_counterexample :
  let r32 := Vulkan.mkSurface
               (VideoCore.set_type (Fixtures.params0 64 64 1 VideoCore.D24S8) VideoCore.Color)
               (Fixtures.some_alloc 7 Vulkan.eR32Uint) Vulkan.default_traits in
  let blit := VideoCore.mkTextureBlit 0 1 0 0 (VideoCore.mkRect 0 64 64 0)
                                      (VideoCore.mkRect 0 32 32 0) in
  Vulkan.recorded_blit_filters
    (Vulkan.calls (Vulkan.BlitTextures r32 r32 blit Fixtures.vk_empty).2)
  = [Vulkan.eNearest]
  /\ VideoCore.type (Vulkan.params r32) <> VideoCore.Depth
  /\ VideoCore.type (Vulkan.params r32) <> VideoCore.DepthStencil.
Proof. split; [vm_compute; reflexivity | split; discriminate]. Qed.

(** ** C6 *)

Lemma wrap32_small z : 0 <= z < 2 ^ 32 -> wrap32 z = z.
Proof. intros H. unfold wrap32. apply Z.mod_small. exact H. Qed.

Lemma wrap32_idem z : wrap32 (wrap32 z) = wrap32 z.
Proof. unfold wrap32. apply Z.mod_mod. discriminate. Qed.

Lemma to_s32_small z : - 2 ^ 31 <= z < 2 ^ 31 -> to_s32 z = z.
Proof.
  intros H. unfold to_s32, wrap32.
  destruct (Z.ltb_spec (z mod 2 ^ 32) (2 ^ 31)) as [L|L];
    revert L; change (2 ^ 32) with 4294967296 in *; change (2 ^ 31) with 2147483648 in *;
    intros L; Z.div_mod_to_equations; lia.
Qed.

Lemma GetWidth_well_formed r :
  VideoCore.well_formed r -> VideoCore.GetWidth r = VideoCore.right r - VideoCore.left r.
Proof.
  intros (Hl & Hr & _). unfold VideoCore.GetWidth.
  change (2 ^ 31) with 2147483648 in *.
  rewrite to_s32_small by (change (2 ^ 31) with 2147483648; lia).
  rewrite Z.abs_eq by lia. apply wrap32_small. change (2 ^ 32) with 4294967296. lia.
Qed.

Lemma GetHeight_well_formed r :
  VideoCore.well_formed r -> VideoCore.GetHeight r = VideoCore.top r - VideoCore.bottom r.
Proof.
  intros (_ & _ & Hb & Ht). unfold VideoCore.GetHeight.
  change (2 ^ 31) with 2147483648 in *.
  rewrite to_s32_small by (change (2 ^ 31) with 2147483648; lia).
  rewrite Z.abs_neq by lia. rewrite wrap32_small by (change (2 ^ 32) with 4294967296; lia).
  lia.
Qed.

(** The render area the Vulkan clear path computes is the rectangle. *)
Lemma render_area_is_rect r x y :
  VideoCore.well_formed r ->
  Vulkan.in_render_area
    (Vulkan.mkVkRect (to_s32 (VideoCore.left r)) (to_s32 (VideoCore.bottom r))
                     (VideoCore.GetWidth r) (VideoCore.GetHeight r)) x y
  = VideoCore.in_rect r x y.
Proof.
  intros Hwf. rewrite (GetWidth_well_formed r Hwf), (GetHeight_well_formed r Hwf).
  destruct Hwf as (Hl & Hr & Hb & Ht). change (2 ^ 31) with 2147483648 in *.
  unfold Vulkan.in_render_area, VideoCore.in_rect. cbn.
  rewrite !to_s32_small by (change (2 ^ 31) with 2147483648; lia).
  replace (VideoCore.left r + (VideoCore.right r - VideoCore.left r))
    with (VideoCore.right r) by lia.
  replace (VideoCore.bottom r + (VideoCore.top r - VideoCore.bottom r))
    with (VideoCore.top r) by lia.
  reflexivity.
Qed.

(** C6. A clear whose rectangle differs from the surface's scaled
    rectangle is never the whole-image clear: Vulkan enters a clearing
    render pass whose render area is exactly the rectangle (after creating
    the framebuffer when it is not cached) and leaves it; OpenGL clears the
    attached texture under an enabled scissor test whose box is exactly the
    rectangle.  Under the host's semantics of either clear, texels outside
    the rectangle keep their value. *)
Theorem ClearTexture_restricted_to_rect
        (driver : OpenGL.Driver)
        (surface : Vulkan.Surface) (clear : VideoCore.TextureClear)
        (value : VideoCore.ClearValue) (wv : Vulkan.World)
        (gs : OpenGL.Surface) (gclear : OpenGL.TextureClear) (wg : OpenGL.World) :
  VideoCore.clear_rect clear <> VideoCore.GetScaledRect (Vulkan.params surface) ->
  VideoCore.well_formed (VideoCore.clear_rect clear) ->
  VideoCore.well_formed (OpenGL.rect gclear) ->
  VideoCore.type (OpenGL.params gs) <> VideoCore.InvalidType ->
  (exists framebuffer_calls state wv',
     Vulkan.ClearTexture surface clear value wv = (Returned true, wv') /\
     Vulkan.calls wv' =
       Vulkan.calls wv ++ [Vulkan.ExitRenderpass] ++ framebuffer_calls
       ++ [Vulkan.EnterRenderpass state; Vulkan.ExitRenderpass] /\
     (framebuffer_calls = [] \/
      exists info, framebuffer_calls = [Vulkan.createFramebuffer info]) /\
     Vulkan.rp_is_clear (Vulkan.renderpass state) = true /\
     Vulkan.clear state = value /\
     (forall x y, Vulkan.in_render_area (Vulkan.render_area state) x y
                  = VideoCore.in_rect (VideoCore.clear_rect clear) x y) /\
     (forall img x y,
        VideoCore.in_rect (VideoCore.clear_rect clear) x y = false ->
        Vulkan.renderpass_clear state img x y = img x y))
  /\
  (exists attach state clear_call wg',
     OpenGL.ClearTexture driver gs gclear wg = (Returned true, wg') /\
     OpenGL.calls wg' =
       OpenGL.calls wg ++ attach
       ++ [OpenGL.Apply state; clear_call; OpenGL.Apply (OpenGL.cur_state wg)] /\
     (clear_call = OpenGL.glClearBufferfv OpenGL.GL_COLOR (OpenGL.value gclear) \/
      clear_call = OpenGL.glClearBufferfv OpenGL.GL_DEPTH (OpenGL.value gclear) \/
      clear_call = OpenGL.glClearBufferfi OpenGL.GL_DEPTH_STENCIL (OpenGL.value gclear)) /\
     OpenGL.scissor_enabled state = true /\
     (forall x y, OpenGL.in_scissor state x y = VideoCore.in_rect (OpenGL.rect gclear) x y) /\
     (forall img x y,
        VideoCore.in_rect (OpenGL.rect gclear) x y = false ->
        OpenGL.scissored_clear state (OpenGL.value gclear) img x y = img x y)).
Proof.
  intros Hne Hwf Hgwf Hty.
  destruct wv as [rec fbs nh cs], wg as [grec rf df cur gnh gcs].
  split.
  - unfold Vulkan.ClearTexture, Vulkan.ClearTextureWithRenderpass.
    rewrite (bool_decide_eq_false_2 _ Hne). run_vk.
    assert (forall rp fb,
              let state := Vulkan.mkRenderpassState rp fb
                (Vulkan.mkVkRect (to_s32 (VideoCore.left (VideoCore.clear_rect clear)))
                                 (to_s32 (VideoCore.bottom (VideoCore.clear_rect clear)))
                                 (VideoCore.GetWidth (VideoCore.clear_rect clear))
                                 (VideoCore.GetHeight (VideoCore.clear_rect clear))) value in
              (forall x y, Vulkan.in_render_area (Vulkan.render_area state) x y
                           = VideoCore.in_rect (VideoCore.clear_rect clear) x y) /\
              (forall img x y,
                 VideoCore.in_rect (VideoCore.clear_rect clear) x y = false ->
                 Vulkan.renderpass_clear state img x y = img x y)) as Harea.
    { intros rp fb state.
      assert (forall x y, Vulkan.in_render_area (Vulkan.render_area state) x y
                          = VideoCore.in_rect (VideoCore.clear_rect clear) x y) as H
          by (intros; apply render_area_is_rect; exact Hwf).
      split; [exact H|]. intros img x y Hout.
      unfold Vulkan.renderpass_clear. rewrite H, Hout. reflexivity. }
    destruct (Vulkan.framebuffer_find _ fbs) as [fb|].
    + exists []. eexists _, _. split; [reflexivity|]. cbn [Vulkan.calls].
      assoc_right. split; [reflexivity|]. split; [left; reflexivity|].
      split; [destruct (Vulkan.is_color_type _); reflexivity|].
      split; [reflexivity|]. apply Harea.
    + eexists [_]. eexists _, _. split; [reflexivity|]. cbn [Vulkan.calls].
      assoc_right. split; [reflexivity|]. split; [right; eexists; reflexivity|].
      split; [destruct (Vulkan.is_color_type _); reflexivity|].
      split; [reflexivity|]. apply Harea.
  - destruct gs as [[gw gh gst gl gsc gti gtt gpf gty] gt].
    cbn [OpenGL.params VideoCore.type] in Hty.
    unfold OpenGL.ClearTexture. run_gl. cbn [OpenGL.params VideoCore.type].
    assert (forall st,
              OpenGL.scissor_enabled st = true ->
              OpenGL.scissor_x st = to_s32 (VideoCore.left (OpenGL.rect gclear)) ->
              OpenGL.scissor_y st = to_s32 (VideoCore.bottom (OpenGL.rect gclear)) ->
              OpenGL.scissor_width st = to_s32 (VideoCore.GetWidth (OpenGL.rect gclear)) ->
              OpenGL.scissor_height st = to_s32 (VideoCore.GetHeight (OpenGL.rect gclear)) ->
              (forall x y, OpenGL.in_scissor st x y
                           = VideoCore.in_rect (OpenGL.rect gclear) x y) /\
              (forall img x y,
                 VideoCore.in_rect (OpenGL.rect gclear) x y = false ->
                 OpenGL.scissored_clear st (OpenGL.value gclear) img x y = img x y)) as Hbox.
    { intros st He Hx Hy Hw Hh.
      assert (forall x y, OpenGL.in_scissor st x y
                          = VideoCore.in_rect (OpenGL.rect gclear) x y) as H.
      { intros x y. unfold OpenGL.in_scissor. rewrite He, Hx, Hy, Hw, Hh. cbn [negb orb].
        rewrite (GetWidth_well_formed _ Hgwf), (GetHeight_well_formed _ Hgwf).
        destruct Hgwf as (Hl & Hr & Hb & Ht). change (2 ^ 31) with 2147483648 in *.
        rewrite !to_s32_small by (change (2 ^ 31) with 2147483648; lia).
        unfold VideoCore.in_rect.
        replace (VideoCore.left (OpenGL.rect gclear)
                 + (VideoCore.right (OpenGL.rect gclear) - VideoCore.left (OpenGL.rect gclear)))
          with (VideoCore.right (OpenGL.rect gclear)) by lia.
        replace (VideoCore.bottom (OpenGL.rect gclear)
                 + (VideoCore.top (OpenGL.rect gclear) - VideoCore.bottom (OpenGL.rect gclear)))
          with (VideoCore.top (OpenGL.rect gclear)) by lia.
        reflexivity. }
      split; [exact H|]. intros img x y Hout.
      unfold OpenGL.scissored_clear. rewrite H, Hout. reflexivity. }
    destruct gty; try congruence.
    all: first
      [ eexists [_; _; _], _, _, _; split; [reflexivity|];
        cbn [OpenGL.calls OpenGL.cur_state]; assoc_right; split; [reflexivity|]
      | eexists [_; _; _; _], _, _, _; split; [reflexivity|];
        cbn [OpenGL.calls OpenGL.cur_state]; assoc_right; split; [reflexivity|] ].
    all: split; [auto|]; split; [reflexivity|]; apply Hbox; reflexivity.
Qed.

Lemma ClearTexture_restricted_to_rect_witness :
  let surface := Vulkan.mkSurface (Fixtures.params0 64 64 2 VideoCore.RGBA8)
                                  (Fixtures.some_alloc 7 Vulkan.eR8G8B8A8Unorm)
                                  Vulkan.default_traits in
  let gs := OpenGL.mkSurface (Fixtures.params0 64 64 2 VideoCore.RGBA8) (OpenGL.mkTexture 9%N) in
  let rect := VideoCore.mkRect 8 24 40 16 in
  VideoCore.well_formed rect /\
  rect <> VideoCore.GetScaledRect (Vulkan.params surface) /\
  exists state,
    Vulkan.calls (Vulkan.ClearTexture surface (VideoCore.mkTextureClear 0 rect) 5
                                      Fixtures.vk_empty).2
    = [Vulkan.ExitRenderpass;
       Vulkan.createFramebuffer
         (Vulkan.mkFramebufferCreateInfo
            (Vulkan.mkRenderPass VideoCore.RGBA8 VideoCore.Invalid true) 9%N 128 128);
       Vulkan.EnterRenderpass state; Vulkan.ExitRenderpass]
    /\ Vulkan.render_area state = Vulkan.mkVkRect 8 16 32 8.
Proof.
  intros surface gs rect.
  assert (VideoCore.well_formed rect) as Hwf by (unfold VideoCore.well_formed; cbn; lia).
  assert (rect <> VideoCore.GetScaledRect (Vulkan.params surface)) as Hne by discriminate.
  split; [exact Hwf|]. split; [exact Hne|].
  destruct (ClearTexture_restricted_to_rect
              (Fixtures.desktop false) surface (VideoCore.mkTextureClear 0 rect) 5
              Fixtures.vk_empty gs (OpenGL.mkTextureClear 0 rect 5) Fixtures.gl_empty
              Hne Hwf Hwf ltac:(discriminate)) as [(fc & st & w' & Hrun & _) _].
  vm_compute in Hrun. injection Hrun as <-.
  eexists. split; reflexivity.
Defined.

(** ** C3 *)

Section Words.
Implicit Types (m : list byte) (off p : nat) (v : Z).

Lemma le_split_4 v :
  le_split 4 v = [byte.of_Z v; byte.of_Z (Z.shiftr v 8);
                  byte.of_Z (Z.shiftr (Z.shiftr v 8) 8);
                  byte.of_Z (Z.shiftr (Z.shiftr (Z.shiftr v 8) 8) 8)].
Proof. reflexivity. Qed.

Lemma memcpy_u32_length m off v : length (Vulkan.memcpy_u32 m off v) = length m.
Proof. unfold Vulkan.memcpy_u32. rewrite le_split_4, !length_insert. reflexivity. Qed.

Lemma memcpy_u32_other m off v p :
  (p < off \/ off + 4 <= p)%nat -> Vulkan.memcpy_u32 m off v !! p = m !! p.
Proof.
  intros H. unfold Vulkan.memcpy_u32. rewrite le_split_4.
  rewrite !list_lookup_insert_ne by lia. reflexivity.
Qed.

Lemma MakeInt_u32_ext m1 m2 off :
  (forall j, (j < 4)%nat -> m1 !! (off + j)%nat = m2 !! (off + j)%nat) ->
  Vulkan.MakeInt_u32 m1 off = Vulkan.MakeInt_u32 m2 off.
Proof.
  intros H. unfold Vulkan.MakeInt_u32.
  pose proof (H 0%nat ltac:(lia)) as H0. rewrite Nat.add_0_r in H0.
  rewrite H0, (H 1%nat), (H 2%nat), (H 3%nat) by lia. reflexivity.
Qed.

Lemma MakeInt_u32_is_Some m off :
  (off + 4 <= length m)%nat -> exists w, Vulkan.MakeInt_u32 m off = Some w /\ 0 <= w < 2 ^ 32.
Proof.
  intros H. unfold Vulkan.MakeInt_u32.
  destruct (lookup_lt_is_Some_2 m off ltac:(lia)) as [b0 ->].
  destruct (lookup_lt_is_Some_2 m (off + 1) ltac:(lia)) as [b1 ->].
  destruct (lookup_lt_is_Some_2 m (off + 2) ltac:(lia)) as [b2 ->].
  destruct (lookup_lt_is_Some_2 m (off + 3) ltac:(lia)) as [b3 ->].
  cbn [mbind option_bind]. eexists. split; [reflexivity|].
  pose proof (le_combine_bound [b0; b1; b2; b3]) as B. cbn [length] in B.
  exact B.
Qed.

Lemma MakeInt_u32_memcpy m off v :
  (off + 4 <= length m)%nat ->
  Vulkan.MakeInt_u32 (Vulkan.memcpy_u32 m off v) off = Some (v mod 2 ^ 32).
Proof.
  intros H. change (2 ^ 32) with (2 ^ (Z.of_nat 4 * 8)).
  rewrite <- (le_combine_split 4 v).
  unfold Vulkan.MakeInt_u32, Vulkan.memcpy_u32. rewrite le_split_4.
  set (l := <[(off + 3)%nat:=_]> _).
  assert (l !! off = Some (byte.of_Z v)) as ->.
  { subst l. rewrite !list_lookup_insert_ne by lia.
    apply list_lookup_insert_eq. lia. }
  assert (l !! (off + 1)%nat = Some (byte.of_Z (Z.shiftr v 8))) as ->.
  { subst l. rewrite !list_lookup_insert_ne by lia.
    apply list_lookup_insert_eq. rewrite !length_insert. lia. }
  assert (l !! (off + 2)%nat = Some (byte.of_Z (Z.shiftr (Z.shiftr v 8) 8))) as ->.
  { subst l. rewrite !list_lookup_insert_ne by lia.
    apply list_lookup_insert_eq. rewrite !length_insert. lia. }
  assert (l !! (off + 3)%nat
          = Some (byte.of_Z (Z.shiftr (Z.shiftr (Z.shiftr v 8) 8) 8))) as ->.
  { subst l. apply list_lookup_insert_eq. rewrite !length_insert. lia. }
  reflexivity.
Qed.
End Words.

(** One iteration of the unpack loop. *)
Lemma unpack_loop_step fuel size d s bytes log word :
  s < size ->
  Vulkan.MakeInt_u32 bytes (Z.to_nat d) = Some word ->
  (Z.to_nat s < length bytes)%nat ->
  (Z.to_nat d + 4 <= length bytes)%nat ->
  Vulkan.unpack_loop (S fuel) size d s (Vulkan.mkMemory bytes log)
  = Vulkan.unpack_loop fuel size (wrap32 (d + 4)) (wrap32 (s + 1))
      (Vulkan.mkMemory
         (Vulkan.memcpy_u32 (<[Z.to_nat s := byte.of_Z (Z.land word 255)]> bytes)
                            (Z.to_nat d) (Z.shiftr word 8))
         log).
Proof.
  intros Hs Hw Hsb Hdb. cbn [Vulkan.unpack_loop].
  apply Z.ltb_lt in Hs. rewrite Hs.
  cbv [mbind M_bind bind Vulkan.load_u32 Vulkan.store_byte Vulkan.store_u32 Vulkan.mem
       Vulkan.mem_log].
  rewrite Hw.
  apply Nat.ltb_lt in Hsb. rewrite Hsb.
  rewrite length_insert. apply Nat.leb_le in Hdb. rewrite Hdb.
  reflexivity.
Qed.

Lemma unpack_loop_done fuel size d s w :
  size <= s -> Vulkan.unpack_loop fuel size d s w = (Returned d, w).
Proof.
  intros H. apply Z.ltb_ge in H. destruct fuel; cbn [Vulkan.unpack_loop]; rewrite H; reflexivity.
Qed.

(** The loop from texel [k] on: the texels before [k] and their stencil
    bytes are left alone, and every later texel is split. *)
Lemma unpack_loop_spec (n : nat) :
  Z.of_nat (5 * n) < 2 ^ 32 ->
  forall (r k fuel : nat) (bytes : list byte) (log : list Vulkan.LogLevel),
    (k + r = n)%nat -> (r <= fuel)%nat -> length bytes = (5 * n)%nat ->
    exists bytes',
      Vulkan.unpack_loop fuel (Z.of_nat (5 * n)) (Z.of_nat (4 * k)) (Z.of_nat (4 * n + k))
                         (Vulkan.mkMemory bytes log)
      = (Returned (Z.of_nat (4 * n)), Vulkan.mkMemory bytes' log) /\
      length bytes' = length bytes /\
      (forall p, (p < 4 * k \/ 4 * n <= p < 4 * n + k)%nat -> bytes' !! p = bytes !! p) /\
      (forall i, (k <= i < n)%nat ->
         exists word,
           Vulkan.MakeInt_u32 bytes (4 * i) = Some word /\
           Vulkan.MakeInt_u32 bytes' (4 * i) = Some (Z.shiftr word 8) /\
           bytes' !! (4 * n + i)%nat = Some (byte.of_Z (Z.land word 255))).
Proof.
  intros Hsize. change (2 ^ 32) with 4294967296 in Hsize.
  induction r as [|r IH]; intros k fuel bytes log Hk Hfuel Hlen.
  - assert (k = n) as -> by lia.
    exists bytes. rewrite unpack_loop_done by lia.
    split; [reflexivity|]. split; [reflexivity|]. split; [auto|]. intros i Hi. lia.
  - destruct fuel as [|fuel]; [lia|].
    destruct (MakeInt_u32_is_Some bytes (4 * k) ltac:(lia)) as (word & Hword & Hrange).
    rewrite (unpack_loop_step fuel _ _ _ bytes log word);
      rewrite ?Nat2Z.id; try lia; try exact Hword.
    set (bytes1 := <[(4 * n + k)%nat := byte.of_Z (Z.land word 255)]> bytes).
    set (bytes2 := Vulkan.memcpy_u32 bytes1 (4 * k) (Z.shiftr word 8)).
    assert (length bytes2 = (5 * n)%nat) as Hlen2.
    { subst bytes2 bytes1. rewrite memcpy_u32_length, length_insert. exact Hlen. }
    replace (wrap32 (Z.of_nat (4 * k) + 4)) with (Z.of_nat (4 * S k))
      by (rewrite wrap32_small; change (2 ^ 32) with 4294967296; lia).
    replace (wrap32 (Z.of_nat (4 * n + k) + 1)) with (Z.of_nat (4 * n + S k))
      by (rewrite wrap32_small; change (2 ^ 32) with 4294967296; lia).
    destruct (IH (S k) fuel bytes2 log ltac:(lia) ltac:(lia) Hlen2)
      as (bytes' & Hrun & Hlen' & Hkeep & Hsplit).
    assert (forall p, (p < 4 * k \/ 4 * k + 4 <= p)%nat -> p <> (4 * n + k)%nat ->
                      bytes2 !! p = bytes !! p) as Hother.
    { intros p Hp Hne. subst bytes2 bytes1.
      rewrite memcpy_u32_other by lia. apply list_lookup_insert_ne. lia. }
    exists bytes'. split; [exact Hrun|]. split; [lia|]. split.
    + intros p Hp. rewrite Hkeep by lia. apply Hother; lia.
    + intros i Hi. destruct (decide (i = k)) as [->|Hne].
      * exists word. split; [exact Hword|]. split.
        -- rewrite (MakeInt_u32_ext bytes' bytes2) by (intros j Hj; apply Hkeep; lia).
           subst bytes2. rewrite MakeInt_u32_memcpy
             by (subst bytes1; rewrite length_insert; lia).
           f_equal. apply Z.mod_small. split.
           ++ apply Z.shiftr_nonneg. lia.
           ++ rewrite Z.shiftr_div_pow2 by lia.
              apply Z.le_lt_trans with word; [|lia].
              apply Z.div_le_upper_bound; lia.
        -- rewrite Hkeep by lia. subst bytes2 bytes1.
           rewrite memcpy_u32_other by lia.
           apply list_lookup_insert_eq. lia.
      * destruct (Hsplit i ltac:(lia)) as (word' & Hw' & Hd' & Hs').
        exists word'. split; [|split; [exact Hd'|exact Hs']].
        rewrite <- Hw'. symmetry. apply MakeInt_u32_ext.
        intros j Hj. apply Hother; lia.
Qed.

(** C3. On a staging buffer of [n] interleaved D24S8 texels, laid out as
    the runtime stages this format (five bytes per texel, [size = 5n]),
    [UnpackDepthStencil] returns the stencil offset [4 * size / 5] and
    leaves: at every original word offset [4i] the word shifted right by
    eight bits; at byte [4 * size / 5 + i] the low byte of the original
    word [i]; the depth words end before the first stencil byte, so the two
    planes do not overlap.  Nothing is logged and the length is kept. *)
Theorem UnpackDepthStencil_planes (n : nat) (data : Vulkan.StagingData) (m : Vulkan.Memory) :
  20 * Z.of_nat n < 2 ^ 32 ->
  Vulkan.size data = 5 * Z.of_nat n ->
  length (Vulkan.mem m) = (5 * n)%nat ->
  let stencil_offset := wrap32 (4 * Vulkan.size data) / 5 in
  exists bytes',
    Vulkan.UnpackDepthStencil data Vulkan.eD24UnormS8Uint m
    = (Returned stencil_offset, Vulkan.mkMemory bytes' (Vulkan.mem_log m)) /\
    stencil_offset = 4 * Z.of_nat n /\
    length bytes' = length (Vulkan.mem m) /\
    (forall i, (i < n)%nat ->
       exists word,
         Vulkan.MakeInt_u32 (Vulkan.mem m) (4 * i) = Some word /\
         Vulkan.MakeInt_u32 bytes' (4 * i) = Some (Z.shiftr word 8) /\
         bytes' !! (Z.to_nat stencil_offset + i)%nat
         = Some (byte.of_Z (Z.land word 255))) /\
    (forall i j, (i < n)%nat -> (j < n)%nat ->
                 (4 * i + 3 < Z.to_nat stencil_offset + j)%nat).
Proof.
  intros Hbound Hsize Hlen stencil_offset.
  change (2 ^ 32) with 4294967296 in Hbound.
  assert (stencil_offset = 4 * Z.of_nat n) as Hoff.
  { subst stencil_offset. rewrite Hsize.
    rewrite wrap32_small by (change (2 ^ 32) with 4294967296; lia).
    replace (4 * (5 * Z.of_nat n)) with (4 * Z.of_nat n * 5) by lia.
    apply Z.div_mul. lia. }
  destruct m as [bytes log]. cbn [Vulkan.mem Vulkan.mem_log] in *.
  destruct (unpack_loop_spec n ltac:(change (2 ^ 32) with 4294967296; lia)
              n 0%nat (Z.to_nat (Vulkan.size data)) bytes log
              ltac:(lia) ltac:(lia) Hlen)
    as (bytes' & Hrun & Hlen' & _ & Hsplit).
  exists bytes'. split; [|split; [exact Hoff|split; [exact Hlen'|split]]].
  - unfold Vulkan.UnpackDepthStencil. cbv [mbind M_bind bind].
    fold stencil_offset. rewrite Hoff.
    replace (Z.of_nat (5 * n)) with (Vulkan.size data) in Hrun by lia.
    replace (Z.of_nat (4 * 0)) with 0 in Hrun by lia.
    replace (Z.of_nat (4 * n + 0)) with (4 * Z.of_nat n) in Hrun by lia.
    rewrite Hrun.
    replace (Z.of_nat (4 * n)) with (4 * Z.of_nat n) by lia.
    rewrite Z.eqb_refl. reflexivity.
  - intros i Hi. destruct (Hsplit i ltac:(lia)) as (word & Hw & Hd & Hs).
    exists word. split; [exact Hw|]. split; [exact Hd|].
    rewrite Hoff. replace (Z.to_nat (4 * Z.of_nat n) + i)%nat with (4 * n + i)%nat by lia.
    exact Hs.
  - intros i j Hi Hj. rewrite Hoff. lia.
Qed.

Lemma UnpackDepthStencil_planes_witness :
  let bytes := map byte.of_Z [17; 34; 51; 68;  1; 2; 3; 4;  0; 0] in
  20 * Z.of_nat 2 < 2 ^ 32 /\
  exists bytes',
    Vulkan.run_UnpackDepthStencil (Vulkan.mkStaging 0%N 10 bytes 0) Vulkan.eD24UnormS8Uint
    = (Returned 8, Vulkan.mkMemory bytes' []) /\
    length bytes' = 10%nat.
Proof.
  intros bytes. split; [reflexivity|].
  destruct (UnpackDepthStencil_planes 2 (Vulkan.mkStaging 0%N 10 bytes 0)
              (Vulkan.mkMemory bytes []) eq_refl eq_refl eq_refl)
    as (bytes' & Hrun & _ & Hlen & _).
  exists bytes'. split; [exact Hrun | exact Hlen].
Defined.

(** ** C5 *)

(** Where an allocation comes from, and what [Allocate] leaves alone. *)
Lemma Allocate_origin instance width height pixel_format type format usage w a w' :
  Vulkan.Allocate instance width height pixel_format type format usage w = (Returned a, w') ->
  Vulkan.recorded_readbacks (Vulkan.calls w') = Vulkan.recorded_readbacks (Vulkan.calls w) /\
  Vulkan.recorded_blit_filters (Vulkan.calls w')
  = Vulkan.recorded_blit_filters (Vulkan.calls w) /\
  ((exists t, (t, a) ∈ Vulkan.texture_recycler w) \/ Vulkan.image a = Vulkan.next_handle w) /\
  (forall e, e ∈ Vulkan.texture_recycler w' -> e ∈ Vulkan.texture_recycler w) /\
  (Vulkan.next_handle w <= Vulkan.next_handle w')%N.
Proof.
  destruct w as [rec fbs nh cs]. unfold Vulkan.Allocate.
  destruct (bool_decide (pixel_format = VideoCore.Invalid)); [discriminate|].
  cbv [mbind M_bind bind mret M_ret ret get modify abort Vulkan.create Vulkan.call
       Vulkan.texture_recycler Vulkan.clear_framebuffers Vulkan.next_handle Vulkan.calls
       Vulkan.set_recycler Vulkan.aspect Vulkan.image Vulkan.alloc_format].
  destruct (Vulkan.recycler_find _ rec) as [[i b]|] eqn:F.
  - intros [= -> <-]. destruct (Vulkan_find_Some _ _ _ _ F) as (r1 & r2 & Hr & Hd).
    cbn. rewrite Hd, Hr.
    split; [reflexivity|]. split; [reflexivity|]. split; [|split; [|lia]].
    + left. eexists. apply elem_of_app. right. left.
    + intros e He. apply elem_of_app in He as [He|He]; apply elem_of_app; auto.
      right. by right.
  - destruct (negb _); [discriminate|].
    destruct (1 <? _), (negb _), (bool_decide (pixel_format = VideoCore.RGBA8));
      intros [= <- <-]; cbn [Vulkan.calls Vulkan.texture_recycler Vulkan.next_handle
                             Vulkan.image];
      unfold Vulkan.recorded_readbacks, Vulkan.recorded_blit_filters;
      rewrite ?flat_map_app; cbn [flat_map app]; rewrite ?app_nil_r;
      (repeat split; auto; lia).
Qed.

Lemma Surface_new_format_inv instance p format usage w s w' :
  Vulkan.Surface_new_format instance p format usage w = (Returned s, w') ->
  format <> Vulkan.eUndefined ->
  Vulkan.params s = p /\
  Vulkan.Allocate instance (VideoCore.GetScaledWidth p) (VideoCore.GetScaledHeight p)
                  (VideoCore.pixel_format p) (VideoCore.texture_type p) format usage w
  = (Returned (Vulkan.alloc s), w').
Proof.
  intros H Hf. unfold Vulkan.Surface_new_format in H.
  rewrite (bool_decide_eq_true_2 _ Hf) in H.
  cbv [mbind M_bind bind mret M_ret ret] in H.
  destruct (Vulkan.Allocate _ _ _ _ _ _ _ w) as [[a| |] w1]; try discriminate.
  injection H as <- <-. auto.
Qed.

(** Stepping through a sequence of calls. *)
Lemma bind_Returned {W A B} (m : M W A) (k : A -> M W B) w a w' :
  m w = (Returned a, w') -> (m ≫= k) w = k a w'.
Proof. intros H. cbv [mbind M_bind bind]. rewrite H. reflexivity. Qed.

Lemma Vulkan_call_run c w : Vulkan.call c w = (Returned tt, Vulkan.log_calls w [c]).
Proof. reflexivity. Qed.

Lemma Vulkan_log_calls_app w a b :
  Vulkan.log_calls (Vulkan.log_calls w a) b = Vulkan.log_calls w (a ++ b).
Proof. unfold Vulkan.log_calls. cbn. rewrite app_assoc. reflexivity. Qed.

Ltac step_with H := erewrite bind_Returned by (exact H).
Ltac step_call := erewrite bind_Returned by (apply Vulkan_call_run).

Lemma Vulkan_MakeAspect_run t w :
  t <> VideoCore.InvalidType -> Vulkan.MakeAspect t w = (Returned (Vulkan.aspect_of t), w).
Proof. destruct t; intros H; try reflexivity. congruence. Qed.

Lemma Vulkan_BlitTextures_run source dest blit w :
  VideoCore.type (Vulkan.params source) <> VideoCore.InvalidType ->
  Vulkan.BlitTextures source dest blit w
  = (Returned true,
     Vulkan.log_calls w
       [Vulkan.ExitRenderpass;
        Vulkan.SchedulerRecord
          (Vulkan.BlitClosure (Vulkan.image (Vulkan.alloc source))
             (Vulkan.aspect_of (VideoCore.type (Vulkan.params source)))
             (Vulkan.MakeFilter (VideoCore.pixel_format (Vulkan.params source)))
             (Vulkan.image (Vulkan.alloc dest)) blit)]).
Proof.
  intros H. unfold Vulkan.BlitTextures.
  step_call. erewrite bind_Returned by (apply Vulkan_MakeAspect_run; exact H).
  step_call. cbv [mret M_ret ret]. rewrite !Vulkan_log_calls_app. reflexivity.
Qed.

Lemma Vulkan_Surface_delete_run s w :
  VideoCore.pixel_format (Vulkan.params s) <> VideoCore.Invalid ->
  Vulkan.Surface_delete s w
  = (Returned tt,
     Vulkan.set_recycler
       ((Vulkan.mkTag (Vulkan.alloc_format (Vulkan.alloc s))
                      (VideoCore.pixel_format (Vulkan.params s))
                      (VideoCore.texture_type (Vulkan.params s))
                      (VideoCore.GetScaledWidth (Vulkan.params s))
                      (VideoCore.GetScaledHeight (Vulkan.params s)),
         Vulkan.alloc s) :: Vulkan.texture_recycler w) w).
Proof.
  intros H. unfold Vulkan.Surface_delete. rewrite (bool_decide_eq_true_2 _ H). reflexivity.
Qed.

Lemma Vulkan_Download_fuel_S instance fuel this download staging :
  Vulkan.Download_fuel instance (S fuel) this download staging
  = (Vulkan.call Vulkan.ExitRenderpass ≫= fun _ =>
     if bool_decide (VideoCore.type (Vulkan.params this) = VideoCore.DepthStencil)
     then Vulkan.DepthStencilDownload instance (Vulkan.Download_fuel instance fuel)
                                      this download staging
     else if negb (VideoCore.res_scale (Vulkan.params this) =? 1)
     then Vulkan.ScaledDownload instance (Vulkan.Download_fuel instance fuel)
                                this download staging
     else
       Vulkan.call (Vulkan.SchedulerRecord
                      (Vulkan.DownloadClosure (Vulkan.aspect (Vulkan.alloc this))
                         (Vulkan.image (Vulkan.alloc this)) staging download)) ≫= fun _ =>
       Vulkan.call (Vulkan.DownloadCommit (Vulkan.size staging))).
Proof. reflexivity. Qed.

(** A surface that is neither depth-stencil nor scaled is read back
    directly. *)
Lemma Vulkan_Download_direct instance fuel s download staging w :
  VideoCore.type (Vulkan.params s) <> VideoCore.DepthStencil ->
  VideoCore.res_scale (Vulkan.params s) = 1 ->
  Vulkan.Download_fuel instance (S fuel) s download staging w
  = (Returned tt,
     Vulkan.log_calls w
       [Vulkan.ExitRenderpass;
        Vulkan.SchedulerRecord
          (Vulkan.DownloadClosure (Vulkan.aspect (Vulkan.alloc s))
             (Vulkan.image (Vulkan.alloc s)) staging download);
        Vulkan.DownloadCommit (Vulkan.size staging)]).
Proof.
  intros Hty Hsc. rewrite Vulkan_Download_fuel_S. step_call.
  rewrite (bool_decide_eq_false_2 _ Hty), Hsc. cbn [Z.eqb Pos.eqb negb].
  step_call. rewrite Vulkan_call_run, !Vulkan_log_calls_app. reflexivity.
Qed.

(** C5. [Surface::Download] on a surface of type DepthStencil never
    records a copy from the surface's own image.  It builds a surface of
    host format R32Uint, converts the depth-stencil image into it with the
    compute blit [BlitD24S8ToR32], when the scale is not 1 blits that image
    down (from its level 0 to its level 1), and records a single
    image-to-buffer copy, whose source is the R32 image; the R32 surface
    is then recycled.  When the surface's image is owned by it alone (not
    in the recycler, not a handle the host has yet to hand out), the image
    copied is not the depth-stencil image. *)
Theorem Download_depth_stencil_converts
        (instance : Vulkan.Instance) (this : Vulkan.Surface)
        (download : VideoCore.BufferTextureCopy) (staging : Vulkan.StagingData)
        (w : Vulkan.World) (r32 : Vulkan.Surface) (w1 : Vulkan.World) :
  VideoCore.type (Vulkan.params this) = VideoCore.DepthStencil ->
  let rect := VideoCore.texture_rect download in
  let scaled_rect := VideoCore.Rect_scale rect (VideoCore.res_scale (Vulkan.params this)) in
  let unscaled_rect := VideoCore.mkRect 0 (VideoCore.GetHeight rect) (VideoCore.GetWidth rect) 0 in
  let r32_scaled_rect :=
    VideoCore.mkRect 0 (VideoCore.GetHeight scaled_rect) (VideoCore.GetWidth scaled_rect) 0 in
  let r32_params :=
    VideoCore.set_type
      (VideoCore.set_geometry (Vulkan.params this) (VideoCore.GetWidth scaled_rect)
                              (VideoCore.GetWidth scaled_rect)
                              (VideoCore.GetHeight scaled_rect) 1)
      VideoCore.Color in
  let is_scaled := negb (VideoCore.res_scale (Vulkan.params this) =? 1) in
  let w0 := Vulkan.log_calls w [Vulkan.ExitRenderpass] in
  Vulkan.Surface_new_format instance r32_params Vulkan.eR32Uint
    (Z.lor (Z.lor Vulkan.eTransferSrc Vulkan.eTransferDst) Vulkan.eStorage) w0
  = (Returned r32, w1) ->
  exists w',
    Vulkan.Download instance this download staging w = (Returned tt, w') /\
    Vulkan.params r32 = r32_params /\
    Vulkan.calls w' =
      Vulkan.calls w1
      ++ [Vulkan.BlitD24S8ToR32 (Vulkan.alloc this) (Vulkan.alloc r32)
            (VideoCore.mkTextureBlit (VideoCore.texture_level download) 0 0 0
                                     scaled_rect r32_scaled_rect)]
      ++ (if is_scaled
          then [Vulkan.ExitRenderpass;
                Vulkan.SchedulerRecord
                  (Vulkan.BlitClosure (Vulkan.image (Vulkan.alloc r32)) Vulkan.eColor
                     (Vulkan.MakeFilter (VideoCore.pixel_format (Vulkan.params this)))
                     (Vulkan.image (Vulkan.alloc r32))
                     (VideoCore.mkTextureBlit 0 1 0 0 r32_scaled_rect unscaled_rect))]
          else [])
      ++ [Vulkan.ExitRenderpass;
          Vulkan.SchedulerRecord
            (Vulkan.DownloadClosure (Vulkan.aspect (Vulkan.alloc r32))
               (Vulkan.image (Vulkan.alloc r32)) staging
               (VideoCore.mkBufferTextureCopy
                  (VideoCore.buffer_offset download) (VideoCore.buffer_size download)
                  unscaled_rect (if is_scaled then 1 else 0)));
          Vulkan.DownloadCommit (Vulkan.size staging)] /\
    Vulkan.texture_recycler w' =
      (Vulkan.mkTag (Vulkan.alloc_format (Vulkan.alloc r32))
                    (VideoCore.pixel_format (Vulkan.params this))
                    (VideoCore.texture_type (Vulkan.params this))
                    (VideoCore.GetWidth scaled_rect) (VideoCore.GetHeight scaled_rect),
       Vulkan.alloc r32) :: Vulkan.texture_recycler w1 /\
    Vulkan.recorded_readbacks (Vulkan.calls w')
    = Vulkan.recorded_readbacks (Vulkan.calls w) ++ [Vulkan.image (Vulkan.alloc r32)] /\
    ((Vulkan.image (Vulkan.alloc this) < Vulkan.next_handle w)%N ->
     (forall t a, (t, a) ∈ Vulkan.texture_recycler w ->
                  Vulkan.image a <> Vulkan.image (Vulkan.alloc this)) ->
     Vulkan.image (Vulkan.alloc r32) <> Vulkan.image (Vulkan.alloc this)).
Proof.
  intros Hty rect scaled_rect unscaled_rect r32_scaled_rect r32_params is_scaled w0 Hnew.
  destruct (Surface_new_format_inv _ _ _ _ _ _ _ Hnew ltac:(discriminate)) as [Hp Halloc].
  destruct (Allocate_origin _ _ _ _ _ _ _ _ _ _ Halloc) as (Hrb & _ & Horigin & _ & _).
  assert (VideoCore.pixel_format (Vulkan.params r32) <> VideoCore.Invalid) as Hpf.
  { rewrite Hp. intros Hinv. unfold Vulkan.Allocate in Halloc. rewrite Hinv in Halloc.
    rewrite bool_decide_eq_true_2 in Halloc by reflexivity. discriminate. }
  assert (VideoCore.type (Vulkan.params r32) = VideoCore.Color) as Hcol
      by (rewrite Hp; reflexivity).
  assert (VideoCore.res_scale (Vulkan.params r32) = 1) as Hsc
      by (rewrite Hp; reflexivity).
  unfold Vulkan.Download. rewrite Vulkan_Download_fuel_S. step_call. fold w0.
  rewrite (bool_decide_eq_true_2 _ Hty).
  unfold Vulkan.DepthStencilDownload.
  fold rect. fold scaled_rect. fold unscaled_rect. fold r32_scaled_rect. fold r32_params.
  fold is_scaled.
  step_with Hnew. step_call.
  assert (forall w2,
            (if is_scaled
             then Vulkan.BlitTextures r32 r32
                    (VideoCore.mkTextureBlit 0 1 0 0 r32_scaled_rect unscaled_rect)
                  ≫= (fun _ => mret tt)
             else mret tt) w2
            = (Returned tt,
               Vulkan.log_calls w2
                 (if is_scaled
                  then [Vulkan.ExitRenderpass;
                        Vulkan.SchedulerRecord
                          (Vulkan.BlitClosure (Vulkan.image (Vulkan.alloc r32)) Vulkan.eColor
                             (Vulkan.MakeFilter (VideoCore.pixel_format (Vulkan.params this)))
                             (Vulkan.image (Vulkan.alloc r32))
                             (VideoCore.mkTextureBlit 0 1 0 0 r32_scaled_rect unscaled_rect))]
                  else []))) as Hblit.
  { intros w2. destruct is_scaled.
    - erewrite bind_Returned
        by (apply Vulkan_BlitTextures_run; rewrite Hcol; discriminate).
      rewrite Hcol, Hp. reflexivity.
    - destruct w2. unfold Vulkan.log_calls. cbn. rewrite app_nil_r. reflexivity. }
  erewrite bind_Returned by (apply Hblit).
  erewrite bind_Returned
    by (apply Vulkan_Download_direct; [rewrite Hcol; discriminate | exact Hsc]).
  rewrite (Vulkan_Surface_delete_run _ _ Hpf).
  rewrite !Vulkan_log_calls_app.
  eexists. split; [reflexivity|]. split; [exact Hp|].
  split; [destruct w1; cbn; rewrite <- ?app_assoc; reflexivity|].
  split.
  { destruct w1. cbn [Vulkan.texture_recycler Vulkan.set_recycler Vulkan.log_calls].
    rewrite Hp. f_equal. f_equal.
    unfold VideoCore.GetScaledWidth, VideoCore.GetScaledHeight. cbn.
    rewrite !Z.mul_1_r. unfold VideoCore.GetWidth, VideoCore.GetHeight.
    rewrite !wrap32_idem. reflexivity. }
  split.
  { destruct w1 as [rec1 fbs1 nh1 cs1].
    cbn [Vulkan.calls Vulkan.set_recycler Vulkan.log_calls] in *.
    unfold Vulkan.recorded_readbacks in *.
    rewrite flat_map_app, Hrb. subst w0. cbn [Vulkan.calls Vulkan.log_calls].
    rewrite flat_map_app. cbn [flat_map]. rewrite app_nil_r.
    f_equal. destruct is_scaled; reflexivity. }
  intros Hlt Hfree. destruct Horigin as [[t Hin]|Hfresh].
  - exact (Hfree t _ Hin).
  - subst w0. cbn [Vulkan.next_handle Vulkan.log_calls] in Hfresh. lia.
Qed.

Lemma Download_depth_stencil_converts_witness :
  let this := Vulkan.mkSurface (Fixtures.params0 64 64 2 VideoCore.D24S8)
                               (Fixtures.some_alloc 7 Vulkan.eD24UnormS8Uint)
                               (Vulkan.GetTraits Fixtures.capable VideoCore.D24S8) in
  let download := VideoCore.mkBufferTextureCopy 0 4096 (VideoCore.mkRect 0 32 32 0) 0 in
  let staging := Vulkan.mkStaging 3%N 4096 [] 0 in
  VideoCore.type (Vulkan.params this) = VideoCore.DepthStencil /\
  exists w',
    Vulkan.Download Fixtures.capable this download staging (Vulkan.mkWorld [] [] 20%N [])
    = (Returned tt, w') /\
    Vulkan.recorded_readbacks (Vulkan.calls w') = [20%N] /\
    Vulkan.recorded_blit_filters (Vulkan.calls w') = [Vulkan.eNearest].
Proof.
  intros this download staging. split; [reflexivity|].
  pose proof (Download_depth_stencil_converts Fixtures.capable this download staging
                (Vulkan.mkWorld [] [] 20%N [])) as T.
  cbn zeta in T.
  edestruct (T _ _ eq_refl ltac:(vm_compute; reflexivity))
    as (w' & Hrun & _ & Hcalls & _ & Hrb & _).
  exists w'. split; [exact Hrun|]. split; [exact Hrb|].
  rewrite Hcalls. vm_compute. reflexivity.
Defined.

(** ** C4 *)

Lemma Vulkan_Upload_fuel_S instance fuel this upload staging :
  Vulkan.Upload_fuel instance (S fuel) this upload staging
  = (if bool_decide (VideoCore.type (Vulkan.params this) = VideoCore.DepthStencil)
        && negb (Vulkan.blit_support (Vulkan.traits this))
     then Vulkan.call (Vulkan.Log Vulkan.LogError)
     else
       Vulkan.call Vulkan.ExitRenderpass ≫= fun _ =>
       (if negb (VideoCore.res_scale (Vulkan.params this) =? 1)
        then Vulkan.ScaledUpload instance (Vulkan.Upload_fuel instance fuel)
                                 this upload staging
        else
          Vulkan.call (Vulkan.SchedulerRecord
                         (Vulkan.UploadClosure (Vulkan.aspect (Vulkan.alloc this))
                            (Vulkan.image (Vulkan.alloc this))
                            (Vulkan.alloc_format (Vulkan.alloc this)) staging upload))
          ≫= fun _ => Vulkan.call (Vulkan.UploadCommit (Vulkan.size staging)))
       ≫= fun _ => Vulkan.call Vulkan.InvalidateAllWatcher).
Proof. reflexivity. Qed.

(** An unscaled surface whose format can be uploaded takes the direct
    path: one recorded buffer-to-image copy. *)
Lemma Vulkan_Upload_direct instance fuel s upload staging w :
  (VideoCore.type (Vulkan.params s) = VideoCore.DepthStencil ->
   Vulkan.blit_support (Vulkan.traits s) = true) ->
  VideoCore.res_scale (Vulkan.params s) = 1 ->
  Vulkan.Upload_fuel instance (S fuel) s upload staging w
  = (Returned tt,
     Vulkan.log_calls w
       [Vulkan.ExitRenderpass;
        Vulkan.SchedulerRecord
          (Vulkan.UploadClosure (Vulkan.aspect (Vulkan.alloc s))
             (Vulkan.image (Vulkan.alloc s)) (Vulkan.alloc_format (Vulkan.alloc s))
             staging upload);
        Vulkan.UploadCommit (Vulkan.size staging);
        Vulkan.InvalidateAllWatcher]).
Proof.
  intros Hguard Hsc. rewrite Vulkan_Upload_fuel_S.
  assert (bool_decide (VideoCore.type (Vulkan.params s) = VideoCore.DepthStencil)
          && negb (Vulkan.blit_support (Vulkan.traits s)) = false) as ->.
  { destruct (bool_decide _) eqn:E; [|reflexivity].
    apply bool_decide_eq_true in E. rewrite (Hguard E). reflexivity. }
  rewrite Hsc. cbn [Z.eqb Pos.eqb negb].
  step_call. erewrite bind_Returned.
  2: { step_call. apply Vulkan_call_run. }
  rewrite Vulkan_call_run, !Vulkan_log_calls_app. reflexivity.
Qed.

Lemma Surface_new_inv instance p w s w' :
  Vulkan.Surface_new instance p w = (Returned s, w') ->
  Vulkan.params s = p /\ Vulkan.traits s = Vulkan.GetTraits instance (VideoCore.pixel_format p).
Proof.
  unfold Vulkan.Surface_new. destruct (bool_decide _).
  - cbv [mbind M_bind bind mret M_ret ret].
    destruct (Vulkan.Allocate_format _ _ _ _ _ w) as [[a| |] w1]; try discriminate.
    intros [= <- <-]. auto.
  - intros [= <- <-]. auto.
Qed.

(** On a depth-stencil surface whose format cannot be blitted, an upload
    at scale 2 only logs an error: no surface is built, nothing is
    uploaded and no blit is recorded. *)
Lemma Upload_scaled_counterexample :
  let this := Vulkan.mkSurface (Fixtures.params0 64 64 2 VideoCore.D24S8)
                               (Fixtures.some_alloc 7 Vulkan.eD24UnormS8Uint)
                               (Vulkan.GetTraits Fixtures.no_blit VideoCore.D24S8) in
  let upload := VideoCore.mkBufferTextureCopy 0 5120 (VideoCore.mkRect 0 32 32 0) 0 in
  let staging := Vulkan.mkStaging 3%N 5120 [] 0 in
  VideoCore.res_scale (Vulkan.params this) <> 1 /\
  Vulkan.Upload Fixtures.no_blit this upload staging Fixtures.vk_empty
  = (Returned tt, Vulkan.log_calls Fixtures.vk_empty [Vulkan.Log Vulkan.LogError]).
Proof. split; [discriminate | reflexivity]. Qed.

Lemma OpenGL_call_run c w : OpenGL.call c w = (Returned tt, OpenGL.log_calls w [c]).
Proof. reflexivity. Qed.

Lemma OpenGL_log_calls_app w a b :
  OpenGL.log_calls (OpenGL.log_calls w a) b = OpenGL.log_calls w (a ++ b).
Proof. unfold OpenGL.log_calls. cbn. rewrite app_assoc. reflexivity. Qed.

Ltac step_gl := erewrite bind_Returned by (apply OpenGL_call_run).

Lemma OpenGL_Upload_fuel_S driver fuel this upload staging :
  OpenGL.Upload_fuel driver (S fuel) this upload staging
  = (if negb (wrap32 (VideoCore.stride (OpenGL.params this)
                      * OpenGL.GetBytesPerPixel driver
                          (VideoCore.pixel_format (OpenGL.params this)))
              mod 4 =? 0)
     then abort
     else if negb (VideoCore.res_scale (OpenGL.params this) =? 1)
     then OpenGL.ScaledUpload driver (OpenGL.Upload_fuel driver fuel) this upload staging
     else
       (get ≫= fun w => mret (OpenGL.cur_state w)) ≫= fun prev_state =>
       let rect := VideoCore.texture_rect upload in
       OpenGL.call (OpenGL.glPixelStorei OpenGL.GL_UNPACK_ROW_LENGTH (VideoCore.GetWidth rect))
       ≫= fun _ =>
       OpenGL.call (OpenGL.glBindBuffer OpenGL.GL_PIXEL_UNPACK_BUFFER (OpenGL.buffer staging))
       ≫= fun _ =>
       OpenGL.call (OpenGL.Unmap (OpenGL.size staging)) ≫= fun _ =>
       OpenGL.call (OpenGL.glActiveTexture OpenGL.GL_TEXTURE0) ≫= fun _ =>
       OpenGL.call (OpenGL.glBindTexture OpenGL.GL_TEXTURE_2D
                                         (OpenGL.handle (OpenGL.texture this))) ≫= fun _ =>
       OpenGL.GetFormatTuple driver (VideoCore.pixel_format (OpenGL.params this))
       ≫= fun tuple =>
       OpenGL.call (OpenGL.glTexSubImage2D OpenGL.GL_TEXTURE_2D
                      (VideoCore.texture_level upload) rect
                      (OpenGL.tuple_format tuple) (OpenGL.tuple_type tuple)
                      (OpenGL.staging_offset staging)) ≫= fun _ =>
       OpenGL.call (OpenGL.glPixelStorei OpenGL.GL_UNPACK_ROW_LENGTH 0) ≫= fun _ =>
       OpenGL.apply_state prev_state).
Proof. reflexivity. Qed.

(** The direct OpenGL upload: one [glTexSubImage2D] into the surface's
    texture from the unmapped staging buffer. *)
Lemma OpenGL_Upload_direct driver fuel s upload staging w tuple :
  wrap32 (VideoCore.stride (OpenGL.params s)
          * OpenGL.GetBytesPerPixel driver (VideoCore.pixel_format (OpenGL.params s)))
  mod 4 = 0 ->
  VideoCore.res_scale (OpenGL.params s) = 1 ->
  (forall w, OpenGL.GetFormatTuple driver (VideoCore.pixel_format (OpenGL.params s)) w
             = (Returned tuple, w)) ->
  OpenGL.Upload_fuel driver (S fuel) s upload staging w
  = (Returned tt,
     OpenGL.log_calls w
       [OpenGL.glPixelStorei OpenGL.GL_UNPACK_ROW_LENGTH
          (VideoCore.GetWidth (VideoCore.texture_rect upload));
        OpenGL.glBindBuffer OpenGL.GL_PIXEL_UNPACK_BUFFER (OpenGL.buffer staging);
        OpenGL.Unmap (OpenGL.size staging);
        OpenGL.glActiveTexture OpenGL.GL_TEXTURE0;
        OpenGL.glBindTexture OpenGL.GL_TEXTURE_2D (OpenGL.handle (OpenGL.texture s));
        OpenGL.glTexSubImage2D OpenGL.GL_TEXTURE_2D (VideoCore.texture_level upload)
          (VideoCore.texture_rect upload) (OpenGL.tuple_format tuple)
          (OpenGL.tuple_type tuple) (OpenGL.staging_offset staging);
        OpenGL.glPixelStorei OpenGL.GL_UNPACK_ROW_LENGTH 0;
        OpenGL.Apply (OpenGL.cur_state w)]).
Proof.
  intros Hassert Hsc Htuple. rewrite OpenGL_Upload_fuel_S.
  rewrite Hassert, Hsc. cbn [Z.eqb Pos.eqb negb].
  erewrite bind_Returned by reflexivity.
  do 5 step_gl. erewrite bind_Returned by (apply Htuple). do 2 step_gl.
  rewrite !OpenGL_log_calls_app. destruct w.
  unfold OpenGL.apply_state, modify, OpenGL.log_calls.
  cbn [OpenGL.texture_recycler OpenGL.read_fbo OpenGL.draw_fbo OpenGL.cur_state
       OpenGL.next_handle OpenGL.calls app].
  rewrite <- app_assoc. reflexivity.
Qed.

Lemma OpenGL_Surface_new_total driver p w :
  exists s w', OpenGL.Surface_new driver p w = (Returned s, w') /\ OpenGL.params s = p.
Proof.
  unfold OpenGL.Surface_new. destruct (bool_decide _); [|eauto].
  assert (exists t w', OpenGL.Allocate driver (VideoCore.GetScaledWidth p)
                         (VideoCore.GetScaledHeight p) (VideoCore.levels p)
                         (VideoCore.pixel_format p) (VideoCore.texture_type p) w
                       = (Returned t, w')) as (t & w' & Ht).
  { destruct (GetFormatTuple_total driver (VideoCore.pixel_format p)) as [tu Htu].
    unfold OpenGL.Allocate.
    cbv [mbind M_bind bind mret M_ret ret get modify OpenGL.texture_Create OpenGL.call].
    destruct (OpenGL.recycler_find _ _) as [[i b]|]; [eauto|].
    rewrite Htu. eauto. }
  erewrite bind_Returned by (exact Ht). eauto.
Qed.

Lemma OpenGL_BlitTextures_total driver source dest blit w :
  OpenGL.bindable (VideoCore.type (OpenGL.params source)) = true ->
  OpenGL.bindable (VideoCore.type (OpenGL.params dest)) = true ->
  exists w', OpenGL.BlitTextures driver source dest blit w = (Returned true, w').
Proof.
  intros Hs Hd. unfold OpenGL.BlitTextures. run_gl.
  destruct (VideoCore.type (OpenGL.params source)); try discriminate;
    destruct (VideoCore.type (OpenGL.params dest)); try discriminate; eauto.
Qed.

Lemma OpenGL_Surface_delete_total s w :
  exists w', OpenGL.Surface_delete s w = (Returned tt, w').
Proof. unfold OpenGL.Surface_delete. destruct (bool_decide _); eauto. Qed.

Lemma Vulkan_Surface_delete_cases s w :
  Vulkan.Surface_delete s w
  = (Returned tt,
     Vulkan.set_recycler
       (if bool_decide (VideoCore.pixel_format (Vulkan.params s) ≠ VideoCore.Invalid)
        then (Vulkan.mkTag (Vulkan.alloc_format (Vulkan.alloc s))
                           (VideoCore.pixel_format (Vulkan.params s))
                           (VideoCore.texture_type (Vulkan.params s))
                           (VideoCore.GetScaledWidth (Vulkan.params s))
                           (VideoCore.GetScaledHeight (Vulkan.params s)),
              Vulkan.alloc s) :: Vulkan.texture_recycler w
        else Vulkan.texture_recycler w) w).
Proof.
  unfold Vulkan.Surface_delete. destruct (bool_decide _); [reflexivity|].
  destruct w. reflexivity.
Qed.

(** C4, as the code has it. An upload to a surface whose scale is not 1
    builds an unscaled surface of the rectangle's width (also its stride)
    and height with scale 1, uploads into it on the direct path with the
    rectangle moved to the origin, scales it into the rectangle times the
    scale, and destroys it.  On Vulkan this holds unless the surface is
    depth-stencil and its format cannot be blitted (the upload is then
    dropped), and the scaling is [BlitTextures]; on OpenGL the texture
    filterer is asked first and [BlitTextures] runs only when it
    declines. *)
Theorem Upload_scaled_two_steps
        (instance : Vulkan.Instance) (driver : OpenGL.Driver)
        (upload : VideoCore.BufferTextureCopy)
        (this : Vulkan.Surface) (staging : Vulkan.StagingData) (w : Vulkan.World)
        (unscaled : Vulkan.Surface) (w1 : Vulkan.World)
        (gthis : OpenGL.Surface) (gstaging : OpenGL.StagingData) (wg : OpenGL.World) :
  let rect := VideoCore.texture_rect upload in
  let unscaled_rect :=
    VideoCore.mkRect 0 (VideoCore.GetHeight rect) (VideoCore.GetWidth rect) 0 in
  let unscaled_of (p : VideoCore.SurfaceParams) :=
    VideoCore.set_geometry p (VideoCore.GetWidth rect) (VideoCore.GetWidth rect)
                           (VideoCore.GetHeight rect) 1 in
  let unscaled_upload :=
    VideoCore.mkBufferTextureCopy (VideoCore.buffer_offset upload)
                                  (VideoCore.buffer_size upload) unscaled_rect 0 in
  let blit_to (scale : Z) :=
    VideoCore.mkTextureBlit 0 (VideoCore.texture_level upload) 0 0 unscaled_rect
                            (VideoCore.Rect_scale rect scale) in
  let bytes_per_row (p : VideoCore.SurfaceParams) :=
    wrap32 (VideoCore.stride p * OpenGL.GetBytesPerPixel driver (VideoCore.pixel_format p)) in
  (* Vulkan *)
  VideoCore.res_scale (Vulkan.params this) <> 1 ->
  Vulkan.traits this
  = Vulkan.GetTraits instance (VideoCore.pixel_format (Vulkan.params this)) ->
  (VideoCore.type (Vulkan.params this) = VideoCore.DepthStencil ->
   Vulkan.blit_support (Vulkan.traits this) = true) ->
  VideoCore.type (Vulkan.params this) <> VideoCore.InvalidType ->
  Vulkan.Surface_new instance (unscaled_of (Vulkan.params this))
                     (Vulkan.log_calls w [Vulkan.ExitRenderpass])
  = (Returned unscaled, w1) ->
  (* OpenGL *)
  VideoCore.res_scale (OpenGL.params gthis) <> 1 ->
  bytes_per_row (OpenGL.params gthis) mod 4 = 0 ->
  bytes_per_row (unscaled_of (OpenGL.params gthis)) mod 4 = 0 ->
  OpenGL.bindable (VideoCore.type (OpenGL.params gthis)) = true ->
  (exists w',
     Vulkan.Upload instance this upload staging w = (Returned tt, w') /\
     Vulkan.params unscaled = unscaled_of (Vulkan.params this) /\
     Vulkan.calls w' =
       Vulkan.calls w1
       ++ [Vulkan.ExitRenderpass;
           Vulkan.SchedulerRecord
             (Vulkan.UploadClosure (Vulkan.aspect (Vulkan.alloc unscaled))
                (Vulkan.image (Vulkan.alloc unscaled))
                (Vulkan.alloc_format (Vulkan.alloc unscaled)) staging unscaled_upload);
           Vulkan.UploadCommit (Vulkan.size staging);
           Vulkan.InvalidateAllWatcher;
           Vulkan.ExitRenderpass;
           Vulkan.SchedulerRecord
             (Vulkan.BlitClosure (Vulkan.image (Vulkan.alloc unscaled))
                (Vulkan.aspect_of (VideoCore.type (Vulkan.params this)))
                (Vulkan.MakeFilter (VideoCore.pixel_format (Vulkan.params this)))
                (Vulkan.image (Vulkan.alloc this))
                (blit_to (VideoCore.res_scale (Vulkan.params this))));
           Vulkan.InvalidateAllWatcher] /\
     (VideoCore.pixel_format (Vulkan.params this) <> VideoCore.Invalid ->
      Vulkan.texture_recycler w' =
        (Vulkan.mkTag (Vulkan.alloc_format (Vulkan.alloc unscaled))
                      (VideoCore.pixel_format (Vulkan.params this))
                      (VideoCore.texture_type (Vulkan.params this))
                      (VideoCore.GetWidth rect) (VideoCore.GetHeight rect),
         Vulkan.alloc unscaled) :: Vulkan.texture_recycler w1))
  /\
  (exists gunscaled tuple wg1 wg2 wg3 wg',
     OpenGL.Surface_new driver (unscaled_of (OpenGL.params gthis)) wg
     = (Returned gunscaled, wg1) /\
     OpenGL.params gunscaled = unscaled_of (OpenGL.params gthis) /\
     wg2 = OpenGL.log_calls wg1
             [OpenGL.glPixelStorei OpenGL.GL_UNPACK_ROW_LENGTH (VideoCore.GetWidth unscaled_rect);
              OpenGL.glBindBuffer OpenGL.GL_PIXEL_UNPACK_BUFFER (OpenGL.buffer gstaging);
              OpenGL.Unmap (OpenGL.size gstaging);
              OpenGL.glActiveTexture OpenGL.GL_TEXTURE0;
              OpenGL.glBindTexture OpenGL.GL_TEXTURE_2D
                                   (OpenGL.handle (OpenGL.texture gunscaled));
              OpenGL.glTexSubImage2D OpenGL.GL_TEXTURE_2D 0 unscaled_rect
                (OpenGL.tuple_format tuple) (OpenGL.tuple_type tuple)
                (OpenGL.staging_offset gstaging);
              OpenGL.glPixelStorei OpenGL.GL_UNPACK_ROW_LENGTH 0;
              OpenGL.Apply (OpenGL.cur_state wg1);
              OpenGL.Filter (OpenGL.handle (OpenGL.texture gunscaled)) unscaled_rect
                (OpenGL.handle (OpenGL.texture gthis))
                (VideoCore.Rect_scale rect (VideoCore.res_scale (OpenGL.params gthis)))
                (VideoCore.type (OpenGL.params gthis))] /\
     (if OpenGL.filterer_accepts driver
           (OpenGL.handle (OpenGL.texture gunscaled)) unscaled_rect
           (OpenGL.handle (OpenGL.texture gthis))
           (VideoCore.Rect_scale rect (VideoCore.res_scale (OpenGL.params gthis)))
           (VideoCore.type (OpenGL.params gthis))
      then wg3 = wg2
      else OpenGL.BlitTextures driver gunscaled gthis
             (blit_to (VideoCore.res_scale (OpenGL.params gthis))) wg2
           = (Returned true, wg3)) /\
     OpenGL.Surface_delete gunscaled wg3 = (Returned tt, wg') /\
     OpenGL.Upload driver gthis upload gstaging wg = (Returned tt, wg')).
Proof.
  intros rect unscaled_rect unscaled_of unscaled_upload blit_to bytes_per_row
         Hsc Htraits Hguard Hty Hnew Hgsc Hrow Hrow' Hbind.
  split.
  - destruct (Surface_new_inv _ _ _ _ _ Hnew) as [Hp Ht].
    unfold Vulkan.Upload. rewrite Vulkan_Upload_fuel_S.
    assert (bool_decide (VideoCore.type (Vulkan.params this) = VideoCore.DepthStencil)
            && negb (Vulkan.blit_support (Vulkan.traits this)) = false) as ->.
    { destruct (bool_decide _) eqn:E; [|reflexivity].
      apply bool_decide_eq_true in E. rewrite (Hguard E). reflexivity. }
    apply Z.eqb_neq in Hsc. rewrite Hsc. cbn [negb].
    step_call. unfold Vulkan.ScaledUpload.
    fold rect. fold unscaled_rect. fold (unscaled_of (Vulkan.params this)).
    fold unscaled_upload. fold (blit_to (VideoCore.res_scale (Vulkan.params this))).
    assert (VideoCore.type (Vulkan.params unscaled) = VideoCore.type (Vulkan.params this))
      as Huty by (rewrite Hp; reflexivity).
    assert (VideoCore.pixel_format (Vulkan.params unscaled)
            = VideoCore.pixel_format (Vulkan.params this))
      as Hupf by (rewrite Hp; reflexivity).
    erewrite bind_Returned.
    2: { step_with Hnew.
         erewrite bind_Returned.
         2: { apply Vulkan_Upload_direct; [|rewrite Hp; reflexivity].
              rewrite Huty, Ht. cbn [VideoCore.pixel_format unscaled_of VideoCore.set_geometry].
              rewrite <- Htraits. exact Hguard. }
         erewrite bind_Returned
           by (apply Vulkan_BlitTextures_run; rewrite Huty; exact Hty).
         apply Vulkan_Surface_delete_cases. }
    rewrite Vulkan_call_run.
    rewrite Huty, Hupf.
    eexists. split; [reflexivity|]. split; [exact Hp|]. split.
    + destruct w1. cbn. rewrite <- !app_assoc. reflexivity.
    + intros Hne. rewrite (bool_decide_eq_true_2 _ Hne).
      destruct w1. cbn. rewrite Hp. cbn.
      unfold VideoCore.GetScaledWidth, VideoCore.GetScaledHeight. cbn.
      rewrite !Z.mul_1_r. unfold VideoCore.GetWidth, VideoCore.GetHeight.
      rewrite !wrap32_idem. reflexivity.
  - destruct (OpenGL_Surface_new_total driver (unscaled_of (OpenGL.params gthis)) wg)
      as (gu & wg1 & Hgnew & Hgp).
    destruct (GetFormatTuple_total driver (VideoCore.pixel_format (OpenGL.params gu)))
      as [tuple Htuple].
    set (scaled := VideoCore.Rect_scale rect (VideoCore.res_scale (OpenGL.params gthis))).
    pose (wg2 := OpenGL.log_calls wg1
             [OpenGL.glPixelStorei OpenGL.GL_UNPACK_ROW_LENGTH (VideoCore.GetWidth unscaled_rect);
              OpenGL.glBindBuffer OpenGL.GL_PIXEL_UNPACK_BUFFER (OpenGL.buffer gstaging);
              OpenGL.Unmap (OpenGL.size gstaging);
              OpenGL.glActiveTexture OpenGL.GL_TEXTURE0;
              OpenGL.glBindTexture OpenGL.GL_TEXTURE_2D (OpenGL.handle (OpenGL.texture gu));
              OpenGL.glTexSubImage2D OpenGL.GL_TEXTURE_2D 0 unscaled_rect
                (OpenGL.tuple_format tuple) (OpenGL.tuple_type tuple)
                (OpenGL.staging_offset gstaging);
              OpenGL.glPixelStorei OpenGL.GL_UNPACK_ROW_LENGTH 0;
              OpenGL.Apply (OpenGL.cur_state wg1);
              OpenGL.Filter (OpenGL.handle (OpenGL.texture gu)) unscaled_rect
                (OpenGL.handle (OpenGL.texture gthis)) scaled
                (VideoCore.type (OpenGL.params gthis))]).
    assert (exists wg3,
              if OpenGL.filterer_accepts driver (OpenGL.handle (OpenGL.texture gu))
                   unscaled_rect (OpenGL.handle (OpenGL.texture gthis)) scaled
                   (VideoCore.type (OpenGL.params gthis))
              then wg3 = wg2
              else OpenGL.BlitTextures driver gu gthis
                     (blit_to (VideoCore.res_scale (OpenGL.params gthis))) wg2
                   = (Returned true, wg3)) as [wg3 Hscale].
    { destruct (OpenGL.filterer_accepts _ _ _ _ _ _); [eauto|].
      apply OpenGL_BlitTextures_total; [rewrite Hgp|]; exact Hbind. }
    destruct (OpenGL_Surface_delete_total gu wg3) as [wg' Hdel].
    exists gu, tuple, wg1, wg2, wg3, wg'.
    split; [exact Hgnew|]. split; [exact Hgp|]. split; [reflexivity|].
    split; [exact Hscale|]. split; [exact Hdel|].
    unfold OpenGL.Upload. rewrite OpenGL_Upload_fuel_S.
    fold (bytes_per_row (OpenGL.params gthis)). rewrite Hrow.
    apply Z.eqb_neq in Hgsc. rewrite Hgsc. cbn [Z.eqb negb].
    unfold OpenGL.ScaledUpload.
    fold rect. fold unscaled_rect. fold (unscaled_of (OpenGL.params gthis)).
    fold unscaled_upload. fold scaled.
    fold (blit_to (VideoCore.res_scale (OpenGL.params gthis))).
    step_with Hgnew.
    erewrite bind_Returned.
    2: { apply (OpenGL_Upload_direct driver 0 gu unscaled_upload gstaging wg1 tuple).
         - rewrite Hgp. exact Hrow'.
         - rewrite Hgp. reflexivity.
         - exact Htuple. }
    step_gl. rewrite OpenGL_log_calls_app.
    cbn [app VideoCore.texture_rect VideoCore.texture_level unscaled_upload].
    fold wg2.
    destruct (OpenGL.filterer_accepts _ _ _ _ _ _).
    + subst wg3. cbn [negb]. erewrite bind_Returned by reflexivity. exact Hdel.
    + cbn [negb]. erewrite bind_Returned.
      2: { erewrite bind_Returned by (exact Hscale). reflexivity. }
      exact Hdel.
Qed.

Lemma Upload_scaled_two_steps_witness :
  let this := Vulkan.mkSurface (Fixtures.params0 64 64 2 VideoCore.RGBA8)
                               (Fixtures.some_alloc 7 Vulkan.eR8G8B8A8Unorm)
                               (Vulkan.GetTraits Fixtures.capable VideoCore.RGBA8) in
  let gthis := OpenGL.mkSurface (Fixtures.params0 64 64 2 VideoCore.RGBA8)
                                (OpenGL.mkTexture 9%N) in
  let upload := VideoCore.mkBufferTextureCopy 0 4096 (VideoCore.mkRect 8 40 40 8) 0 in
  let staging := Vulkan.mkStaging 3%N 4096 [] 0 in
  VideoCore.res_scale (Vulkan.params this) <> 1 /\
  exists w',
    Vulkan.Upload Fixtures.capable this upload staging (Vulkan.mkWorld [] [] 20%N [])
    = (Returned tt, w') /\
    Vulkan.recorded_blit_filters (Vulkan.calls w') = [Vulkan.eLinear] /\
    length (Vulkan.texture_recycler w') = 1%nat.
Proof.
  intros this gthis upload staging. split; [discriminate|].
  pose proof (Upload_scaled_two_steps Fixtures.capable (Fixtures.desktop false) upload
                this staging (Vulkan.mkWorld [] [] 20%N [])) as T.
  cbn zeta in T.
  edestruct (T _ _ gthis (OpenGL.mkStaging 3%N 4096 [] 0) Fixtures.gl_empty
               ltac:(discriminate) eq_refl ltac:(discriminate) ltac:(discriminate)
               ltac:(vm_compute; reflexivity)
               ltac:(discriminate) eq_refl eq_refl eq_refl)
    as [(w' & Hrun & _ & Hcalls & Hrec) _].
  exists w'. split; [exact Hrun|]. split.
  - rewrite Hcalls. vm_compute. reflexivity.
  - rewrite (Hrec ltac:(discriminate)). reflexivity.
Defined.

(** ** C8 *)

(** A request that finds nothing under its key gets a handle the host had
    not handed out. *)
Lemma Vulkan_Allocate_miss_fresh instance width height pixel_format type format usage w a w' :
  Vulkan.recycler_find (Vulkan.mkTag format pixel_format type width height)
                       (Vulkan.texture_recycler w) = None ->
  Vulkan.Allocate instance width height pixel_format type format usage w = (Returned a, w') ->
  (Vulkan.next_handle w < Vulkan.next_handle w')%N.
Proof.
  destruct w as [rec fbs nh cs]. cbn [Vulkan.texture_recycler]. intros Hmiss.
  unfold Vulkan.Allocate.
  destruct (bool_decide (pixel_format = VideoCore.Invalid)); [discriminate|].
  cbv [mbind M_bind bind mret M_ret ret get modify abort Vulkan.create Vulkan.call
       Vulkan.texture_recycler Vulkan.clear_framebuffers Vulkan.next_handle Vulkan.calls
       Vulkan.set_recycler Vulkan.aspect Vulkan.image Vulkan.alloc_format].
  rewrite Hmiss.
  destruct (negb _); [discriminate|].
  destruct (1 <? _), (negb _), (bool_decide (pixel_format = VideoCore.RGBA8));
    intros [= <- <-]; cbn [Vulkan.next_handle]; lia.
Qed.

Lemma OpenGL_Allocate_miss_fresh driver width height levels format type w t w' :
  OpenGL.recycler_find (OpenGL.mkTag format type width height levels)
                       (OpenGL.texture_recycler w) = None ->
  OpenGL.Allocate driver width height levels format type w = (Returned t, w') ->
  (OpenGL.next_handle w < OpenGL.next_handle w')%N.
Proof.
  destruct w as [rec rf df cur nh cs]. cbn [OpenGL.texture_recycler]. intros Hmiss.
  destruct (GetFormatTuple_total driver format) as [tu Htu].
  unfold OpenGL.Allocate.
  cbv [mbind M_bind bind mret M_ret ret get modify abort OpenGL.texture_Create OpenGL.call
       OpenGL.texture_recycler OpenGL.read_fbo OpenGL.draw_fbo OpenGL.cur_state
       OpenGL.next_handle OpenGL.calls OpenGL.set_recycler OpenGL.handle].
  rewrite Hmiss, Htu. intros [= <- <-]. cbn [OpenGL.next_handle]. lia.
Qed.

Lemma Vulkan_find_other key t x r :
  t <> key -> Vulkan.recycler_find key r = None ->
  Vulkan.recycler_find key ((t, x) :: r) = None.
Proof.
  intros Hne Hr. cbn [Vulkan.recycler_find]. rewrite Hr.
  destruct (Vulkan.tag_eqb t key) eqn:E; [|reflexivity].
  apply Vulkan_tag_eqb_eq in E. contradiction.
Qed.

Lemma OpenGL_find_other key t x r :
  t <> key -> OpenGL.recycler_find key r = None ->
  OpenGL.recycler_find key ((t, x) :: r) = None.
Proof.
  intros Hne Hr. cbn [OpenGL.recycler_find]. rewrite Hr.
  destruct (OpenGL.tag_eqb t key) eqn:E; [|reflexivity].
  apply OpenGL_tag_eqb_eq in E. contradiction.
Qed.

Lemma OpenGL_Surface_delete_cases s w :
  OpenGL.Surface_delete s w
  = (Returned tt,
     OpenGL.set_recycler
       (if bool_decide (VideoCore.pixel_format (OpenGL.params s) ≠ VideoCore.Invalid)
        then (OpenGL.mkTag (VideoCore.pixel_format (OpenGL.params s))
                           (VideoCore.texture_type (OpenGL.params s))
                           (VideoCore.GetScaledWidth (OpenGL.params s))
                           (VideoCore.GetScaledHeight (OpenGL.params s))
                           (VideoCore.levels (OpenGL.params s)),
              OpenGL.texture s) :: OpenGL.texture_recycler w
        else OpenGL.texture_recycler w) w).
Proof.
  unfold OpenGL.Surface_delete. destruct (bool_decide _); [reflexivity|].
  destruct w. reflexivity.
Qed.

(** C8, as the code has it.  A tag is compared member by member, and
    which members it has depends on the runtime.  In the header revision
    that declares the level count, two tags are equal exactly when native
    format, pixel format, texture type, width, height and level count are
    equal.  The tag of the Vulkan runtime has no level count and the tag of
    the OpenGL runtime has no native format, and in each runtime the
    members of its tag decide which allocations are interchangeable: an
    allocation that a surface's destructor has pooled is what the next
    [Allocate] returns, with no host call and the runtime as it was before
    the surface was destroyed, exactly when, on Vulkan, the allocation's
    host format and the surface's pixel format, texture type and scaled
    width and height are those of the request (the surface's level count
    plays no part), and, on OpenGL, the surface's pixel format, texture
    type, scaled width and height and level count are those of the request
    (no host format takes part). *)
Theorem HostTextureTag_match_iff
        (instance : Vulkan.Instance) (driver : OpenGL.Driver)
        (a b : VulkanLevels.HostTextureTag)
        (s : Vulkan.Surface) (g : OpenGL.Surface)
        (width height levels : Z) (pixel_format : VideoCore.PixelFormat)
        (type : VideoCore.TextureType) (format : Vulkan.Format) (usage : Z)
        (wv : Vulkan.World) (wg : OpenGL.World) :
  (VulkanLevels.tag_eqb a b = true <->
   VulkanLevels.format a = VulkanLevels.format b /\
   VulkanLevels.pixel_format a = VulkanLevels.pixel_format b /\
   VulkanLevels.type a = VulkanLevels.type b /\
   VulkanLevels.width a = VulkanLevels.width b /\
   VulkanLevels.height a = VulkanLevels.height b /\
   VulkanLevels.levels a = VulkanLevels.levels b)
  /\
  (pixel_format <> VideoCore.Invalid ->
   (forall x, (Vulkan.mkTag format pixel_format type width height, x)
              ∉ Vulkan.texture_recycler wv) ->
   ((Vulkan.Surface_delete s ≫= fun _ =>
     Vulkan.Allocate instance width height pixel_format type format usage) wv
    = (Returned (Vulkan.alloc s), wv)
    <->
    Vulkan.alloc_format (Vulkan.alloc s) = format /\
    VideoCore.pixel_format (Vulkan.params s) = pixel_format /\
    VideoCore.texture_type (Vulkan.params s) = type /\
    VideoCore.GetScaledWidth (Vulkan.params s) = width /\
    VideoCore.GetScaledHeight (Vulkan.params s) = height))
  /\
  (pixel_format <> VideoCore.Invalid ->
   (forall t, (OpenGL.mkTag pixel_format type width height levels, t)
              ∉ OpenGL.texture_recycler wg) ->
   ((OpenGL.Surface_delete g ≫= fun _ =>
     OpenGL.Allocate driver width height levels pixel_format type) wg
    = (Returned (OpenGL.texture g), wg)
    <->
    VideoCore.pixel_format (OpenGL.params g) = pixel_format /\
    VideoCore.texture_type (OpenGL.params g) = type /\
    VideoCore.GetScaledWidth (OpenGL.params g) = width /\
    VideoCore.GetScaledHeight (OpenGL.params g) = height /\
    VideoCore.levels (OpenGL.params g) = levels)).
Proof.
  split; [|split].
  - rewrite VulkanLevels_tag_eqb_eq. split.
    + intros ->. repeat split.
    + destruct a, b; cbn. intros (-> & -> & -> & -> & -> & ->). reflexivity.
  - intros Hpf Hfree. apply (proj2 (Vulkan_find_None _ _)) in Hfree.
    set (key := Vulkan.mkTag format pixel_format type width height) in *.
    set (tag := Vulkan.mkTag (Vulkan.alloc_format (Vulkan.alloc s))
                             (VideoCore.pixel_format (Vulkan.params s))
                             (VideoCore.texture_type (Vulkan.params s))
                             (VideoCore.GetScaledWidth (Vulkan.params s))
                             (VideoCore.GetScaledHeight (Vulkan.params s))).
    assert (tag = key <->
            Vulkan.alloc_format (Vulkan.alloc s) = format /\
            VideoCore.pixel_format (Vulkan.params s) = pixel_format /\
            VideoCore.texture_type (Vulkan.params s) = type /\
            VideoCore.GetScaledWidth (Vulkan.params s) = width /\
            VideoCore.GetScaledHeight (Vulkan.params s) = height) as Htag.
    { subst tag key. split.
      - intros [= -> -> -> -> ->]. repeat split.
      - intros (-> & -> & -> & -> & ->). reflexivity. }
    rewrite <- Htag. clear Htag.
    erewrite bind_Returned by (apply Vulkan_Surface_delete_cases). fold tag.
    split.
    + intros Hrun.
      destruct (Vulkan.tag_eqb tag key) eqn:E;
        [apply Vulkan_tag_eqb_eq; exact E|]. exfalso.
      assert (tag <> key) as Hne
          by (intros Heq; apply Vulkan_tag_eqb_eq in Heq; congruence).
      assert (Vulkan.recycler_find key
                (if bool_decide (VideoCore.pixel_format (Vulkan.params s) ≠ VideoCore.Invalid)
                 then (tag, Vulkan.alloc s) :: Vulkan.texture_recycler wv
                 else Vulkan.texture_recycler wv) = None) as Hmiss.
      { destruct (bool_decide _); [apply Vulkan_find_other; assumption | exact Hfree]. }
      destruct wv as [rec fbs nh cs].
      apply Vulkan_Allocate_miss_fresh in Hrun; [|exact Hmiss].
      cbn [Vulkan.set_recycler Vulkan.next_handle] in Hrun. lia.
    + intros E.
      assert (VideoCore.pixel_format (Vulkan.params s) ≠ VideoCore.Invalid) as Hs.
      { replace (VideoCore.pixel_format (Vulkan.params s)) with pixel_format
          by (symmetry; exact (f_equal Vulkan.tag_pixel_format E)).
        exact Hpf. }
      rewrite (bool_decide_eq_true_2 _ Hs), E.
      destruct wv as [rec fbs nh cs]. unfold Vulkan.Allocate.
      rewrite (bool_decide_eq_false_2 _ Hpf). fold key.
      cbv [mbind M_bind bind mret M_ret ret get modify Vulkan.set_recycler
           Vulkan.texture_recycler Vulkan.clear_framebuffers Vulkan.next_handle
           Vulkan.calls].
      cbn [Vulkan.recycler_find].
      assert (Vulkan.tag_eqb key key = true) as -> by (apply Vulkan_tag_eqb_eq; reflexivity).
      reflexivity.
  - intros Hpf Hfree. apply (proj2 (OpenGL_find_None _ _)) in Hfree.
    set (key := OpenGL.mkTag pixel_format type width height levels) in *.
    set (tag := OpenGL.mkTag (VideoCore.pixel_format (OpenGL.params g))
                             (VideoCore.texture_type (OpenGL.params g))
                             (VideoCore.GetScaledWidth (OpenGL.params g))
                             (VideoCore.GetScaledHeight (OpenGL.params g))
                             (VideoCore.levels (OpenGL.params g))).
    assert (tag = key <->
            VideoCore.pixel_format (OpenGL.params g) = pixel_format /\
            VideoCore.texture_type (OpenGL.params g) = type /\
            VideoCore.GetScaledWidth (OpenGL.params g) = width /\
            VideoCore.GetScaledHeight (OpenGL.params g) = height /\
            VideoCore.levels (OpenGL.params g) = levels) as Htag.
    { subst tag key. split.
      - intros [= -> -> -> -> ->]. repeat split.
      - intros (-> & -> & -> & -> & ->). reflexivity. }
    rewrite <- Htag. clear Htag.
    erewrite bind_Returned by (apply OpenGL_Surface_delete_cases). fold tag.
    split.
    + intros Hrun.
      destruct (OpenGL.tag_eqb tag key) eqn:E;
        [apply OpenGL_tag_eqb_eq; exact E|]. exfalso.
      assert (tag <> key) as Hne
          by (intros Heq; apply OpenGL_tag_eqb_eq in Heq; congruence).
      assert (OpenGL.recycler_find key
                (if bool_decide (VideoCore.pixel_format (OpenGL.params g) ≠ VideoCore.Invalid)
                 then (tag, OpenGL.texture g) :: OpenGL.texture_recycler wg
                 else OpenGL.texture_recycler wg) = None) as Hmiss.
      { destruct (bool_decide _); [apply OpenGL_find_other; assumption | exact Hfree]. }
      destruct wg as [rec rf df cur nh cs].
      apply OpenGL_Allocate_miss_fresh in Hrun; [|exact Hmiss].
      cbn [OpenGL.set_recycler OpenGL.next_handle] in Hrun. lia.
    + intros E.
      assert (VideoCore.pixel_format (OpenGL.params g) ≠ VideoCore.Invalid) as Hg.
      { replace (VideoCore.pixel_format (OpenGL.params g)) with pixel_format
          by (symmetry; exact (f_equal OpenGL.tag_format E)).
        exact Hpf. }
      rewrite (bool_decide_eq_true_2 _ Hg), E.
      destruct wg as [rec rf df cur nh cs]. unfold OpenGL.Allocate. fold key.
      cbv [mbind M_bind bind mret M_ret ret get modify OpenGL.set_recycler
           OpenGL.texture_recycler OpenGL.read_fbo OpenGL.draw_fbo OpenGL.cur_state
           OpenGL.next_handle OpenGL.calls].
      cbn [OpenGL.recycler_find].
      assert (OpenGL.tag_eqb key key = true) as -> by (apply OpenGL_tag_eqb_eq; reflexivity).
      reflexivity.
Qed.

Lemma HostTextureTag_match_iff_witness :
  let p := VideoCore.mkParams 64 64 64 3 2 true VideoCore.Texture2D VideoCore.RGBA8
                              VideoCore.Color in
  let s := Vulkan.mkSurface p (Fixtures.some_alloc 7 Vulkan.eR8G8B8A8Unorm)
                            Vulkan.default_traits in
  let g := OpenGL.mkSurface p (OpenGL.mkTexture 9%N) in
  VideoCore.RGBA8 <> VideoCore.Invalid /\
  (Vulkan.Surface_delete s ≫= fun _ =>
   Vulkan.Allocate Fixtures.capable 128 128 VideoCore.RGBA8 VideoCore.Texture2D
                   Vulkan.eR8G8B8A8Unorm 0) Fixtures.vk_empty
  = (Returned (Vulkan.alloc s), Fixtures.vk_empty) /\
  (OpenGL.Surface_delete g ≫= fun _ =>
   OpenGL.Allocate (Fixtures.desktop false) 128 128 1 VideoCore.RGBA8 VideoCore.Texture2D)
    Fixtures.gl_empty
  <> (Returned (OpenGL.texture g), Fixtures.gl_empty).
Proof.
  intros p s g. split; [discriminate|].
  destruct (HostTextureTag_match_iff
              Fixtures.capable (Fixtures.desktop false)
              (VulkanLevels.mkTag Vulkan.eR8G8B8A8Unorm VideoCore.RGBA8 VideoCore.Texture2D 1 1 1)
              (VulkanLevels.mkTag Vulkan.eR8G8B8A8Unorm VideoCore.RGBA8 VideoCore.Texture2D 1 1 1)
              s g 128 128 1 VideoCore.RGBA8 VideoCore.Texture2D Vulkan.eR8G8B8A8Unorm 0
              Fixtures.vk_empty Fixtures.gl_empty) as (_ & Hv & Hg).
  split.
  - apply Hv; [discriminate | intros x Hx; inversion Hx | repeat split].
  - intros Hrun. apply Hg in Hrun; [|discriminate | intros t Ht; inversion Ht].
    destruct Hrun as (_ & _ & _ & _ & Hl). discriminate.
Defined.

(** Two Vulkan surfaces of one size and format that differ in their level
    count (3 and 1) are filed under one tag: destroying the first and
    constructing the second hands the second the allocation of the first,
    with no host call.  On OpenGL the same two surfaces are not
    interchangeable: the second gets a texture of its own, and the texture
    of the first stays pooled. *)
Lemma HostTextureTag_counterexample :
  let p3 := VideoCore.mkParams 64 64 64 3 1 true VideoCore.Texture2D VideoCore.RGBA8
                               VideoCore.Color in
  let p1 := VideoCore.mkParams 64 64 64 1 1 true VideoCore.Texture2D VideoCore.RGBA8
                               VideoCore.Color in
  let traits := Vulkan.GetTraits Fixtures.capable VideoCore.RGBA8 in
  let s := Vulkan.mkSurface p3 (Fixtures.some_alloc 7 Vulkan.eR8G8B8A8Unorm) traits in
  let g := OpenGL.mkSurface p3 (OpenGL.mkTexture 9%N) in
  VideoCore.levels p3 <> VideoCore.levels p1 /\
  (Vulkan.Surface_delete s ≫= fun _ => Vulkan.Surface_new Fixtures.capable p1)
    Fixtures.vk_empty
  = (Returned (Vulkan.mkSurface p1 (Vulkan.alloc s) traits), Fixtures.vk_empty) /\
  exists wg',
    (OpenGL.Surface_delete g ≫= fun _ => OpenGL.Surface_new (Fixtures.desktop false) p1)
      Fixtures.gl_empty
    = (Returned (OpenGL.mkSurface p1 (OpenGL.mkTexture 3%N)), wg') /\
    OpenGL.texture_recycler wg'
    = [(OpenGL.mkTag VideoCore.RGBA8 VideoCore.Texture2D 64 64 3, OpenGL.texture g)].
Proof.
  intros p3 p1 traits s g. split; [discriminate|]. split.
  - vm_compute. reflexivity.
  - eexists. split; vm_compute; reflexivity.
Qed.

(** * Further properties of the runtimes *)

(** ** Recycling round trips *)

(** X1. An allocation handed to [Recycle] under a tag comes back from the
    next [Allocate] whose width, height, pixel format, texture type and host
    format are those of the tag, whatever usage flags are asked for (usage
    is not part of the tag): when no other allocation is pooled under the
    tag, the two calls together return that allocation, make no host call
    and leave the runtime exactly as it was. *)
Theorem Recycle_then_Allocate
        (instance : Vulkan.Instance) (tag : Vulkan.HostTextureTag)
        (alloc : Vulkan.ImageAlloc) (usage : Z) (w : Vulkan.World) :
  Vulkan.tag_pixel_format tag <> VideoCore.Invalid ->
  (forall a, (tag, a) ∉ Vulkan.texture_recycler w) ->
  (Vulkan.Recycle tag alloc ≫= fun _ =>
   Vulkan.Allocate instance (Vulkan.tag_width tag) (Vulkan.tag_height tag)
                   (Vulkan.tag_pixel_format tag) (Vulkan.tag_type tag)
                   (Vulkan.tag_format tag) usage) w
  = (Returned alloc, w).
Proof.
  intros Hpf _. destruct w as [rec fbs nh cs], tag as [f pf ty wd ht].
  cbn [Vulkan.tag_pixel_format Vulkan.tag_width Vulkan.tag_height Vulkan.tag_type
       Vulkan.tag_format] in *.
  unfold Vulkan.Recycle, Vulkan.Allocate.
  rewrite (bool_decide_eq_false_2 _ Hpf).
  cbv [mbind M_bind bind mret M_ret ret get modify Vulkan.set_recycler
       Vulkan.texture_recycler Vulkan.clear_framebuffers Vulkan.next_handle Vulkan.calls].
  cbn [Vulkan.recycler_find].
  assert (Vulkan.tag_eqb (Vulkan.mkTag f pf ty wd ht) (Vulkan.mkTag f pf ty wd ht) = true)
    as -> by (apply Vulkan_tag_eqb_eq; reflexivity).
  reflexivity.
Qed.

Lemma Recycle_then_Allocate_witness :
  VideoCore.RGBA8 <> VideoCore.Invalid /\
  let tag := Vulkan.mkTag Vulkan.eR8G8B8A8Unorm VideoCore.RGBA8 VideoCore.Texture2D 64 64 in
  let a := Fixtures.some_alloc 7 Vulkan.eR8G8B8A8Unorm in
  (Vulkan.Recycle tag a ≫= fun _ =>
   Vulkan.Allocate Fixtures.capable 64 64 VideoCore.RGBA8 VideoCore.Texture2D
                   Vulkan.eR8G8B8A8Unorm 3) Fixtures.vk_empty
  = (Returned a, Fixtures.vk_empty).
Proof.
  split; [discriminate|]. intros tag a.
  apply (Recycle_then_Allocate Fixtures.capable tag a 3 Fixtures.vk_empty).
  - discriminate.
  - intros b Hb. inversion Hb.
Defined.

(** X2. [Allocate] stops at a failed check in two cases only: the pixel
    format is Invalid (the assertion, before anything is looked up), or
    nothing is pooled under the tag and the allocator does not answer
    [VK_SUCCESS] (after the image request and a critical log entry, and
    before any view is created).  In every other case it returns. *)
Theorem Allocate_aborts_iff
        (instance : Vulkan.Instance) (width height : Z)
        (pixel_format : VideoCore.PixelFormat) (type : VideoCore.TextureType)
        (format : Vulkan.Format) (usage : Z) (w : Vulkan.World) :
  let key := Vulkan.mkTag format pixel_format type width height in
  let info := Vulkan.image_request width height pixel_format type format usage in
  let run := Vulkan.Allocate instance width height pixel_format type format usage w in
  (pixel_format = VideoCore.Invalid -> run = (Aborted, w))
  /\ (pixel_format <> VideoCore.Invalid ->
      Vulkan.recycler_find key (Vulkan.texture_recycler w) = None ->
      Vulkan.vmaCreateImage_result instance info <> Vulkan.VK_SUCCESS ->
      run.1 = Aborted /\
      Vulkan.calls run.2
      = Vulkan.calls w ++ [Vulkan.vmaCreateImage info; Vulkan.Log Vulkan.LogCritical] /\
      Vulkan.texture_recycler run.2 = Vulkan.texture_recycler w)
  /\ (run.1 = Aborted <->
      pixel_format = VideoCore.Invalid \/
      (Vulkan.recycler_find key (Vulkan.texture_recycler w) = None /\
       Vulkan.vmaCreateImage_result instance info <> Vulkan.VK_SUCCESS))
  /\ run.1 <> OutOfFuel.
Proof.
  intros key info run. subst run.
  destruct w as [rec fbs nh cs]. unfold Vulkan.Allocate.
  fold (Vulkan.image_request width height pixel_format type format usage).
  fold info. fold key.
  destruct (decide (pixel_format = VideoCore.Invalid)) as [Hinv|Hpf].
  { rewrite (bool_decide_eq_true_2 _ Hinv). repeat split; try done; auto. }
  rewrite (bool_decide_eq_false_2 _ Hpf).
  cbv [mbind M_bind bind mret M_ret ret get modify abort Vulkan.create Vulkan.call
       Vulkan.texture_recycler Vulkan.clear_framebuffers Vulkan.next_handle Vulkan.calls
       Vulkan.set_recycler Vulkan.aspect Vulkan.image Vulkan.alloc_format].
  destruct (Vulkan.recycler_find key rec) as [[i b]|] eqn:F.
  { cbn [fst snd]. split; [done|]. split; [done|]. split; [|done].
    split; [done|]. intros [?|[? _]]; done. }
  destruct (Z.eqb_spec (Vulkan.vmaCreateImage_result instance info) Vulkan.VK_SUCCESS)
    as [Hok|Hfail]; cbn [negb].
  - destruct (1 <? _), (negb _), (bool_decide (pixel_format = VideoCore.RGBA8));
      cbn [fst snd]; (split; [done|]); (split; [done|]); (split; [|done]);
      (split; [done|]); intros [?|[_ ?]]; done.
  - cbn [fst snd]. split; [done|]. split.
    + intros _ _ _. split; [reflexivity|]. split; [|reflexivity].
      rewrite <- app_assoc. reflexivity.
    + split; [|done]. split; auto.
Qed.

(** ** Creation and teardown *)

Lemma N_succ_eqb_0 n : (N.succ n =? 0)%N = false.
Proof. apply N.eqb_neq. apply N.neq_succ_0. Qed.

(** X3. What [Allocate] creates, [~TextureRuntime] gives back.  When
    nothing is pooled under the tag and [Allocate] returns, the host handed
    out [k] handles in a row (image, memory, and one per view created, so
    at least three); the teardown of that allocation releases exactly these
    handles, each once, in the order they were made: no view is left
    behind and none is released that was not created.  Once the allocation
    is pooled, the destructor of the runtime makes every one of these
    calls and leaves the pool empty. *)
Theorem fresh_allocation_is_released_whole
        (instance : Vulkan.Instance) (width height : Z)
        (pixel_format : VideoCore.PixelFormat) (type : VideoCore.TextureType)
        (format : Vulkan.Format) (usage : Z) (w w' : Vulkan.World)
        (a : Vulkan.ImageAlloc) :
  Vulkan.recycler_find (Vulkan.mkTag format pixel_format type width height)
                       (Vulkan.texture_recycler w) = None ->
  Vulkan.Allocate instance width height pixel_format type format usage w
  = (Returned a, w') ->
  exists (k : nat) (views : list Vulkan.Call),
    (3 <= k)%nat /\
    Vulkan.next_handle w' = (Vulkan.next_handle w + N.of_nat k)%N /\
    Vulkan.calls w' =
      Vulkan.calls w
      ++ [Vulkan.vmaCreateImage
            (Vulkan.image_request width height pixel_format type format usage)]
      ++ views
      ++ [Vulkan.SchedulerRecord
            (Vulkan.InitBarrierClosure (Vulkan.image a) (Vulkan.aspect a))] /\
    Forall (Vulkan.creates_view_of (Vulkan.image a)) views /\
    (length views + 2 = k)%nat /\
    flat_map Vulkan.released (Vulkan.destroy_alloc a)
    = map (fun i => (Vulkan.next_handle w + N.of_nat i)%N) (seq 0 k) /\
    (forall (t : Vulkan.HostTextureTag) (w2 : Vulkan.World),
        (t, a) ∈ Vulkan.texture_recycler w2 ->
        (forall c, c ∈ Vulkan.destroy_alloc a -> c ∈ (Vulkan.TextureRuntime_delete w2).1) /\
        Vulkan.texture_recycler (Vulkan.TextureRuntime_delete w2).2 = []).
Proof.
  intros Hmiss Hrun.
  assert (forall (t : Vulkan.HostTextureTag) (w2 : Vulkan.World),
             (t, a) ∈ Vulkan.texture_recycler w2 ->
             (forall c, c ∈ Vulkan.destroy_alloc a ->
                        c ∈ (Vulkan.TextureRuntime_delete w2).1) /\
             Vulkan.texture_recycler (Vulkan.TextureRuntime_delete w2).2 = []) as Hdel.
  { intros t w2 Hin. split; [|reflexivity]. intros c Hc.
    unfold Vulkan.TextureRuntime_delete. cbn [fst].
    apply elem_of_cons. right. apply elem_of_app. left.
    apply list_elem_of_In, in_flat_map. exists (t, a).
    split; apply list_elem_of_In; assumption. }
  revert Hdel. generalize (Vulkan.TextureRuntime_delete). intros del Hdel.
  destruct w as [rec fbs nh cs]. cbn [Vulkan.texture_recycler] in Hmiss.
  unfold Vulkan.Allocate in Hrun.
  fold (Vulkan.image_request width height pixel_format type format usage) in Hrun.
  destruct (bool_decide (pixel_format = VideoCore.Invalid)); [discriminate|].
  revert Hrun.
  cbv [mbind M_bind bind mret M_ret ret get modify abort Vulkan.create Vulkan.call
       Vulkan.texture_recycler Vulkan.clear_framebuffers Vulkan.next_handle Vulkan.calls
       Vulkan.set_recycler Vulkan.aspect Vulkan.image Vulkan.alloc_format].
  rewrite Hmiss.
  destruct (negb (_ =? Vulkan.VK_SUCCESS)); [discriminate|].
  destruct (1 <? bit_width (Z.max width height));
    destruct (negb (Z.land (Vulkan.GetImageAspect instance format) Vulkan.eStencil =? 0));
    destruct (bool_decide (pixel_format = VideoCore.RGBA8));
    intros [= <- <-];
    cbn [Vulkan.next_handle Vulkan.calls Vulkan.image Vulkan.aspect];
    assoc_right.
  all: lazymatch goal with
       | |- context [_ ++ _ :: ?L] =>
           let v := init_of L in
           let n := eval cbv in (length v + 2)%nat in
           exists n, v
       end.
  all: split; [lia|].
  all: split; [lia|].
  all: split; [reflexivity|].
  all: split; [repeat (constructor; [eexists; split; reflexivity|]); constructor|].
  all: split; [reflexivity|].
  all: split; [|exact Hdel].
  all: unfold Vulkan.destroy_alloc;
    cbn [Vulkan.image Vulkan.allocation Vulkan.image_view Vulkan.base_view
         Vulkan.depth_view Vulkan.stencil_view Vulkan.storage_view];
    rewrite ?N_succ_eqb_0; cbn [N.eqb negb app flat_map Vulkan.released seq map];
    repeat f_equal; lia.
Qed.

Lemma fresh_allocation_is_released_whole_witness :
  let run := Vulkan.Allocate Fixtures.capable 64 64 VideoCore.D24S8 VideoCore.Texture2D
                             Vulkan.eD24UnormS8Uint 0 Fixtures.vk_empty in
  exists a, run.1 = Returned a /\
            flat_map Vulkan.released (Vulkan.destroy_alloc a) = [1; 2; 3; 4; 5; 6]%N.
Proof.
  intros run.
  assert (exists a w', run = (Returned a, w')) as (a & w' & E)
      by (vm_compute; eauto).
  exists a. split; [rewrite E; reflexivity|].
  destruct (fresh_allocation_is_released_whole
              Fixtures.capable 64 64 VideoCore.D24S8 VideoCore.Texture2D
              Vulkan.eD24UnormS8Uint 0 Fixtures.vk_empty w' a eq_refl E)
    as (k & views & _ & Hk & _ & _ & _ & Hrel & _).
  rewrite Hrel.
  assert (k = 6%nat) as ->.
  { revert Hk. injection E as _ <-. cbn. lia. }
  reflexivity.
Defined.

Lemma framebuffer_find_head view fb m :
  Vulkan.framebuffer_find view ((view, fb) :: m) = Some fb.
Proof. cbn. rewrite N.eqb_refl. reflexivity. Qed.

(** The render-pass clear, by whether the framebuffer is cached. *)
Lemma ClearTextureWithRenderpass_run surface clear value w :
  let p := Vulkan.params surface in
  let rp :=
    if Vulkan.is_color_type (VideoCore.type p)
    then Vulkan.mkRenderPass (VideoCore.pixel_format p) VideoCore.Invalid true
    else Vulkan.mkRenderPass VideoCore.Invalid (VideoCore.pixel_format p) true in
  let view := Vulkan.GetFramebufferView surface in
  let rect := VideoCore.clear_rect clear in
  let state fb :=
    Vulkan.mkRenderpassState rp fb
      (Vulkan.mkVkRect (to_s32 (VideoCore.left rect)) (to_s32 (VideoCore.bottom rect))
                       (VideoCore.GetWidth rect) (VideoCore.GetHeight rect)) value in
  Vulkan.ClearTextureWithRenderpass surface clear value w
  = (Returned tt,
     match Vulkan.framebuffer_find view (Vulkan.clear_framebuffers w) with
     | Some fb =>
         Vulkan.log_calls w [Vulkan.EnterRenderpass (state fb); Vulkan.ExitRenderpass]
     | None =>
         Vulkan.mkWorld
           (Vulkan.texture_recycler w)
           ((view, Vulkan.next_handle w) :: Vulkan.clear_framebuffers w)
           (N.succ (Vulkan.next_handle w))
           (Vulkan.calls w
            ++ [Vulkan.createFramebuffer
                  (Vulkan.mkFramebufferCreateInfo rp view (VideoCore.GetScaledWidth p)
                                                  (VideoCore.GetScaledHeight p));
                Vulkan.EnterRenderpass (state (Vulkan.next_handle w));
                Vulkan.ExitRenderpass])
     end).
Proof.
  intros p rp view rect state. destruct w as [rec fbs nh cs].
  unfold Vulkan.ClearTextureWithRenderpass.
  fold p. fold rp. fold view. fold rect.
  cbv [mbind M_bind bind mret M_ret ret get].
  cbn [Vulkan.clear_framebuffers Vulkan.texture_recycler Vulkan.next_handle Vulkan.calls].
  destruct (Vulkan.framebuffer_find view fbs) as [fb|].
  - cbv [Vulkan.call modify Vulkan.log_calls].
    cbn [Vulkan.clear_framebuffers Vulkan.texture_recycler Vulkan.next_handle Vulkan.calls].
    rewrite <- app_assoc. reflexivity.
  - cbv [Vulkan.call Vulkan.create modify].
    cbn [Vulkan.clear_framebuffers Vulkan.texture_recycler Vulkan.next_handle Vulkan.calls].
    rewrite <- !app_assoc. reflexivity.
Qed.

(** X4. The clear framebuffers are cached by image view alone.  After a
    render-pass clear of a surface, a second render-pass clear through the
    same framebuffer view (of that surface or of another one, whatever the
    rectangle, the value, the format and the size) creates no framebuffer:
    it enters a render pass on the framebuffer the first clear used, and
    neither the cache nor the handle counter changes. *)
Theorem ClearTextureWithRenderpass_reuses_framebuffer
        (s1 s2 : Vulkan.Surface) (clear1 clear2 : VideoCore.TextureClear)
        (value1 value2 : VideoCore.ClearValue) (w : Vulkan.World) :
  Vulkan.GetFramebufferView s1 = Vulkan.GetFramebufferView s2 ->
  exists w1 w2 created st1 st2,
    Vulkan.ClearTextureWithRenderpass s1 clear1 value1 w = (Returned tt, w1) /\
    Vulkan.ClearTextureWithRenderpass s2 clear2 value2 w1 = (Returned tt, w2) /\
    (created = [] \/ exists info, created = [Vulkan.createFramebuffer info]) /\
    Vulkan.calls w1
    = Vulkan.calls w ++ created ++ [Vulkan.EnterRenderpass st1; Vulkan.ExitRenderpass] /\
    Vulkan.calls w2
    = Vulkan.calls w1 ++ [Vulkan.EnterRenderpass st2; Vulkan.ExitRenderpass] /\
    Vulkan.framebuffer st2 = Vulkan.framebuffer st1 /\
    Vulkan.clear st2 = value2 /\
    Vulkan.clear_framebuffers w2 = Vulkan.clear_framebuffers w1 /\
    Vulkan.next_handle w2 = Vulkan.next_handle w1.
Proof.
  intros Hview.
  rewrite (ClearTextureWithRenderpass_run s1 clear1 value1 w). cbn zeta.
  destruct (Vulkan.framebuffer_find (Vulkan.GetFramebufferView s1)
                                    (Vulkan.clear_framebuffers w)) as [fb|] eqn:F.
  - eexists _, _, [], _, _. split; [reflexivity|].
    rewrite ClearTextureWithRenderpass_run. cbn zeta. rewrite <- Hview.
    cbn [Vulkan.log_calls Vulkan.clear_framebuffers]. rewrite F.
    split; [reflexivity|]. split; [left; reflexivity|].
    repeat split; reflexivity.
  - eexists _, _, [_], _, _. split; [reflexivity|].
    rewrite ClearTextureWithRenderpass_run. cbn zeta. rewrite <- Hview.
    cbn [Vulkan.clear_framebuffers]. rewrite framebuffer_find_head.
    split; [reflexivity|]. split; [right; eexists; reflexivity|].
    repeat split; reflexivity.
Qed.

Lemma ClearTextureWithRenderpass_reuses_framebuffer_witness :
  let s1 := Vulkan.mkSurface (Fixtures.params0 64 64 1 VideoCore.RGBA8)
                             (Fixtures.some_alloc 7 Vulkan.eR8G8B8A8Unorm)
                             Vulkan.default_traits in
  let s2 := Vulkan.mkSurface (Fixtures.params0 32 32 1 VideoCore.RGB565)
                             (Fixtures.some_alloc 7 Vulkan.eR5G6B5UnormPack16)
                             Vulkan.default_traits in
  Vulkan.GetFramebufferView s1 = Vulkan.GetFramebufferView s2 /\
  exists w1 w2,
    Vulkan.ClearTextureWithRenderpass s1 (VideoCore.mkTextureClear 0 (VideoCore.mkRect 0 8 8 0)) 1
                                      Fixtures.vk_empty = (Returned tt, w1) /\
    Vulkan.ClearTextureWithRenderpass s2 (VideoCore.mkTextureClear 0 (VideoCore.mkRect 0 4 4 0)) 2
                                      w1 = (Returned tt, w2) /\
    Vulkan.next_handle w2 = Vulkan.next_handle w1.
Proof.
  intros s1 s2. split; [reflexivity|].
  destruct (ClearTextureWithRenderpass_reuses_framebuffer
              s1 s2 (VideoCore.mkTextureClear 0 (VideoCore.mkRect 0 8 8 0))
              (VideoCore.mkTextureClear 0 (VideoCore.mkRect 0 4 4 0)) 1 2
              Fixtures.vk_empty eq_refl)
    as (w1 & w2 & _ & _ & _ & H1 & H2 & _ & _ & _ & _ & _ & _ & Hn).
  exists w1, w2. split; [exact H1|]. split; [exact H2 | exact Hn].
Defined.

(** X5. A clear whose rectangle is the surface's whole scaled rectangle
    takes the direct path: it leaves the render pass and records one
    closure; no framebuffer is created or looked up and no render pass is
    entered.  The closure moves the cleared level to the transfer
    destination layout, clears it with [clearDepthStencilImage] when the
    surface type is Depth or DepthStencil and with [clearColorImage]
    otherwise, and moves the level back to the general layout. *)
Theorem ClearTexture_whole_surface
        (surface : Vulkan.Surface) (clear : VideoCore.TextureClear)
        (value : VideoCore.ClearValue) (w : Vulkan.World) :
  VideoCore.clear_rect clear = VideoCore.GetScaledRect (Vulkan.params surface) ->
  VideoCore.type (Vulkan.params surface) <> VideoCore.InvalidType ->
  let type := VideoCore.type (Vulkan.params surface) in
  let image := Vulkan.image (Vulkan.alloc surface) in
  let aspect := Vulkan.aspect_of type in
  let level := VideoCore.clear_level clear in
  let closure :=
    Vulkan.ClearClosure aspect image value (negb (Vulkan.is_depth_type type)) clear in
  Vulkan.ClearTexture surface clear value w
  = (Returned true,
     Vulkan.log_calls w [Vulkan.ExitRenderpass; Vulkan.SchedulerRecord closure])
  /\ forall m,
      Vulkan.run_closure closure m
      = (Returned
           (Vulkan.render_cmdbuf,
            [Vulkan.pipelineBarrier
               [Vulkan.mkBarrier Vulkan.eGeneral Vulkan.eTransferDstOptimal image aspect
                                 level (Some 1)];
             (if Vulkan.is_depth_type type
              then Vulkan.clearDepthStencilImage image Vulkan.eTransferDstOptimal value
                                                 aspect level
              else Vulkan.clearColorImage image Vulkan.eTransferDstOptimal value
                                          aspect level);
             Vulkan.pipelineBarrier
               [Vulkan.mkBarrier Vulkan.eTransferDstOptimal Vulkan.eGeneral image aspect
                                 level (Some 1)]]), m).
Proof.
  intros Hrect Hty type image aspect level closure.
  split.
  - unfold Vulkan.ClearTexture. rewrite (bool_decide_eq_true_2 _ Hrect).
    step_call. erewrite bind_Returned by (apply Vulkan_MakeAspect_run; exact Hty).
    step_call. cbv [mret M_ret ret]. rewrite !Vulkan_log_calls_app.
    subst closure aspect image type. cbn [app].
    destruct (VideoCore.type (Vulkan.params surface)); reflexivity.
  - intros m. subst closure. cbn [Vulkan.run_closure].
    destruct (Vulkan.is_depth_type type); reflexivity.
Qed.

Lemma ClearTexture_whole_surface_witness :
  let s := Vulkan.mkSurface (Fixtures.params0 64 64 2 VideoCore.D24S8)
                            (Fixtures.some_alloc 7 Vulkan.eD24UnormS8Uint)
                            Vulkan.default_traits in
  let clear := VideoCore.mkTextureClear 0 (VideoCore.mkRect 0 128 128 0) in
  VideoCore.clear_rect clear = VideoCore.GetScaledRect (Vulkan.params s) /\
  Vulkan.calls (Vulkan.ClearTexture s clear 5 Fixtures.vk_empty).2
  = [Vulkan.ExitRenderpass;
     Vulkan.SchedulerRecord
       (Vulkan.ClearClosure (Z.lor Vulkan.eDepth Vulkan.eStencil) 7%N 5 false clear)].
Proof.
  intros s clear. split; [reflexivity|].
  rewrite (proj1 (ClearTexture_whole_surface s clear 5 Fixtures.vk_empty
                    eq_refl ltac:(discriminate))).
  reflexivity.
Defined.

(** ** Image layouts *)

Lemma in_range_one old new image aspect level i k :
  Vulkan.in_range (Vulkan.mkBarrier old new image aspect level (Some 1)) i k
  = (image =? i)%N && (k =? level).
Proof.
  unfold Vulkan.in_range. cbn.
  destruct (image =? i)%N; cbn [andb]; [|reflexivity].
  destruct (Z.leb_spec level k), (Z.ltb_spec k (level + 1)), (Z.eqb_spec k level);
    cbn; try reflexivity; lia.
Qed.

Lemma apply_barrier_at old new image aspect level l i k :
  Vulkan.apply_barrier (Vulkan.mkBarrier old new image aspect level (Some 1)) l i k
  = if (image =? i)%N && (k =? level) then new else l i k.
Proof. unfold Vulkan.apply_barrier. rewrite in_range_one. reflexivity. Qed.

Lemma barrier_ok_one old new image aspect level l :
  old <> Vulkan.LayoutUndefined ->
  Vulkan.barrier_ok l (Vulkan.mkBarrier old new image aspect level (Some 1))
  = bool_decide (l image level = old).
Proof.
  intros H. unfold Vulkan.barrier_ok. cbn [Vulkan.oldLayout Vulkan.levelCount
    Vulkan.barrier_image Vulkan.baseMipLevel].
  change (seqZ 0 1) with [0]. cbn [forallb].
  destruct old; [congruence|..]; rewrite Z.add_0_r, andb_true_r; reflexivity.
Qed.

Lemma same_subresource (image : Vulkan.Handle) (level : Z) :
  (image =? image)%N && (level =? level) = true.
Proof. rewrite N.eqb_refl, Z.eqb_refl. reflexivity. Qed.

Lemma other_subresource (a b : Vulkan.Handle) (la lb : Z) :
  (a, la) <> (b, lb) -> (a =? b)%N && (lb =? la) = false.
Proof.
  intros H. destruct (N.eqb_spec a b), (Z.eqb_spec lb la); try reflexivity.
  subst. congruence.
Qed.

Lemma at_subresource (a i : Vulkan.Handle) (la k : Z) :
  (a =? i)%N && (k =? la) = true -> i = a /\ k = la.
Proof.
  intros H. apply andb_true_iff in H as [H1 H2].
  apply N.eqb_eq in H1. apply Z.eqb_eq in H2. auto.
Qed.

(** Rewriting the tracked layouts at the subresources of a closure. *)
Ltac layouts :=
  repeat first
    [ rewrite barrier_ok_one by discriminate
    | rewrite apply_barrier_at
    | rewrite same_subresource
    | rewrite other_subresource by (assumption || (apply not_eq_sym; assumption))
    | match goal with
      | H : ?l ?i ?k = Vulkan.eGeneral |- context [?l ?i ?k] => rewrite H
      end
    | rewrite bool_decide_eq_true_2 by reflexivity
    | progress cbn [andb forallb Vulkan.track Vulkan.command_ok Vulkan.apply_barriers
                    Vulkan.copy_mipLevel Vulkan.srcMipLevel Vulkan.dstMipLevel
                    Vulkan.rect_copy] ].

Ltac layouts_back :=
  intros i k; unfold Vulkan.after_closure; rewrite !apply_barrier_at;
  repeat match goal with
         | |- context [(?a =? i)%N && (k =? ?la)] =>
             let E := fresh "E" in
             destruct ((a =? i)%N && (k =? la)) eqn:E;
             [apply at_subresource in E as [-> ->]|]
         end;
  congruence.

(** X6. Every closure the runtime records keeps the images in the general
    layout between closures.  When the image levels a closure transfers
    from or to are in the general layout (and, for a copy or a blit, the
    source level is not the destination level), the host accepts each of
    its commands in order: every barrier starts from the layout the level
    is in, every clear, copy and blit finds its levels in the layout it
    states, and at the end every level of every image is in the layout it
    had before.  The initial barrier of a new image instead brings all its
    levels to the general layout. *)
Theorem closures_keep_general_layout
        (c : Vulkan.Closure) (m m' : Vulkan.Memory) (cb : Vulkan.CmdBuf)
        (cmds : list Vulkan.Command) (l : Vulkan.Layouts) :
  NoDup (Vulkan.subresources c) ->
  Forall (fun s => l s.1 s.2 = Vulkan.eGeneral) (Vulkan.subresources c) ->
  Vulkan.run_closure c m = (Returned (cb, cmds), m') ->
  exists l',
    Vulkan.track cmds l = Some l' /\
    forall i level, l' i level = Vulkan.after_closure c l i level.
Proof.
  intros Hnd Hgen Hrun. destruct c; cbn [Vulkan.subresources] in *.
  - (* the initial barrier *)
    injection Hrun as <- <- <-. eexists. split; [reflexivity|].
    intros i k. unfold Vulkan.after_closure, Vulkan.apply_barrier, Vulkan.in_range.
    cbn. rewrite andb_true_r. reflexivity.
  - (* clear *)
    apply Forall_cons_1 in Hgen as [H1 _]. cbn [fst snd] in H1.
    cbn [Vulkan.run_closure] in Hrun. injection Hrun as <- <- <-.
    destruct is_color; layouts; (eexists; split; [reflexivity|]); layouts_back.
  - (* copy *)
    apply Forall_cons_1 in Hgen as [H1 Hgen]. apply Forall_cons_1 in Hgen as [H2 _].
    cbn [fst snd] in H1, H2.
    apply list.NoDup_cons in Hnd as [Hne _]. rewrite list_elem_of_singleton in Hne.
    cbn [Vulkan.run_closure] in Hrun. injection Hrun as <- <- <-.
    layouts. eexists. split; [reflexivity|]. layouts_back.
  - (* blit *)
    apply Forall_cons_1 in Hgen as [H1 Hgen]. apply Forall_cons_1 in Hgen as [H2 _].
    cbn [fst snd] in H1, H2.
    apply list.NoDup_cons in Hnd as [Hne _]. rewrite list_elem_of_singleton in Hne.
    cbn [Vulkan.run_closure] in Hrun. injection Hrun as <- <- <-.
    layouts. eexists. split; [reflexivity|]. layouts_back.
  - (* upload *)
    apply Forall_cons_1 in Hgen as [H1 _]. cbn [fst snd] in H1.
    cbn [Vulkan.run_closure] in Hrun. revert Hrun.
    cbv [mbind M_bind bind mret M_ret ret].
    destruct (negb (Z.land aspect Vulkan.eStencil =? 0)).
    + destruct (Vulkan.UnpackDepthStencil staging format m) as [[off| |] m1];
        try discriminate.
      intros [= <- <- <-]. layouts. eexists. split; [reflexivity|]. layouts_back.
    + intros [= <- <- <-]. layouts. eexists. split; [reflexivity|]. layouts_back.
  - (* download *)
    apply Forall_cons_1 in Hgen as [H1 _]. cbn [fst snd] in H1.
    cbn [Vulkan.run_closure] in Hrun. injection Hrun as <- <- <-.
    layouts. eexists. split; [reflexivity|]. layouts_back.
Qed.

Lemma closures_keep_general_layout_witness :
  let blit := VideoCore.mkTextureBlit 0 1 0 0 (VideoCore.mkRect 0 64 64 0)
                                      (VideoCore.mkRect 0 32 32 0) in
  let c := Vulkan.BlitClosure 7%N Vulkan.eColor Vulkan.eNearest 7%N blit in
  let l : Vulkan.Layouts := fun _ _ => Vulkan.eGeneral in
  NoDup (Vulkan.subresources c) /\
  exists cmds l',
    Vulkan.run_closure c (Vulkan.mkMemory [] []) = (Returned (Vulkan.render_cmdbuf, cmds),
                                                    Vulkan.mkMemory [] []) /\
    Vulkan.track cmds l = Some l' /\
    l' 7%N 0 = Vulkan.eGeneral /\ l' 7%N 1 = Vulkan.eGeneral.
Proof.
  intros blit c l.
  assert (NoDup (Vulkan.subresources c)) as Hnd.
  { apply list.NoDup_cons. split; [|apply NoDup_singleton].
    rewrite list_elem_of_singleton. discriminate. }
  split; [exact Hnd|].
  eexists. 
  destruct (closures_keep_general_layout c (Vulkan.mkMemory [] []) (Vulkan.mkMemory [] [])
              Vulkan.render_cmdbuf _ l Hnd
              ltac:(repeat constructor) eq_refl) as (l' & Htrack & Hback).
  exists l'. split; [reflexivity|]. split; [exact Htrack|].
  rewrite !Hback. split; reflexivity.
Defined.

(** A blit from a level of an image to the same level is refused by the
    host model: the second barrier of the first call finds the level
    already moved to the transfer source layout. *)
Lemma blit_onto_itself_is_refused :
  let blit := VideoCore.mkTextureBlit 0 0 0 0 (VideoCore.mkRect 0 64 64 0)
                                      (VideoCore.mkRect 0 32 32 0) in
  let c := Vulkan.BlitClosure 7%N Vulkan.eColor Vulkan.eNearest 7%N blit in
  ~ NoDup (Vulkan.subresources c) /\
  forall cmds, Vulkan.run_closure c (Vulkan.mkMemory [] [])
               = (Returned (Vulkan.render_cmdbuf, cmds), Vulkan.mkMemory [] []) ->
               Vulkan.track cmds (fun _ _ => Vulkan.eGeneral) = None.
Proof.
  intros blit c. split.
  - intros H. apply list.NoDup_cons in H as [H _]. apply H. left.
  - intros cmds [= <-]. reflexivity.
Qed.

(** ** Uploading depth-stencil data *)

(** The unpacking of [n] staged texels returns the offset of the stencil
    plane and splits every word. *)
Lemma UnpackDepthStencil_run (n : nat) (data : Vulkan.StagingData) (m : Vulkan.Memory) :
  20 * Z.of_nat n < 2 ^ 32 ->
  Vulkan.size data = 5 * Z.of_nat n ->
  length (Vulkan.mem m) = (5 * n)%nat ->
  exists bytes',
    Vulkan.UnpackDepthStencil data Vulkan.eD24UnormS8Uint m
    = (Returned (4 * Z.of_nat n), Vulkan.mkMemory bytes' (Vulkan.mem_log m)) /\
    length bytes' = length (Vulkan.mem m) /\
    (forall i, (i < n)%nat ->
       exists word,
         Vulkan.MakeInt_u32 (Vulkan.mem m) (4 * i) = Some word /\
         Vulkan.MakeInt_u32 bytes' (4 * i) = Some (Z.shiftr word 8) /\
         bytes' !! (4 * n + i)%nat = Some (byte.of_Z (Z.land word 255))).
Proof.
  intros Hbound Hsize Hlen. change (2 ^ 32) with 4294967296 in Hbound.
  assert (wrap32 (4 * Vulkan.size data) / 5 = 4 * Z.of_nat n) as Hoff.
  { rewrite Hsize. rewrite wrap32_small by (change (2 ^ 32) with 4294967296; lia).
    replace (4 * (5 * Z.of_nat n)) with (4 * Z.of_nat n * 5) by lia.
    apply Z.div_mul. lia. }
  destruct m as [bytes log]. cbn [Vulkan.mem Vulkan.mem_log] in *.
  destruct (unpack_loop_spec n ltac:(change (2 ^ 32) with 4294967296; lia)
              n 0%nat (Z.to_nat (Vulkan.size data)) bytes log
              ltac:(lia) ltac:(lia) Hlen)
    as (bytes' & Hrun & Hlen' & _ & Hsplit).
  exists bytes'. split; [|split; [exact Hlen'|]].
  - unfold Vulkan.UnpackDepthStencil. cbv [mbind M_bind bind]. rewrite Hoff.
    replace (Z.of_nat (5 * n)) with (Vulkan.size data) in Hrun by lia.
    replace (Z.of_nat (4 * 0)) with 0 in Hrun by lia.
    replace (Z.of_nat (4 * n + 0)) with (4 * Z.of_nat n) in Hrun by lia.
    rewrite Hrun.
    replace (Z.of_nat (4 * n)) with (4 * Z.of_nat n) by lia.
    rewrite Z.eqb_refl. reflexivity.
  - intros i Hi. apply Hsplit. lia.
Qed.

(** X7. The closure recorded by an upload to an image that has a stencil
    aspect and host format D24S8, run on a staging buffer of [n] texels at
    five bytes each: it unpacks the mapped span in place and issues one
    buffer-to-image copy with two regions over the same rectangle and
    level, the first for the depth aspect and the second for the stencil
    aspect.  The unpacking works from the start of the span, whatever the
    upload's buffer offset: texel [i] has its depth word at span byte [4i]
    and its stencil byte at span byte [4n + i].  The regions start
    [upload.buffer_offset] bytes after these planes: the depth region at
    span byte [upload.buffer_offset] and the stencil region at span byte
    [upload.buffer_offset + 4n].  So the regions start at the planes
    exactly when the upload's buffer offset is 0, and then the copy reads
    the depth word and the stencil byte of every texel from where the
    unpacking put them. *)
Theorem Upload_closure_splits_depth_stencil
        (n : nat) (aspect : Z) (image : Vulkan.Handle) (staging : Vulkan.StagingData)
        (upload : VideoCore.BufferTextureCopy) (m : Vulkan.Memory) :
  Z.land aspect Vulkan.eStencil <> 0 ->
  20 * Z.of_nat n < 2 ^ 32 ->
  Vulkan.size staging = 5 * Z.of_nat n ->
  length (Vulkan.mem m) = (5 * n)%nat ->
  0 <= Vulkan.staging_offset staging ->
  0 <= VideoCore.buffer_offset upload ->
  Vulkan.staging_offset staging + VideoCore.buffer_offset upload + 4 * Z.of_nat n < 2 ^ 64 ->
  let first := Vulkan.rect_copy staging upload aspect in
  let region (offset mask : Z) :=
    Vulkan.mkBufferImageCopy offset (Vulkan.bufferRowLength first)
      (Vulkan.bufferImageHeight first) mask (Vulkan.copy_mipLevel first)
      (Vulkan.imageOffset first) (Vulkan.imageExtent first) in
  exists bytes' pre post depth_offset stencil_offset,
    Vulkan.run_closure
      (Vulkan.UploadClosure aspect image Vulkan.eD24UnormS8Uint staging upload) m
    = (Returned
         (Vulkan.render_cmdbuf,
          [pre;
           Vulkan.copyBufferToImage (Vulkan.buffer staging) image
             Vulkan.eTransferDstOptimal
             [region depth_offset Vulkan.eDepth;
              region stencil_offset Vulkan.eStencil];
           post]),
       Vulkan.mkMemory bytes' (Vulkan.mem_log m)) /\
    length bytes' = length (Vulkan.mem m) /\
    (forall i, (i < n)%nat ->
       exists word,
         Vulkan.MakeInt_u32 (Vulkan.mem m) (4 * i) = Some word /\
         Vulkan.MakeInt_u32 bytes' (4 * i) = Some (Z.shiftr word 8) /\
         bytes' !! (4 * n + i)%nat = Some (byte.of_Z (Z.land word 255))) /\
    Vulkan.span_index staging depth_offset = VideoCore.buffer_offset upload /\
    Vulkan.span_index staging stencil_offset
    = VideoCore.buffer_offset upload + 4 * Z.of_nat n /\
    (Vulkan.span_index staging depth_offset = 0 /\
     Vulkan.span_index staging stencil_offset = 4 * Z.of_nat n
     <-> VideoCore.buffer_offset upload = 0) /\
    (VideoCore.buffer_offset upload = 0 ->
     forall i, (i < n)%nat ->
       exists word,
         Vulkan.MakeInt_u32 (Vulkan.mem m) (4 * i) = Some word /\
         Vulkan.MakeInt_u32 bytes'
           (Z.to_nat (Vulkan.span_index staging depth_offset) + 4 * i)
         = Some (Z.shiftr word 8) /\
         bytes' !! (Z.to_nat (Vulkan.span_index staging stencil_offset) + i)%nat
         = Some (byte.of_Z (Z.land word 255))).
Proof.
  intros Hst Hbound Hsize Hlen Hso Hbo Hfit first region.
  destruct (UnpackDepthStencil_run n staging m Hbound Hsize Hlen)
    as (bytes' & Hrun & Hlen' & Hsplit).
  assert (Vulkan.bufferOffset first
          = Vulkan.staging_offset staging + VideoCore.buffer_offset upload) as Hfirst.
  { subst first. cbn [Vulkan.rect_copy Vulkan.bufferOffset]. unfold wrap64.
    apply Z.mod_small. lia. }
  assert (wrap64 (Vulkan.bufferOffset first + 4 * Z.of_nat n)
          = Vulkan.staging_offset staging + VideoCore.buffer_offset upload
            + 4 * Z.of_nat n) as Hsecond.
  { rewrite Hfirst. unfold wrap64. apply Z.mod_small. lia. }
  exists bytes'. eexists _, _.
  exists (Vulkan.bufferOffset first),
         (wrap64 (Vulkan.bufferOffset first + 4 * Z.of_nat n)).
  split; [|split; [exact Hlen'|split; [exact Hsplit|]]].
  { cbn [Vulkan.run_closure]. apply Z.eqb_neq in Hst. rewrite Hst. cbn [negb].
    cbv [mbind M_bind bind mret M_ret ret]. rewrite Hrun. reflexivity. }
  unfold Vulkan.span_index. rewrite Hsecond, Hfirst.
  split; [lia|]. split; [lia|]. split; [lia|].
  intros Hzero i Hi. destruct (Hsplit i Hi) as (word & Hold & Hdepth & Hstencil).
  exists word. split; [exact Hold|].
  replace (Z.to_nat (Vulkan.staging_offset staging + VideoCore.buffer_offset upload
                     - Vulkan.staging_offset staging) + 4 * i)%nat
    with (4 * i)%nat by lia.
  replace (Z.to_nat (Vulkan.staging_offset staging + VideoCore.buffer_offset upload
                     + 4 * Z.of_nat n - Vulkan.staging_offset staging) + i)%nat
    with (4 * n + i)%nat by lia.
  split; assumption.
Qed.

Lemma Upload_closure_splits_depth_stencil_witness :
  let bytes := map byte.of_Z [17; 34; 51; 68;  1; 2; 3; 4;  0; 0] in
  let staging := Vulkan.mkStaging 3%N 10 bytes 256 in
  let upload := VideoCore.mkBufferTextureCopy 0 10 (VideoCore.mkRect 0 1 2 0) 0 in
  Z.land 6 Vulkan.eStencil <> 0 /\
  exists bytes' pre post depth_region stencil_region,
    Vulkan.run_closure
      (Vulkan.UploadClosure 6 7%N Vulkan.eD24UnormS8Uint staging upload)
      (Vulkan.mkMemory bytes [])
    = (Returned (Vulkan.render_cmdbuf,
                 [pre;
                  Vulkan.copyBufferToImage 3%N 7%N Vulkan.eTransferDstOptimal
                                           [depth_region; stencil_region];
                  post]),
       Vulkan.mkMemory bytes' []) /\
    Vulkan.bufferOffset depth_region = 256 /\
    Vulkan.bufferOffset stencil_region = 264 /\
    Vulkan.span_index staging (Vulkan.bufferOffset depth_region) = 0 /\
    Vulkan.span_index staging (Vulkan.bufferOffset stencil_region) = 8 /\
    Vulkan.MakeInt_u32 bytes' 0 = Some 4469538 /\
    Vulkan.MakeInt_u32 bytes' 4 = Some 262914 /\
    bytes' !! 8%nat = Some (byte.of_Z 17) /\
    bytes' !! 9%nat = Some (byte.of_Z 1).
Proof.
  intros bytes staging upload. split; [discriminate|].
  destruct (Upload_closure_splits_depth_stencil 2 6 7%N staging upload
              (Vulkan.mkMemory bytes []) ltac:(discriminate) eq_refl eq_refl eq_refl
              ltac:(discriminate) ltac:(discriminate) eq_refl)
    as (bytes' & pre & post & depth_offset & stencil_offset & Hrun & _ & Hsplit
        & Hdepth & Hstencil & _).
  unfold Vulkan.span_index in Hdepth, Hstencil.
  cbn in Hdepth, Hstencil.
  assert (depth_offset = 256) as -> by lia.
  assert (stencil_offset = 264) as -> by lia.
  exists bytes', pre, post. eexists _, _. split; [exact Hrun|].
  destruct (Hsplit 0%nat ltac:(lia)) as (w0 & H0 & D0 & S0).
  destruct (Hsplit 1%nat ltac:(lia)) as (w1 & H1 & D1 & S1).
  vm_compute in H0, H1. injection H0 as <-. injection H1 as <-.
  repeat split; first [reflexivity | exact D0 | exact D1 | exact S0 | exact S1].
Defined.

(** ** Downloading from a scaled surface *)

(** X8. [Surface::Download] on a surface that is not depth-stencil and
    whose scale is not 1 never reads the surface's own image back.  It
    builds an unscaled surface of the rectangle's width (also its stride)
    and height, blits the scaled rectangle of the surface into it (with
    the filter of the surface's pixel format), records one image-to-buffer
    copy whose source is the unscaled image, rectangle moved to the origin,
    level 0, and pools the unscaled surface's allocation. *)
Theorem Download_scaled_blits_then_reads
        (instance : Vulkan.Instance) (this : Vulkan.Surface)
        (download : VideoCore.BufferTextureCopy) (staging : Vulkan.StagingData)
        (w : Vulkan.World) (unscaled : Vulkan.Surface) (w1 : Vulkan.World) :
  VideoCore.type (Vulkan.params this) <> VideoCore.DepthStencil ->
  VideoCore.type (Vulkan.params this) <> VideoCore.InvalidType ->
  VideoCore.res_scale (Vulkan.params this) <> 1 ->
  let rect := VideoCore.texture_rect download in
  let scaled_rect := VideoCore.Rect_scale rect (VideoCore.res_scale (Vulkan.params this)) in
  let unscaled_rect :=
    VideoCore.mkRect 0 (VideoCore.GetHeight rect) (VideoCore.GetWidth rect) 0 in
  let unscaled_params :=
    VideoCore.set_geometry (Vulkan.params this) (VideoCore.GetWidth rect)
                           (VideoCore.GetWidth rect) (VideoCore.GetHeight rect) 1 in
  Vulkan.Surface_new instance unscaled_params (Vulkan.log_calls w [Vulkan.ExitRenderpass])
  = (Returned unscaled, w1) ->
  exists w',
    Vulkan.Download instance this download staging w = (Returned tt, w') /\
    Vulkan.params unscaled = unscaled_params /\
    Vulkan.calls w' =
      Vulkan.calls w1
      ++ [Vulkan.ExitRenderpass;
          Vulkan.SchedulerRecord
            (Vulkan.BlitClosure (Vulkan.image (Vulkan.alloc this))
               (Vulkan.aspect_of (VideoCore.type (Vulkan.params this)))
               (Vulkan.MakeFilter (VideoCore.pixel_format (Vulkan.params this)))
               (Vulkan.image (Vulkan.alloc unscaled))
               (VideoCore.mkTextureBlit (VideoCore.texture_level download) 0 0 0
                                        scaled_rect unscaled_rect));
          Vulkan.ExitRenderpass;
          Vulkan.SchedulerRecord
            (Vulkan.DownloadClosure (Vulkan.aspect (Vulkan.alloc unscaled))
               (Vulkan.image (Vulkan.alloc unscaled)) staging
               (VideoCore.mkBufferTextureCopy
                  (VideoCore.buffer_offset download) (VideoCore.buffer_size download)
                  unscaled_rect 0));
          Vulkan.DownloadCommit (Vulkan.size staging)] /\
    Vulkan.recorded_readbacks (Vulkan.calls w')
    = Vulkan.recorded_readbacks (Vulkan.calls w1)
      ++ [Vulkan.image (Vulkan.alloc unscaled)] /\
    (VideoCore.pixel_format (Vulkan.params this) <> VideoCore.Invalid ->
     Vulkan.texture_recycler w' =
       (Vulkan.mkTag (Vulkan.alloc_format (Vulkan.alloc unscaled))
                     (VideoCore.pixel_format (Vulkan.params this))
                     (VideoCore.texture_type (Vulkan.params this))
                     (VideoCore.GetWidth rect) (VideoCore.GetHeight rect),
        Vulkan.alloc unscaled) :: Vulkan.texture_recycler w1).
Proof.
  intros Hds Hty Hsc rect scaled_rect unscaled_rect unscaled_params Hnew.
  destruct (Surface_new_inv _ _ _ _ _ Hnew) as [Hp _].
  assert (VideoCore.type (Vulkan.params unscaled) = VideoCore.type (Vulkan.params this))
    as Huty by (rewrite Hp; reflexivity).
  assert (VideoCore.pixel_format (Vulkan.params unscaled)
          = VideoCore.pixel_format (Vulkan.params this)) as Hupf by (rewrite Hp; reflexivity).
  unfold Vulkan.Download. rewrite Vulkan_Download_fuel_S. step_call.
  rewrite (bool_decide_eq_false_2 _ Hds).
  apply Z.eqb_neq in Hsc. rewrite Hsc. cbn [negb].
  unfold Vulkan.ScaledDownload.
  fold rect. fold scaled_rect. fold unscaled_rect. fold unscaled_params.
  step_with Hnew.
  erewrite bind_Returned by (apply Vulkan_BlitTextures_run; exact Hty).
  erewrite bind_Returned
    by (apply Vulkan_Download_direct; [rewrite Huty; exact Hds | rewrite Hp; reflexivity]).
  rewrite Vulkan_Surface_delete_cases, !Vulkan_log_calls_app.
  eexists. split; [reflexivity|]. split; [exact Hp|].
  destruct w1 as [rec1 fbs1 nh1 cs1].
  cbn [Vulkan.calls Vulkan.texture_recycler Vulkan.set_recycler Vulkan.log_calls app].
  split; [reflexivity|]. split.
  - unfold Vulkan.recorded_readbacks. rewrite flat_map_app. reflexivity.
  - intros Hne. rewrite Hupf, (bool_decide_eq_true_2 _ Hne). rewrite Hp.
    cbn [VideoCore.pixel_format VideoCore.texture_type unscaled_params
         VideoCore.set_geometry].
    unfold VideoCore.GetScaledWidth, VideoCore.GetScaledHeight.
    cbn [VideoCore.width VideoCore.height VideoCore.res_scale].
    rewrite !Z.mul_1_r. subst unscaled_params.
    cbn [VideoCore.width VideoCore.height VideoCore.set_geometry].
    unfold VideoCore.GetWidth, VideoCore.GetHeight.
    rewrite !wrap32_idem. reflexivity.
Qed.

Lemma Download_scaled_blits_then_reads_witness :
  let this := Vulkan.mkSurface (Fixtures.params0 64 64 2 VideoCore.RGBA8)
                               (Fixtures.some_alloc 7 Vulkan.eR8G8B8A8Unorm)
                               (Vulkan.GetTraits Fixtures.capable VideoCore.RGBA8) in
  let download := VideoCore.mkBufferTextureCopy 0 4096 (VideoCore.mkRect 8 40 40 8) 0 in
  let staging := Vulkan.mkStaging 3%N 4096 [] 0 in
  VideoCore.res_scale (Vulkan.params this) <> 1 /\
  exists w',
    Vulkan.Download Fixtures.capable this download staging (Vulkan.mkWorld [] [] 20%N [])
    = (Returned tt, w') /\
    Vulkan.recorded_readbacks (Vulkan.calls w') = [20%N] /\
    length (Vulkan.texture_recycler w') = 1%nat.
Proof.
  intros this download staging. split; [discriminate|].
  pose proof (Download_scaled_blits_then_reads Fixtures.capable this download staging
                (Vulkan.mkWorld [] [] 20%N [])) as T.
  cbn zeta in T.
  edestruct (T _ _ ltac:(discriminate) ltac:(discriminate) ltac:(discriminate)
               ltac:(vm_compute; reflexivity))
    as (w' & Hrun & _ & _ & Hrb & Hrec).
  exists w'. split; [exact Hrun|]. split.
  - rewrite Hrb. vm_compute. reflexivity.
  - rewrite (Hrec ltac:(discriminate)). reflexivity.
Defined.

(** ** The pool is filed by host format *)

Lemma Allocate_consistent instance width height pixel_format type format usage w a w' :
  Vulkan.recycler_consistent w ->
  Vulkan.Allocate instance width height pixel_format type format usage w = (Returned a, w') ->
  Vulkan.alloc_format a = format /\ Vulkan.recycler_consistent w'.
Proof.
  unfold Vulkan.recycler_consistent.
  destruct w as [rec fbs nh cs]. unfold Vulkan.Allocate.
  destruct (bool_decide (pixel_format = VideoCore.Invalid)); [discriminate|].
  cbv [mbind M_bind bind mret M_ret ret get modify abort Vulkan.create Vulkan.call
       Vulkan.texture_recycler Vulkan.clear_framebuffers Vulkan.next_handle Vulkan.calls
       Vulkan.set_recycler Vulkan.aspect Vulkan.image Vulkan.alloc_format].
  intros Hc.
  destruct (Vulkan.recycler_find _ rec) as [[i b]|] eqn:F.
  - intros [= -> <-]. destruct (Vulkan_find_Some _ _ _ _ F) as (r1 & r2 & Hr & Hd).
    rewrite Hd. subst rec. apply Forall_app in Hc as [H1 H2].
    apply Forall_cons_1 in H2 as [Ha H2]. cbn in Ha. split; [auto|].
    apply Forall_app. auto.
  - destruct (negb _); [discriminate|].
    destruct (1 <? _), (negb _), (bool_decide (pixel_format = VideoCore.RGBA8));
      intros [= <- <-]; auto.
Qed.

Lemma Surface_delete_consistent s w w' :
  Vulkan.recycler_consistent w ->
  Vulkan.Surface_delete s w = (Returned tt, w') ->
  Vulkan.recycler_consistent w'.
Proof.
  unfold Vulkan.recycler_consistent. intros Hc. rewrite Vulkan_Surface_delete_cases.
  intros [= <-]. destruct w as [rec fbs nh cs]. cbn in *.
  destruct (bool_decide _); [|exact Hc]. apply Forall_cons_2; [reflexivity | exact Hc].
Qed.

(** The host format and usage [Allocate(width, height, format, type)]
    settles on. *)
Lemma Allocate_format_run instance width height format type w :
  VideoCore.GetFormatType format <> VideoCore.InvalidType ->
  let traits := Vulkan.GetTraits instance format in
  let aspect := Vulkan.aspect_of (VideoCore.GetFormatType format) in
  let is_suitable :=
    Vulkan.transfer_support traits && Vulkan.attachment_support traits
    && (Vulkan.blit_support traits || negb (Z.land aspect Vulkan.eDepth =? 0)) in
  Vulkan.Allocate_format instance width height format type w
  = Vulkan.Allocate instance width height format type
      (if is_suitable then Vulkan.native traits else Vulkan.fallback traits)
      (if is_suitable then Vulkan.traits_usage traits
       else Vulkan.GetImageUsage instance aspect) w.
Proof.
  intros Hty traits aspect is_suitable. unfold Vulkan.Allocate_format.
  erewrite bind_Returned by (apply Vulkan_MakeAspect_run; exact Hty). reflexivity.
Qed.

Lemma GetFormatType_valid f :
  f <> VideoCore.Invalid -> VideoCore.GetFormatType f <> VideoCore.InvalidType.
Proof. destruct f; intros H; try discriminate. congruence. Qed.

(** X9. Filing by host format is an invariant of the pool.  When every
    pooled allocation is filed under the host format it has, [Allocate]
    returns an allocation of the host format that was asked for, whether
    it comes from the pool or from the host, and leaves the pool so filed;
    so do the two surface constructors and the surface destructor, which
    files the allocation under the format it has. *)
Theorem recycler_stays_consistent (instance : Vulkan.Instance) (w : Vulkan.World) :
  Vulkan.recycler_consistent w ->
  (forall width height pixel_format type format usage a w',
      Vulkan.Allocate instance width height pixel_format type format usage w
      = (Returned a, w') ->
      Vulkan.alloc_format a = format /\ Vulkan.recycler_consistent w')
  /\ (forall p s w',
         Vulkan.Surface_new instance p w = (Returned s, w') ->
         Vulkan.recycler_consistent w')
  /\ (forall p format usage s w',
         Vulkan.Surface_new_format instance p format usage w = (Returned s, w') ->
         Vulkan.alloc_format (Vulkan.alloc s) = format /\ Vulkan.recycler_consistent w')
  /\ (forall s w',
         Vulkan.Surface_delete s w = (Returned tt, w') ->
         Vulkan.recycler_consistent w').
Proof.
  intros Hc. split; [|split; [|split]].
  - intros. eapply Allocate_consistent; eauto.
  - intros p s w'. unfold Vulkan.Surface_new.
    destruct (bool_decide (VideoCore.pixel_format p ≠ VideoCore.Invalid)) eqn:E.
    + apply bool_decide_eq_true in E.
      cbv [mbind M_bind bind mret M_ret ret].
      rewrite (Allocate_format_run instance _ _ _ _ w (GetFormatType_valid _ E)).
      cbn zeta.
      destruct (Vulkan.Allocate _ _ _ _ _ _ _ w) as [[a| |] w1] eqn:Ha; try discriminate.
      intros [= <- <-]. eapply Allocate_consistent; eauto.
    + intros [= <- <-]. exact Hc.
  - intros p format usage s w'. unfold Vulkan.Surface_new_format.
    destruct (bool_decide (format ≠ Vulkan.eUndefined)) eqn:E.
    + cbv [mbind M_bind bind mret M_ret ret].
      destruct (Vulkan.Allocate _ _ _ _ _ _ _ w) as [[a| |] w1] eqn:Ha; try discriminate.
      intros [= <- <-]. eapply Allocate_consistent; eauto.
    + intros [= <- <-]. split; [|exact Hc].
      destruct (decide (format = Vulkan.eUndefined)) as [->|Hne]; [reflexivity|].
      rewrite (bool_decide_eq_true_2 _ Hne) in E. discriminate.
  - intros s w'. apply Surface_delete_consistent. exact Hc.
Qed.

Lemma recycler_stays_consistent_witness :
  let tag := Vulkan.mkTag Vulkan.eR8G8B8A8Unorm VideoCore.RGBA8 VideoCore.Texture2D 64 64 in
  let w := Vulkan.mkWorld [(tag, Fixtures.some_alloc 7 Vulkan.eR8G8B8A8Unorm)] [] 20%N [] in
  Vulkan.recycler_consistent w /\
  exists a w',
    Vulkan.Allocate Fixtures.capable 64 64 VideoCore.RGBA8 VideoCore.Texture2D
                    Vulkan.eR8G8B8A8Unorm 0 w = (Returned a, w') /\
    Vulkan.alloc_format a = Vulkan.eR8G8B8A8Unorm.
Proof.
  intros tag w.
  assert (Vulkan.recycler_consistent w) as Hc by (repeat constructor).
  split; [exact Hc|].
  assert (exists a w',
             Vulkan.Allocate Fixtures.capable 64 64 VideoCore.RGBA8 VideoCore.Texture2D
                             Vulkan.eR8G8B8A8Unorm 0 w = (Returned a, w'))
    as (a & w' & Ha) by (vm_compute; eauto).
  exists a, w'. split; [exact Ha|].
  exact (proj1 (proj1 (recycler_stays_consistent Fixtures.capable w Hc)
                  64 64 VideoCore.RGBA8 VideoCore.Texture2D Vulkan.eR8G8B8A8Unorm 0
                  a w' Ha)).
Defined.

(** X10. Destroying a surface and constructing one from the same
    parameters is free.  Over a pool filed by host format, let a surface
    be constructed from parameters whose pixel format is not Invalid; when
    no other allocation is pooled under its tag, destroying it and
    constructing a surface from the same parameters again returns the same
    surface (the same image and views), makes no host call, hands out no
    handle and leaves the runtime exactly as it was before the surface was
    destroyed. *)
Theorem Surface_delete_then_new_reuses
        (instance : Vulkan.Instance) (p : VideoCore.SurfaceParams)
        (s : Vulkan.Surface) (w0 w : Vulkan.World) :
  Vulkan.recycler_consistent w0 ->
  VideoCore.pixel_format p <> VideoCore.Invalid ->
  Vulkan.Surface_new instance p w0 = (Returned s, w) ->
  (forall a,
      (Vulkan.mkTag (Vulkan.alloc_format (Vulkan.alloc s)) (VideoCore.pixel_format p)
                    (VideoCore.texture_type p) (VideoCore.GetScaledWidth p)
                    (VideoCore.GetScaledHeight p), a) ∉ Vulkan.texture_recycler w) ->
  (Vulkan.Surface_delete s ≫= fun _ => Vulkan.Surface_new instance p) w = (Returned s, w).
Proof.
  intros Hc Hpf Hnew _.
  pose proof (GetFormatType_valid _ Hpf) as Hty.
  unfold Vulkan.Surface_new in Hnew |- *.
  rewrite (bool_decide_eq_true_2 _ Hpf) in Hnew |- *.
  revert Hnew. cbv [mbind M_bind bind mret M_ret ret].
  rewrite (Allocate_format_run instance _ _ _ _ w0 Hty). cbn zeta.
  destruct (Vulkan.Allocate _ _ _ _ _ _ _ w0) as [[a| |] w1] eqn:Ha; try discriminate.
  intros [= <- <-].
  destruct (Allocate_consistent _ _ _ _ _ _ _ _ _ _ Hc Ha) as [Hf _].
  rewrite Vulkan_Surface_delete_cases.
  cbn [Vulkan.params Vulkan.alloc]. rewrite (bool_decide_eq_true_2 _ Hpf).
  rewrite Allocate_format_run by exact Hty. cbn zeta.
  rewrite Hf. destruct w1 as [rec fbs nh cs].
  unfold Vulkan.Allocate. rewrite (bool_decide_eq_false_2 _ Hpf).
  cbv [mbind M_bind bind mret M_ret ret get modify Vulkan.set_recycler
       Vulkan.texture_recycler Vulkan.clear_framebuffers Vulkan.next_handle Vulkan.calls].
  cbn [Vulkan.recycler_find].
  match goal with
  | |- context [Vulkan.tag_eqb ?t ?t] =>
      assert (Vulkan.tag_eqb t t = true) as -> by (apply Vulkan_tag_eqb_eq; reflexivity)
  end.
  reflexivity.
Qed.

Lemma Surface_delete_then_new_reuses_witness :
  let p := Fixtures.params0 64 64 2 VideoCore.RGBA8 in
  exists s w,
    Vulkan.Surface_new Fixtures.capable p Fixtures.vk_empty = (Returned s, w) /\
    (Vulkan.Surface_delete s ≫= fun _ => Vulkan.Surface_new Fixtures.capable p) w
    = (Returned s, w).
Proof.
  intros p.
  assert (exists s w, Vulkan.Surface_new Fixtures.capable p Fixtures.vk_empty
                      = (Returned s, w) /\ Vulkan.texture_recycler w = [])
    as (s & w & Hnew & Hrec) by (vm_compute; eauto).
  exists s, w. split; [exact Hnew|].
  apply (Surface_delete_then_new_reuses Fixtures.capable p s Fixtures.vk_empty w).
  - constructor.
  - discriminate.
  - exact Hnew.
  - intros a Ha. rewrite Hrec in Ha. inversion Ha.
Defined.

(** X11. The same on OpenGL, where the tag is built from the parameters
    alone: destroying a surface whose pixel format is not Invalid and
    constructing one from its parameters returns the same surface with the
    same texture, makes no host call and leaves the runtime as it was,
    when no other texture is pooled under the tag. *)
Theorem OpenGL_Surface_delete_then_new_reuses
        (driver : OpenGL.Driver) (g : OpenGL.Surface) (w : OpenGL.World) :
  VideoCore.pixel_format (OpenGL.params g) <> VideoCore.Invalid ->
  (forall t,
      (OpenGL.mkTag (VideoCore.pixel_format (OpenGL.params g))
                    (VideoCore.texture_type (OpenGL.params g))
                    (VideoCore.GetScaledWidth (OpenGL.params g))
                    (VideoCore.GetScaledHeight (OpenGL.params g))
                    (VideoCore.levels (OpenGL.params g)), t) ∉ OpenGL.texture_recycler w) ->
  (OpenGL.Surface_delete g ≫= fun _ => OpenGL.Surface_new driver (OpenGL.params g)) w
  = (Returned g, w).
Proof.
  intros Hpf _. destruct g as [p t], w as [rec rf df cur nh cs].
  cbn [OpenGL.params] in *.
  unfold OpenGL.Surface_delete, OpenGL.Surface_new, OpenGL.Allocate.
  cbn [OpenGL.params OpenGL.texture]. rewrite (bool_decide_eq_true_2 _ Hpf).
  cbv [mbind M_bind bind mret M_ret ret get modify OpenGL.set_recycler
       OpenGL.texture_recycler OpenGL.read_fbo OpenGL.draw_fbo OpenGL.cur_state
       OpenGL.next_handle OpenGL.calls].
  cbn [OpenGL.recycler_find].
  match goal with
  | |- context [OpenGL.tag_eqb ?t ?t] =>
      assert (OpenGL.tag_eqb t t = true) as -> by (apply OpenGL_tag_eqb_eq; reflexivity)
  end.
  reflexivity.
Qed.

Lemma OpenGL_Surface_delete_then_new_reuses_witness :
  let g := OpenGL.mkSurface (Fixtures.params0 64 64 2 VideoCore.RGBA8) (OpenGL.mkTexture 9%N) in
  VideoCore.pixel_format (OpenGL.params g) <> VideoCore.Invalid /\
  (OpenGL.Surface_delete g ≫= fun _ =>
   OpenGL.Surface_new (Fixtures.desktop false) (OpenGL.params g)) Fixtures.gl_empty
  = (Returned g, Fixtures.gl_empty).
Proof.
  intros g. split; [discriminate|].
  apply (OpenGL_Surface_delete_then_new_reuses (Fixtures.desktop false) g Fixtures.gl_empty).
  - discriminate.
  - intros t Ht. inversion Ht.
Defined.

(** ** The OpenGL state around an operation *)

Lemma keeps_bind {A B} (m : M OpenGL.World A) (k : A -> M OpenGL.World B) :
  OpenGL.keeps_state m -> (forall a, OpenGL.keeps_state (k a)) ->
  OpenGL.keeps_state (m ≫= k).
Proof.
  intros Hm Hk w b w'. cbv [mbind M_bind bind].
  destruct (m w) as [[a| |] w1] eqn:E; try discriminate.
  intros H. rewrite (Hk a _ _ _ H). exact (Hm _ _ _ E).
Qed.

Ltac keeps_by_inversion :=
  let H := fresh in intros ? ? ? H; inversion H; subst; reflexivity.

Lemma keeps_ret {A} (a : A) : OpenGL.keeps_state (mret a : M OpenGL.World A).
Proof. keeps_by_inversion. Qed.

Lemma keeps_call c : OpenGL.keeps_state (OpenGL.call c).
Proof. keeps_by_inversion. Qed.

Lemma keeps_GetFormatTuple driver f : OpenGL.keeps_state (OpenGL.GetFormatTuple driver f).
Proof.
  intros w b w'. destruct (GetFormatTuple_total driver f) as [t Ht].
  rewrite Ht. intros [= _ <-]. reflexivity.
Qed.

Lemma keeps_Allocate driver width height levels format type :
  OpenGL.keeps_state (OpenGL.Allocate driver width height levels format type).
Proof.
  unfold OpenGL.Allocate. apply keeps_bind; [keeps_by_inversion|].
  intros w. destruct (OpenGL.recycler_find _ _) as [[i b]|].
  - apply keeps_bind; [keeps_by_inversion | intros; apply keeps_ret].
  - apply keeps_bind; [keeps_by_inversion|]. intros texture.
    repeat first [ apply keeps_ret
                 | apply keeps_bind;
                   [first [apply keeps_call | apply keeps_GetFormatTuple
                          | keeps_by_inversion]
                   | intros ?] ].
Qed.

Lemma keeps_Surface_new driver p : OpenGL.keeps_state (OpenGL.Surface_new driver p).
Proof.
  unfold OpenGL.Surface_new. destruct (bool_decide _); [|apply keeps_ret].
  apply keeps_bind; [apply keeps_Allocate | intros; apply keeps_ret].
Qed.

Lemma keeps_Surface_delete s : OpenGL.keeps_state (OpenGL.Surface_delete s).
Proof.
  unfold OpenGL.Surface_delete. destruct (bool_decide _); [|apply keeps_ret].
  apply keeps_bind; [keeps_by_inversion|].
  intros w. keeps_by_inversion.
Qed.

Lemma keeps_ClearTexture driver s clear :
  OpenGL.keeps_state (OpenGL.ClearTexture driver s clear).
Proof.
  intros [rec rf df cur nh cs] b w'. unfold OpenGL.ClearTexture. run_gl.
  destruct (VideoCore.type (OpenGL.params s)); intros [= _ <-]; reflexivity.
Qed.

Lemma keeps_BlitTextures driver s d blit :
  OpenGL.keeps_state (OpenGL.BlitTextures driver s d blit).
Proof.
  intros [rec rf df cur nh cs] b w'. unfold OpenGL.BlitTextures. run_gl.
  destruct (VideoCore.type (OpenGL.params s)); try discriminate;
    destruct (VideoCore.type (OpenGL.params d)); intros [= _ <-]; reflexivity.
Qed.

Lemma keeps_Upload_fuel driver fuel :
  forall s upload staging,
    OpenGL.keeps_state (OpenGL.Upload_fuel driver fuel s upload staging).
Proof.
  induction fuel as [|fuel IH]; intros s upload staging.
  - intros w b w'. discriminate.
  - rewrite OpenGL_Upload_fuel_S.
    destruct (Z.eqb_spec
                (wrap32 (VideoCore.stride (OpenGL.params s)
                         * OpenGL.GetBytesPerPixel driver
                             (VideoCore.pixel_format (OpenGL.params s))) mod 4) 0)
      as [Hrow|Hrow]; cbn [negb]; [|intros w b w'; discriminate].
    destruct (Z.eqb_spec (VideoCore.res_scale (OpenGL.params s)) 1) as [Hsc|Hsc];
      cbn [negb].
    + destruct (GetFormatTuple_total driver (VideoCore.pixel_format (OpenGL.params s)))
        as [tuple Htuple].
      intros w b w' H.
      pose proof (OpenGL_Upload_direct driver fuel s upload staging w tuple
                    Hrow Hsc Htuple) as Hd.
      rewrite OpenGL_Upload_fuel_S in Hd.
      apply Z.eqb_eq in Hrow. rewrite Hrow, Hsc in Hd. cbn [Z.eqb Pos.eqb negb] in Hd.
      rewrite Hd in H. injection H as _ <-. reflexivity.
    + unfold OpenGL.ScaledUpload.
      apply keeps_bind; [apply keeps_Surface_new | intros unscaled].
      apply keeps_bind; [apply IH | intros _].
      apply keeps_bind; [apply keeps_call | intros _].
      apply keeps_bind; [|intros _; apply keeps_Surface_delete].
      destruct (negb _); [|apply keeps_ret].
      apply keeps_bind; [apply keeps_BlitTextures | intros; apply keeps_ret].
Qed.

(** X12. Every operation of the two OpenGL runtimes hands the tracked
    [OpenGLState] back as it found it.  Whenever [ClearTexture],
    [CopyTextures], [BlitTextures], the surface constructor and destructor
    or [Upload] (direct or through the unscaled surface, the texture
    filterer and the blit) returns, the current state is the one that was
    current when it was called, although clears, blits and uploads apply
    states of their own in between; the same holds for [ClearTexture] and
    [BlitTextures] of the shared runtime. *)
Theorem OpenGL_operations_restore_state
        (driver : OpenGL.Driver) (s d : OpenGL.Surface) (ts td : OpenGL.OGLTexture)
        (p : VideoCore.SurfaceParams) (clear : OpenGL.TextureClear)
        (crect : RasterizerCache.ClearRect) (value : VideoCore.ClearValue)
        (copy : VideoCore.TextureCopy) (blit : VideoCore.TextureBlit)
        (sblit : RasterizerCache.TextureBlit)
        (upload : VideoCore.BufferTextureCopy) (staging : OpenGL.StagingData) :
  OpenGL.keeps_state (OpenGL.ClearTexture driver s clear)
  /\ OpenGL.keeps_state (OpenGL.CopyTextures s d copy)
  /\ OpenGL.keeps_state (OpenGL.BlitTextures driver s d blit)
  /\ OpenGL.keeps_state (OpenGL.Surface_new driver p)
  /\ OpenGL.keeps_state (OpenGL.Surface_delete s)
  /\ OpenGL.keeps_state (OpenGL.Upload driver s upload staging)
  /\ OpenGL.keeps_state (RasterizerCache.ClearTexture driver ts crect value)
  /\ OpenGL.keeps_state (RasterizerCache.BlitTextures driver ts td sblit).
Proof.
  split; [apply keeps_ClearTexture|].
  split; [unfold OpenGL.CopyTextures;
          apply keeps_bind; [apply keeps_call | intros; apply keeps_ret]|].
  split; [apply keeps_BlitTextures|].
  split; [apply keeps_Surface_new|].
  split; [apply keeps_Surface_delete|].
  split; [apply keeps_Upload_fuel|].
  split.
  - intros [rec rf df cur nh cs] b w'. unfold RasterizerCache.ClearTexture. run_gl.
    destruct (RasterizerCache.clear_surface_type crect); intros [= _ <-]; reflexivity.
  - intros [rec rf df cur nh cs] b w'. unfold RasterizerCache.BlitTextures. run_gl.
    destruct (RasterizerCache.surface_type sblit); intros [= _ <-]; reflexivity.
Qed.

(** ** Edge cases of the OpenGL runtime *)

(** X13. The alignment assertion of [Surface::Upload] is on the bytes per
    row of the surface it runs on.  When the surface's stride times the
    bytes per pixel is not a multiple of 4 the upload stops at once, with
    no host call.  On a scaled surface whose own rows pass, the assertion
    is met again on the unscaled surface, whose stride is the width of the
    upload rectangle: when that width times the bytes per pixel is not a
    multiple of 4, the upload stops right after the unscaled surface has
    been constructed, before any pixel is transferred. *)
Theorem OpenGL_Upload_alignment
        (driver : OpenGL.Driver) (s : OpenGL.Surface)
        (upload : VideoCore.BufferTextureCopy) (staging : OpenGL.StagingData)
        (w : OpenGL.World) :
  let bpp := OpenGL.GetBytesPerPixel driver (VideoCore.pixel_format (OpenGL.params s)) in
  let rect := VideoCore.texture_rect upload in
  let unscaled_params :=
    VideoCore.set_geometry (OpenGL.params s) (VideoCore.GetWidth rect)
                           (VideoCore.GetWidth rect) (VideoCore.GetHeight rect) 1 in
  (wrap32 (VideoCore.stride (OpenGL.params s) * bpp) mod 4 <> 0 ->
   OpenGL.Upload driver s upload staging w = (Aborted, w))
  /\ (wrap32 (VideoCore.stride (OpenGL.params s) * bpp) mod 4 = 0 ->
      VideoCore.res_scale (OpenGL.params s) <> 1 ->
      wrap32 (VideoCore.GetWidth rect * bpp) mod 4 <> 0 ->
      exists unscaled w1,
        OpenGL.Surface_new driver unscaled_params w = (Returned unscaled, w1) /\
        OpenGL.Upload driver s upload staging w = (Aborted, w1)).
Proof.
  intros bpp rect unscaled_params. split.
  - intros Hrow. unfold OpenGL.Upload. rewrite OpenGL_Upload_fuel_S. fold bpp.
    apply Z.eqb_neq in Hrow. rewrite Hrow. reflexivity.
  - intros Hrow Hsc Hw.
    destruct (OpenGL_Surface_new_total driver unscaled_params w) as (u & w1 & Hnew & Hp).
    exists u, w1. split; [exact Hnew|].
    unfold OpenGL.Upload. rewrite OpenGL_Upload_fuel_S. fold bpp.
    rewrite Hrow. apply Z.eqb_neq in Hsc. rewrite Hsc. cbn [Z.eqb negb].
    unfold OpenGL.ScaledUpload. fold rect. fold unscaled_params.
    step_with Hnew. rewrite OpenGL_Upload_fuel_S. rewrite Hp.
    cbn [VideoCore.stride VideoCore.pixel_format unscaled_params VideoCore.set_geometry].
    fold bpp. apply Z.eqb_neq in Hw. rewrite Hw. reflexivity.
Qed.

Lemma OpenGL_Upload_alignment_witness :
  let s := OpenGL.mkSurface (Fixtures.params0 64 64 2 VideoCore.RGB8) (OpenGL.mkTexture 9%N) in
  let upload := VideoCore.mkBufferTextureCopy 0 75 (VideoCore.mkRect 0 5 5 0) 0 in
  let staging := OpenGL.mkStaging 4%N 75 [] 0 in
  wrap32 (VideoCore.stride (OpenGL.params s) * 3) mod 4 = 0 /\
  wrap32 (VideoCore.GetWidth (VideoCore.texture_rect upload) * 3) mod 4 <> 0 /\
  exists w1,
    OpenGL.Upload (Fixtures.desktop false) s upload staging Fixtures.gl_empty = (Aborted, w1).
Proof.
  intros s upload staging. split; [reflexivity|]. split; [discriminate|].
  destruct (proj2 (OpenGL_Upload_alignment (Fixtures.desktop false) s upload staging
                     Fixtures.gl_empty)
              eq_refl ltac:(discriminate) ltac:(discriminate))
    as (u & w1 & _ & H).
  exists w1. exact H.
Defined.

(** X14. [BlitTextures] of the OpenGL runtime returns exactly when source
    and destination have a surface type [BindFramebuffer] has a case for
    (Color, Texture, Depth, DepthStencil).  For a Fill surface, which
    [ClearTexture] and [MakeBufferMask] treat as colour, it stops at
    [UNREACHABLE] before any [glBlitFramebuffer] is issued; the shared
    runtime blits the same type as colour. *)
Theorem OpenGL_BlitTextures_returns_iff
        (driver : OpenGL.Driver) (s d : OpenGL.Surface) (ts td : OpenGL.OGLTexture)
        (blit : VideoCore.TextureBlit) (sblit : RasterizerCache.TextureBlit)
        (clear : OpenGL.TextureClear) (w : OpenGL.World) :
  let run := OpenGL.BlitTextures driver s d blit w in
  (run.1 = Returned true <->
   OpenGL.bindable (VideoCore.type (OpenGL.params s)) = true /\
   OpenGL.bindable (VideoCore.type (OpenGL.params d)) = true)
  /\ (run.1 <> Returned true ->
      run.1 = Aborted /\
      OpenGL.blit_filters (OpenGL.calls run.2) = OpenGL.blit_filters (OpenGL.calls w))
  /\ (VideoCore.type (OpenGL.params s) = VideoCore.Fill ->
      run.1 = Aborted /\
      (OpenGL.ClearTexture driver s clear w).1 = Returned true /\
      (RasterizerCache.surface_type sblit = VideoCore.Fill ->
       (RasterizerCache.BlitTextures driver ts td sblit w).1 = Returned true)).
Proof.
  intros run. subst run. destruct w as [rec rf df cur nh cs].
  destruct s as [[gw gh gst gl gsc gti gtt gpf gty] gt],
           d as [[dw dh dst dl dsc dti dtt dpf dty] dt],
           sblit as [sty sl dl' sr dr].
  cbn [OpenGL.params VideoCore.type RasterizerCache.surface_type].
  split; [|split].
  - unfold OpenGL.BlitTextures. run_gl. cbn [OpenGL.params VideoCore.type].
    destruct gty, dty; cbn; split; try discriminate; try (intros [? ?]; discriminate);
      auto.
  - unfold OpenGL.BlitTextures. run_gl. cbn [OpenGL.params VideoCore.type].
    destruct gty, dty; cbn [fst snd]; intros H; try (exfalso; apply H; reflexivity);
      (split; [reflexivity|]); cbn [OpenGL.calls];
      unfold OpenGL.blit_filters; rewrite ?flat_map_app; cbn [flat_map app];
      rewrite ?app_nil_r; reflexivity.
  - intros ->. split; [|split].
    + unfold OpenGL.BlitTextures. run_gl. reflexivity.
    + unfold OpenGL.ClearTexture. run_gl. reflexivity.
    + intros ->. unfold RasterizerCache.BlitTextures. run_gl. reflexivity.
Qed.

(** X15. [NeedsConvertion] of the OpenGL runtime agrees with its format
    tables: a pixel format needs conversion exactly on OpenGL ES and when
    the tuple [GetFormatTuple] answers there differs from the one it
    answers on desktop OpenGL (RGBA8 and RGB8, which ES stores and
    transfers as RGBA bytes); on desktop OpenGL no format needs it. *)
Theorem OpenGL_NeedsConvertion_iff_tuples_differ
        (es gl : OpenGL.Driver) (f : VideoCore.PixelFormat) (w : OpenGL.World) :
  OpenGL.IsOpenGLES es = true ->
  OpenGL.IsOpenGLES gl = false ->
  (OpenGL.NeedsConvertion es f = true <->
   (OpenGL.GetFormatTuple es f w).1 <> (OpenGL.GetFormatTuple gl f w).1)
  /\ OpenGL.NeedsConvertion gl f = false.
Proof.
  intros Hes Hgl. unfold OpenGL.NeedsConvertion, OpenGL.GetFormatTuple.
  rewrite Hes, Hgl. split; [|reflexivity].
  destruct f; cbn; split; try discriminate; try (intros H; exfalso; apply H; reflexivity);
    reflexivity.
Qed.

Lemma OpenGL_NeedsConvertion_iff_tuples_differ_witness :
  let es := OpenGL.mkDriver true Fixtures.gl_state0 (fun _ => 4) (fun _ _ _ _ _ => false) in
  OpenGL.IsOpenGLES es = true /\
  OpenGL.NeedsConvertion es VideoCore.RGB8 = true /\
  OpenGL.NeedsConvertion es VideoCore.RGB565 = false /\
  OpenGL.NeedsConvertion (Fixtures.desktop false) VideoCore.RGB8 = false.
Proof.
  intros es. split; [reflexivity|].
  pose proof (OpenGL_NeedsConvertion_iff_tuples_differ
                es (Fixtures.desktop false) VideoCore.RGB8 Fixtures.gl_empty
                eq_refl eq_refl) as [H1 H2].
  split; [apply H1; discriminate|]. split; [reflexivity | exact H2].
Defined.

(** ** Converting staged pixels *)

(** X16. What [FormatConvert] does to the destination span, by format.  A
    format that is not a colour format (depth, depth-stencil, texture)
    never needs conversion, whatever the device.  A format that needs none
    is copied: the destination starts with the source bytes and keeps the
    rest, in both directions.  RGBA8 always needs conversion and goes
    through [ConvertABGRToRGBA] in both directions.  A colour format that
    needs conversion and has no converter in the direction asked (on
    upload every format but RGBA8 and RGB8, on download every format but
    RGBA8, RGB8 and RGBA4) is not converted at all: the destination is left
    as it was and a warning is logged. *)
Theorem FormatConvert_by_format
        (instance : Vulkan.Instance)
        (convert : Vulkan.Converter -> list byte -> list byte -> list byte)
        (surface : Vulkan.Surface) (upload : bool) (source : list byte)
        (m : Vulkan.Memory) :
  let pf := VideoCore.pixel_format (Vulkan.params surface) in
  let run := Vulkan.FormatConvert instance convert surface upload source m in
  (VideoCore.GetFormatType pf <> VideoCore.Color -> Vulkan.NeedsConvertion instance pf = false)
  /\ (Vulkan.NeedsConvertion instance pf = false ->
      (length source <= length (Vulkan.mem m))%nat ->
      exists dest',
        run = (Returned tt, Vulkan.mkMemory dest' (Vulkan.mem_log m)) /\
        take (length source) dest' = source /\
        drop (length source) dest' = drop (length source) (Vulkan.mem m) /\
        length dest' = length (Vulkan.mem m))
  /\ (pf = VideoCore.RGBA8 ->
      run = (Returned tt,
             Vulkan.mkMemory (convert Vulkan.ConvertABGRToRGBA source (Vulkan.mem m))
                             (Vulkan.mem_log m)))
  /\ (Vulkan.NeedsConvertion instance pf = true ->
      pf <> VideoCore.RGBA8 -> pf <> VideoCore.RGB8 ->
      upload = true \/ pf <> VideoCore.RGBA4 ->
      run = (Returned tt,
             Vulkan.mkMemory (Vulkan.mem m) (Vulkan.mem_log m ++ [Vulkan.LogWarning]))).
Proof.
  intros pf run. subst run. unfold Vulkan.FormatConvert. fold pf.
  split; [|split; [|split]].
  - intros Hty. unfold Vulkan.NeedsConvertion.
    rewrite (bool_decide_eq_false_2 _ Hty). reflexivity.
  - intros Hn Hlen. rewrite Hn. cbn [negb].
    apply Nat.leb_le in Hlen as Hlen'. rewrite Hlen'.
    eexists. split; [reflexivity|].
    split; [apply take_app_length|]. split; [apply drop_app_length|].
    rewrite length_app, length_drop. lia.
  - intros Hpf. unfold Vulkan.NeedsConvertion. rewrite Hpf. cbn [VideoCore.GetFormatType].
    rewrite !bool_decide_eq_true_2 by reflexivity. cbn [orb andb negb].
    destruct upload; reflexivity.
  - intros Hn H8 H3 H4. rewrite Hn. cbn [negb].
    destruct upload.
    + destruct pf; try reflexivity; congruence.
    + destruct H4 as [?|H4]; [discriminate|].
      destruct pf; try reflexivity; congruence.
Qed.

(** ** The size of a depth-stencil staging buffer *)

(** The unpack loop either stops at an access outside the buffer or
    returns four bytes of depth per stencil byte it had room for. *)
Lemma unpack_loop_outcome fuel :
  forall size d s m,
    0 <= s <= size -> size - s <= Z.of_nat fuel -> 0 <= d ->
    d + 4 * (size - s) < 2 ^ 32 -> size < 2 ^ 32 ->
    (Vulkan.unpack_loop fuel size d s m).1 = Aborted \/
    (Vulkan.unpack_loop fuel size d s m).1 = Returned (d + 4 * (size - s)).
Proof.
  change (2 ^ 32) with 4294967296.
  induction fuel as [|fuel IH]; intros size d s m Hs Hfuel Hd Hbound Hsize.
  - assert (s = size) as -> by lia. rewrite unpack_loop_done by lia.
    right. cbn. f_equal. lia.
  - destruct (Z.ltb_spec s size) as [Hlt|Hge].
    + cbn [Vulkan.unpack_loop]. apply Z.ltb_lt in Hlt as Hlt'. rewrite Hlt'.
      cbv [mbind M_bind bind Vulkan.load_u32 Vulkan.store_byte Vulkan.store_u32].
      destruct (Vulkan.MakeInt_u32 _ _); [|left; reflexivity].
      destruct (_ <? _)%nat; [|left; reflexivity].
      cbn [Vulkan.mem Vulkan.mem_log].
      destruct (_ <=? _)%nat; [|left; reflexivity].
      rewrite !wrap32_small by (change (2 ^ 32) with 4294967296; lia).
      match goal with
      | |- context [Vulkan.unpack_loop fuel size (d + 4) (s + 1) ?m1] =>
          destruct (IH size (d + 4) (s + 1) m1) as [H|H]; try lia;
          [left; exact H | right; rewrite H; f_equal; lia]
      end.
    + rewrite unpack_loop_done by lia. right. cbn. f_equal. lia.
Qed.

(** X17. [UnpackDepthStencil] takes buffers of five bytes per texel and no
    other.  For the host format D24S8 and a size whose fourfold fits 32
    bits, the function never returns when the size is not a multiple of 5:
    it stops at an access outside the buffer or at its final assertion.
    The size [GetInternalBytesPerPixel] gives a D24S8 surface, five bytes
    per texel, is one it returns on, with the offset [4n] of the stencil
    plane. *)
Theorem UnpackDepthStencil_size_multiple_of_five
        (instance : Vulkan.Instance) (surface : Vulkan.Surface)
        (data : Vulkan.StagingData) (m : Vulkan.Memory) :
  0 <= Vulkan.size data ->
  4 * Vulkan.size data < 2 ^ 32 ->
  let run := Vulkan.UnpackDepthStencil data Vulkan.eD24UnormS8Uint m in
  (Vulkan.size data mod 5 <> 0 -> run.1 = Aborted)
  /\ run.1 <> OutOfFuel
  /\ (forall n : nat,
         Vulkan.alloc_format (Vulkan.alloc surface) = Vulkan.eD24UnormS8Uint ->
         Vulkan.size data = Vulkan.GetInternalBytesPerPixel instance surface * Z.of_nat n ->
         length (Vulkan.mem m) = Z.to_nat (Vulkan.size data) ->
         run.1 = Returned (4 * Z.of_nat n)).
Proof.
  intros Hpos Hbound run. change (2 ^ 32) with 4294967296 in Hbound.
  assert (wrap32 (4 * Vulkan.size data) = 4 * Vulkan.size data) as Hw
      by (apply wrap32_small; change (2 ^ 32) with 4294967296; lia).
  set (s0 := 4 * Vulkan.size data / 5).
  assert (0 <= s0 <= Vulkan.size data) as Hs0
      by (subst s0; Z.div_mod_to_equations; lia).
  pose proof (unpack_loop_outcome (Z.to_nat (Vulkan.size data)) (Vulkan.size data) 0 s0 m
                Hs0 ltac:(lia) ltac:(lia)
                ltac:(change (2 ^ 32) with 4294967296; lia)
                ltac:(change (2 ^ 32) with 4294967296; lia)) as Hout.
  assert (run = match Vulkan.unpack_loop (Z.to_nat (Vulkan.size data)) (Vulkan.size data)
                                         0 s0 m with
                | (Returned d, w') => if d =? s0 then (Returned d, w') else (Aborted, w')
                | (Aborted, w') => (Aborted, w')
                | (OutOfFuel, w') => (OutOfFuel, w')
                end) as Hrun.
  { subst run. unfold Vulkan.UnpackDepthStencil. rewrite Hw. fold s0.
    cbv [mbind M_bind bind mret M_ret ret abort].
    destruct (Vulkan.unpack_loop _ _ _ _ _) as [[d| |] w'];
      [destruct (d =? s0)|..]; reflexivity. }
  split; [|split].
  - intros Hmod. rewrite Hrun.
    destruct (Vulkan.unpack_loop _ _ _ _ _) as [[d| |] w']; cbn [fst] in *;
      destruct Hout as [Hout|Hout]; try discriminate; try reflexivity.
    injection Hout as ->.
    destruct (Z.eqb_spec (0 + 4 * (Vulkan.size data - s0)) s0) as [E|E]; [|reflexivity].
    exfalso. subst s0. revert E Hmod. Z.div_mod_to_equations. lia.
  - rewrite Hrun.
    destruct (Vulkan.unpack_loop _ _ _ _ _) as [[d| |] w']; cbn [fst] in *;
      destruct Hout as [Hout|Hout]; try discriminate.
    destruct (d =? s0); discriminate.
  - intros n Hfmt Hsize Hlen. unfold Vulkan.GetInternalBytesPerPixel in Hsize.
    rewrite (bool_decide_eq_true_2 _ Hfmt) in Hsize.
    destruct (UnpackDepthStencil_run n data m) as (bytes' & Hr & _).
    + change (2 ^ 32) with 4294967296. lia.
    + exact Hsize.
    + rewrite Hlen, Hsize. lia.
    + subst run. rewrite Hr. reflexivity.
Qed.

Lemma UnpackDepthStencil_size_multiple_of_five_witness :
  let data := Vulkan.mkStaging 0%N 8 (map byte.of_Z [17; 34; 51; 68;  1; 2; 3; 4]) 0 in
  0 <= Vulkan.size data /\
  Vulkan.size data mod 5 <> 0 /\
  (Vulkan.run_UnpackDepthStencil data Vulkan.eD24UnormS8Uint).1 = Aborted.
Proof.
  intros data. split; [discriminate|]. split; [discriminate|].
  exact (proj1 (UnpackDepthStencil_size_multiple_of_five
                  Fixtures.capable
                  (Vulkan.mkSurface (Fixtures.params0 2 1 1 VideoCore.D24S8)
                                    (Fixtures.some_alloc 7 Vulkan.eD24UnormS8Uint)
                                    Vulkan.default_traits)
                  data (Vulkan.mkMemory (Vulkan.mapped data) [])
                  ltac:(discriminate) eq_refl)
               ltac:(discriminate)).
Defined.

(** ** Staging memory of the OpenGL runtime *)

(** X18. [FindStaging] for a download never shrinks the download buffer
    and never moves what it holds.  It answers a span of exactly [size]
    bytes with no buffer object and offset 0, which is the start of the
    download buffer; the buffer is as long as before when the size fits and
    exactly [size] long otherwise, and its old bytes are where they were
    (new bytes are zero).  Two download stagings therefore overlap: the
    shorter one is a prefix of the longer one. *)
Theorem FindStaging_download_grows_only
        (upload_Map : Z -> Z -> list byte * Z * bool) (upload_Handle : OpenGL.Handle)
        (size : Z) (buf : list byte) :
  0 <= size ->
  exists buf',
    OpenGL.FindStaging upload_Map upload_Handle size false buf
    = (Returned (OpenGL.mkStaging 0%N size (take (Z.to_nat size) buf') 0), buf') /\
    length buf' = Nat.max (length buf) (Z.to_nat size) /\
    take (length buf) buf' = buf /\
    drop (length buf) buf' = replicate (Z.to_nat size - length buf) (byte.of_Z 0) /\
    length (take (Z.to_nat size) buf') = Z.to_nat size /\
    (forall size2 buf2 st2,
        size <= size2 ->
        OpenGL.FindStaging upload_Map upload_Handle size2 false buf' = (Returned st2, buf2) ->
        take (Z.to_nat size) (OpenGL.mapped st2) = take (Z.to_nat size) buf').
Proof.
  intros Hpos.
  assert (forall sz b,
             OpenGL.FindStaging upload_Map upload_Handle sz false b
             = let b' := if Z.of_nat (length b) <? sz
                         then b ++ replicate (Z.to_nat sz - length b) (byte.of_Z 0)
                         else b in
               (Returned (OpenGL.mkStaging 0%N sz (take (Z.to_nat sz) b') 0), b')) as Hrun.
  { intros sz b. unfold OpenGL.FindStaging. cbn [negb].
    cbv [mbind M_bind bind mret M_ret ret get modify].
    destruct (Z.of_nat (length b) <? sz); reflexivity. }
  rewrite Hrun. cbn zeta.
  destruct (Z.ltb_spec (Z.of_nat (length buf)) size) as [Hlt|Hge].
  - eexists. split; [reflexivity|].
    assert (length (buf ++ replicate (Z.to_nat size - length buf) (byte.of_Z 0))
            = Z.to_nat size) as Hlen by (rewrite length_app, length_replicate; lia).
    split; [rewrite Hlen; lia|]. split; [apply take_app_length|].
    split; [apply drop_app_length|].
    split; [rewrite length_take, Hlen; lia|].
    intros size2 buf2 st2 Hle. rewrite Hrun. cbn zeta. intros [= <- <-].
    cbn [OpenGL.mapped]. rewrite take_take.
    replace (Z.to_nat size `min` Z.to_nat size2)%nat with (Z.to_nat size) by lia.
    destruct (_ <? size2); [|reflexivity].
    rewrite take_app_le by lia. reflexivity.
  - exists buf. split; [reflexivity|].
    split; [lia|]. split; [apply firstn_all|].
    split; [rewrite drop_all; replace (Z.to_nat size - length buf)%nat with 0%nat by lia;
            reflexivity|].
    split; [rewrite length_take; lia|].
    intros size2 buf2 st2 Hle. rewrite Hrun. cbn zeta. intros [= <- <-].
    cbn [OpenGL.mapped]. rewrite take_take.
    replace (Z.to_nat size `min` Z.to_nat size2)%nat with (Z.to_nat size) by lia.
    destruct (_ <? size2); [|reflexivity].
    rewrite take_app_le by lia. reflexivity.
Qed.

Lemma FindStaging_download_grows_only_witness :
  0 <= 4 /\
  exists buf',
    OpenGL.FindStaging (fun _ _ => ([], 0, false)) 5%N 4 false (map byte.of_Z [1; 2])
    = (Returned (OpenGL.mkStaging 0%N 4 buf' 0), buf') /\
    buf' = map byte.of_Z [1; 2; 0; 0].
Proof.
  split; [discriminate|].
  destruct (FindStaging_download_grows_only (fun _ _ => ([], 0, false)) 5%N 4
              (map byte.of_Z [1; 2]) ltac:(discriminate))
    as (buf' & Hrun & _ & Htake & Hdrop & _).
  exists buf'.
  assert (buf' = map byte.of_Z [1; 2; 0; 0]) as ->.
  { rewrite <- (take_drop (length (map byte.of_Z [1; 2])) buf'), Htake, Hdrop. reflexivity. }
  split; [exact Hrun | reflexivity].
Defined.
